(** * Workflow execution and continual learning of the AGI assistant

    A shallow embedding of the execution controller and the learning
    recorder of [dashboard.py], and of the step dispatcher of
    [run_automation.py], with the properties the design document states
    about them.

    Conventions of the embedding.
    - Python's module globals ([automation_running], [execution_logs]),
      the learning database file, standard output and the calls made on
      the input injector are the fields of one [World] that every
      operation threads through.
    - A Python exception is the [Raise] outcome of a computation; the
      world changes made before it was raised are kept, as in Python.
    - What the program cannot decide by itself is a field of [Env]: the
      content of the workflow files, the readings of the clock, whether a
      call on the injector raises, and at which loop iteration a stop
      request has been served by the web thread.
    - Log messages are constructors that carry the values the f-strings
      interpolate, not rendered text.
    - The JSON documents are typed as section 6 of the design document
      gives them. An optional key is an [option]; [None] is the absent
      key, to which the code's [.get(key, default)] applies its default.
    - Numbers that the code only counts with are in [Z]. The two float
      computations are kept apart: the success-rate query is evaluated in
      binary64 ([SpecFloat]), the controller's test [success_rate == 100]
      on the exact quotient. *)

From Stdlib Require Import ZArith QArith Qround List String Ascii Lia.
From Stdlib Require Import Floats.SpecFloat.
From stdpp Require Import gmap strings list.

Local Open Scope string_scope.
Local Open Scope list_scope.
Local Open Scope Z_scope.

(** ** JSON values and the two persisted documents *)

(** A scalar found under a key of a step's [args]. *)
Inductive value :=
  | VNull
  | VBool (b : bool)
  | VNum (q : Q)
  | VStr (s : string).

(** Python truthiness, as used by [if not text]. *)
Definition truthy (v : value) : bool :=
  match v with
  | VNull => false
  | VBool b => b
  | VNum q => negb (Qeq_bool q 0)
  | VStr s => negb (String.eqb s "")
  end.

Definition timestamp := string.

(** One element of [automation_steps]. [None] is an absent key. *)
Record Step := {
  step_num : option Z;
  action : option string;
  target : option string;
  args : option (gmap string value);
  description : option string;
  command : option string
}.

Record Workflow := {
  wf_workflow_id : string;
  wf_created_at : string;
  automation_steps : list Step
}.

(** [learning_data['success_rate'][workflow_id]] *)
Record Stats := {
  stat_total : Z;
  stat_successful : Z;
  stat_last_run : option timestamp
}.

(** One element of [learning_data['learning_curve']]. *)
Record CurveEntry := {
  ce_timestamp : timestamp;
  ce_workflow_id : string;
  ce_success : bool;
  ce_steps_completed : Z;
  ce_total_steps : Z
}.

Record LearningData := {
  total_sessions : Z;
  total_automations : Z;
  workflow_improvements : gmap string value;
  success_rate : gmap string Stats;
  learning_curve : list CurveEntry
}.

(** ** Exceptions, effects and log messages *)

Inductive exn :=
  | ZeroDivisionError
  | AttributeError
  | TypeError
  | ValueError
  | OverflowError
  | OSError
  | JSONDecodeError
  | InjectorError (what : string).

(** A call that leaves the process: the three [pyautogui] entry points
    and [time.sleep]. *)
Inductive Call :=
  | CClick (x y : value)
  | CWrite (text : value)
  | CHotkey (key_list : list string)
  | CSleep (seconds : Q).

(** The entries of [reasoning_templates] and the fallback text. *)
Inductive Reason := RClick | RType | RWait | RHotkey | RLearned.

(** The sentence [get_reasoning_for_action] adds to the base reason. *)
Inductive Context := CtxNone | CtxSave | CtxOpen | CtxClose.

Inductive Message :=
  (* dashboard.py, log_feedback *)
  | MsgNotFound
  | MsgStarting (workflow_id : string)
  | MsgTotalSteps (n : Z)
  | MsgPrepare
  | MsgStopped
  | MsgStep (i : nat) (n : Z) (action : string)
  | MsgReasoning (r : Reason) (c : Context)
  | MsgClicking (target : string)
  | MsgClicked (x y : value)
  | MsgNoCoordinates
  | MsgTyping (text : value)
  | MsgTyped
  | MsgWaiting (seconds : value)
  | MsgWaitComplete
  | MsgPressing (keys : value)
  | MsgHotkeyPressed
  | MsgUnknownAction (action : string)
  | MsgStepError (e : exn)
  | MsgAllDone (n : Z)
  | MsgPartial (successful_steps n : Z)
  | MsgCritical (e : exn)
  (* run_automation.py, print *)
  | OutNoSteps
  | OutBanner (workflow_id : string) (steps : Z) (dry_run : bool)
  | OutLiveStart
  | OutHeader (step_num : option Z) (action : string) (description : string)
  | OutWouldExecute (action : string)
  | OutClickingAt (x y : value)
  | OutNoClickTarget (target : string)
  | OutRound2Detection
  | OutNoText
  | OutTyping (text : value)
  | OutWaiting (seconds : value)
  | OutNoHotkey
  | OutPressing (keys : value)
  | OutNoCommand
  | OutExecuting (command : string)
  | OutRound2Command
  | OutUnknownAction (action : string)
  | OutCompleted (step_num : option Z)
  | OutError (step_num : option Z) (e : exn).

Record LogEntry := {
  log_timestamp : timestamp;
  log_message : Message;
  log_step : option Step
}.

(** ** The world and its environment *)

Record World := {
  automation_running : bool;
  execution_logs : list LogEntry;
  learning_db : option LearningData;  (* data/learning_database.json *)
  db_writable : bool;                 (* open(learning_db, 'w') succeeds *)
  ticks : nat;                        (* readings of the clock so far *)
  effects : list Call;                (* calls that left the process *)
  stdout : list Message
}.

(** A workflow file as [open] and [json.load] see it. *)
Inductive File :=
  | Missing
  | Unreadable (e : exn)
  | Content (workflow : Workflow).

Record Env := {
  workflow_file : string -> File;
  now : nat -> timestamp;
  injector : nat -> Call -> option exn;
  stop_requested : nat -> bool;
  started_again : nat -> bool
}.

Inductive Outcome (A : Type) :=
  | Ok (a : A)
  | Raise (e : exn).
Arguments Ok {A} a.
Arguments Raise {A} e.

Definition M (A : Type) : Type := World -> Outcome A * World.

Definition ret {A} (a : A) : M A := fun w => (Ok a, w).
Definition raise {A} (e : exn) : M A := fun w => (Raise e, w).
Definition bind {A B} (c : M A) (k : A -> M B) : M B :=
  fun w => match c w with
           | (Ok a, w') => k a w'
           | (Raise e, w') => (Raise e, w')
           end.
(** [try: c  except Exception as e: h e] *)
Definition try_except {A} (c : M A) (h : exn -> M A) : M A :=
  fun w => match c w with
           | (Ok a, w') => (Ok a, w')
           | (Raise e, w') => h e w'
           end.

Notation "'let*' x ':=' c 'in' k" := (bind c (fun x => k))
  (at level 10, x name, c at level 100, k at level 200).
Notation "c '>>' k" := (bind c (fun _ => k))
  (at level 100, k at level 200, right associativity).

Definition lift {A} (o : Outcome A) : M A := fun w => (o, w).

Definition set_automation_running (b : bool) : M unit := fun w =>
  (Ok tt, {| automation_running := b; execution_logs := execution_logs w;
             learning_db := learning_db w; db_writable := db_writable w;
             ticks := ticks w; effects := effects w; stdout := stdout w |}).

Definition set_execution_logs (l : list LogEntry) : M unit := fun w =>
  (Ok tt, {| automation_running := automation_running w; execution_logs := l;
             learning_db := learning_db w; db_writable := db_writable w;
             ticks := ticks w; effects := effects w; stdout := stdout w |}).

Definition set_learning_db (d : option LearningData) : M unit := fun w =>
  (Ok tt, {| automation_running := automation_running w;
             execution_logs := execution_logs w;
             learning_db := d; db_writable := db_writable w;
             ticks := ticks w; effects := effects w; stdout := stdout w |}).

(** [print(...)] *)
Definition print (m : Message) : M unit := fun w =>
  (Ok tt, {| automation_running := automation_running w;
             execution_logs := execution_logs w;
             learning_db := learning_db w; db_writable := db_writable w;
             ticks := ticks w; effects := effects w;
             stdout := stdout w ++ [m] |}).

(** [datetime.now().isoformat()] *)
Definition datetime_now (env : Env) : M timestamp := fun w =>
  (Ok (now env (ticks w)),
   {| automation_running := automation_running w;
      execution_logs := execution_logs w;
      learning_db := learning_db w; db_writable := db_writable w;
      ticks := S (ticks w); effects := effects w; stdout := stdout w |}).

(** A call on the injector: recorded, then it returns or raises as the
    environment decides. *)
Definition inject (env : Env) (c : Call) : M unit := fun w =>
  let w' := {| automation_running := automation_running w;
               execution_logs := execution_logs w;
               learning_db := learning_db w; db_writable := db_writable w;
               ticks := ticks w; effects := effects w ++ [c];
               stdout := stdout w |} in
  match injector env (List.length (effects w)) c with
  | None => (Ok tt, w')
  | Some e => (Raise e, w')
  end.

(** [time.sleep(seconds)] on a literal: it blocks and returns. *)
Definition sleep (seconds : Q) : M unit := fun w =>
  (Ok tt, {| automation_running := automation_running w;
             execution_logs := execution_logs w;
             learning_db := learning_db w; db_writable := db_writable w;
             ticks := ticks w; effects := effects w ++ [CSleep seconds];
             stdout := stdout w |}).

(** [time.sleep] first converts its argument to nanoseconds in a C
    [int64]: a length of 2^63 nanoseconds or more in absolute value does
    not fit. *)
Definition fits_time_t (q : Q) : bool :=
  Qle_bool (inject_Z (- 2 ^ 63)) (q * inject_Z (10 ^ 9))
  && negb (Qle_bool (inject_Z (2 ^ 63)) (q * inject_Z (10 ^ 9))).

(** [time.sleep(v)] on a value read from JSON: a length that does not
    fit is an [OverflowError], a negative length a [ValueError], a
    non-number a [TypeError]; [True] and [False] are the integers 1 and
    0. *)
Definition time_sleep (v : value) : M unit :=
  match v with
  | VNum q =>
      if fits_time_t q then
        if Qle_bool 0 q then sleep q else raise ValueError
      else raise OverflowError
  | VBool b => sleep (if b then 1%Q else 0%Q)
  | VNull | VStr _ => raise TypeError
  end.

(** ** Python arithmetic *)

(** IEEE 754 binary64, Python's [float]. *)
Definition prec : Z := 53.
Definition emax : Z := 1024.

(** [float(z)]: the integer rounded to the nearest double (exact below
    2^53). *)
Definition float_of_int (z : Z) : spec_float :=
  binary_normalize prec emax z 0 false.

(** [a / b] on two ints: the quotient of the two integers, rounded once
    to the nearest double, ties to even; [ZeroDivisionError] for a zero
    divisor, [OverflowError] for a quotient too large for a double. The
    quotient is taken with [shift] binary places, enough for 56
    significant bits, and one more bit that tells whether a remainder
    was left; rounding that number is rounding the exact quotient. *)
Definition py_truediv (a b : Z) : Outcome spec_float :=
  if b =? 0 then Raise ZeroDivisionError
  else
    let negative := xorb (a <? 0) (b <? 0) in
    let n := Z.abs a in
    let d := Z.abs b in
    let shift := Z.max 0 (Z.log2 d - Z.log2 n + 56) in
    let q := (n * 2 ^ shift) / d in
    let r := (n * 2 ^ shift) mod d in
    let m := 2 * q + (if r =? 0 then 0 else 1) in
    match binary_normalize prec emax (if negative then - m else m)
            (- (shift + 1)) negative with
    | S754_infinity _ => Raise OverflowError
    | x => Ok x
    end.

(** [x * n] with [x] a float and [n] an int. *)
Definition py_mul (x : spec_float) (n : Z) : spec_float :=
  SFmul prec emax x (float_of_int n).

(** [int(x)]: truncation toward zero; infinities and NaN raise. *)
Definition py_int (x : spec_float) : Outcome Z :=
  match x with
  | S754_zero _ => Ok 0
  | S754_finite s m e =>
      let v := if 0 <=? e then Z.pos m * 2 ^ e else Z.pos m / 2 ^ (- e) in
      Ok (if s then - v else v)
  | S754_infinity _ => Raise OverflowError
  | S754_nan => Raise ValueError
  end.

(** The controller's [(successful_steps / len(steps)) * 100], whose only
    uses are the test [success_rate == 100] and a rounded display. The
    quotient is kept as the exact rational here; [success_test_binary64]
    below checks the test against the binary64 computation. *)
Definition success_ratio (successful_steps n : Z) : Outcome Q :=
  if n =? 0 then Raise ZeroDivisionError
  else Ok ((inject_Z successful_steps / inject_Z n) * 100)%Q.

Definition is_100 (success_rate : Q) : bool := Qeq_bool success_rate 100.

(** ** The learning recorder (dashboard.py) *)

Definition empty_learning_data : LearningData :=
  {| total_sessions := 0; total_automations := 0;
     workflow_improvements := ∅; success_rate := ∅; learning_curve := [] |}.

(** [load_learning_data]: the stored document, or the empty one when the
    file does not exist. *)
Definition load_learning_data : M LearningData := fun w =>
  (Ok (default empty_learning_data (learning_db w)), w).

(** [save_learning_data]: [open(..., 'w')] then [json.dump]; no handler.
    The failure followed here is the refusal of [open] (a directory that
    is missing or read-only), which leaves the file as it was. A failure
    of [json.dump] after the open would leave a truncated file; that is
    not among the worlds of this development, in which [learning_db] is
    a document or no file. *)
Definition save_learning_data (data : LearningData) : M unit := fun w =>
  if db_writable w then set_learning_db (Some data) w
  else (Raise OSError, w).

Definition zero_stats : Stats :=
  {| stat_total := 0; stat_successful := 0; stat_last_run := None |}.

(** [l[-100:]] *)
Definition last_100 {A} (l : list A) : list A :=
  drop (List.length l - 100)%nat l.

Definition update_learning_data (env : Env) (workflow_id : string)
    (success : bool) (successful_steps total_steps : Z) : M unit :=
  let* learning_data := load_learning_data in
  let total_automations' := total_automations learning_data + 1 in
  let success_rate' :=
    match success_rate learning_data !! workflow_id with
    | None => <[workflow_id := zero_stats]> (success_rate learning_data)
    | Some _ => success_rate learning_data
    end in
  let stats := default zero_stats (success_rate' !! workflow_id) in
  let* last_run := datetime_now env in
  let stats' :=
    {| stat_total := stat_total stats + 1;
       stat_successful :=
         if success then stat_successful stats + 1 else stat_successful stats;
       stat_last_run := Some last_run |} in
  let* t := datetime_now env in
  let curve :=
    learning_curve learning_data ++
    [ {| ce_timestamp := t; ce_workflow_id := workflow_id;
         ce_success := success; ce_steps_completed := successful_steps;
         ce_total_steps := total_steps |} ] in
  save_learning_data
    {| total_sessions := total_sessions learning_data;
       total_automations := total_automations';
       workflow_improvements := workflow_improvements learning_data;
       success_rate := <[workflow_id := stats']> success_rate';
       learning_curve := last_100 curve |}.

Definition get_execution_count (workflow_id : string) : M Z :=
  let* learning_data := load_learning_data in
  ret (stat_total
         (default zero_stats (success_rate learning_data !! workflow_id))).

Definition get_success_rate (workflow_id : string) : M Z :=
  let* learning_data := load_learning_data in
  let stats := success_rate learning_data !! workflow_id in
  let total := from_option stat_total 0 stats in
  let successful := from_option stat_successful 0 stats in
  if total =? 0 then ret 0
  else
    let* q := lift (py_truediv successful total) in
    lift (py_int (py_mul q 100)).

Definition get_last_execution (workflow_id : string) : M (option timestamp) :=
  let* learning_data := load_learning_data in
  ret (stats ← success_rate learning_data !! workflow_id; stat_last_run stats).

(** ** String helpers *)

(** [str.lower] on ASCII strings: a string is the sequence of its
    bytes, and only the letters A to Z are changed. On a string with
    other letters [str.lower] changes those too; what is proved of the
    lowered string itself is proved for ASCII strings. *)
Definition lower_ascii (c : ascii) : ascii :=
  let n := nat_of_ascii c in
  if ((65 <=? n) && (n <=? 90))%nat then ascii_of_nat (n + 32) else c.

Fixpoint lower (s : string) : string :=
  match s with
  | EmptyString => EmptyString
  | String c r => String (lower_ascii c) (lower r)
  end.

(** [sub in s] *)
Fixpoint contains (sub s : string) : bool :=
  String.prefix sub s ||
  match s with
  | EmptyString => false
  | String _ r => contains sub r
  end.

(** [s.replace(' ', '')] *)
Fixpoint remove_spaces (s : string) : string :=
  match s with
  | EmptyString => EmptyString
  | String c r =>
      if Ascii.eqb c " " then remove_spaces r else String c (remove_spaces r)
  end.

(** [s.split('+')] *)
Fixpoint split_plus (s : string) : list string :=
  match s with
  | EmptyString => [EmptyString]
  | String c r =>
      if Ascii.eqb c "+" then EmptyString :: split_plus r
      else match split_plus r with
           | h :: t => String c h :: t
           | [] => [String c EmptyString]
           end
  end.

(** [keys.lower().replace(' ', '').split('+')] *)
Definition parse_hotkey (keys : string) : list string :=
  split_plus (remove_spaces (lower keys)).

(** [step.get('args', {}).get(key)] *)
Definition arg (step : Step) (key : string) : option value :=
  default ∅ (args step) !! key.

(** ** The execution controller (dashboard.py) *)

(** [execution_logs.append(log_entry)] *)
Definition append_log (e : LogEntry) : M unit := fun w =>
  set_execution_logs (execution_logs w ++ [e]) w.

Definition log_feedback (env : Env) (message : Message)
    (step_info : option Step) : M unit :=
  let* t := datetime_now env in
  append_log {| log_timestamp := t; log_message := message;
                log_step := step_info |} >>
  print message.

Definition get_automation_running : M bool := fun w =>
  (Ok (automation_running w), w).

Definition get_reasoning_for_action (step : Step) (workflow : Workflow)
    : Reason * Context :=
  let description := default "" (description step) in
  let base_reason :=
    match action step with
    | Some a =>
        if String.eqb a "click" then RClick
        else if String.eqb a "type" then RType
        else if String.eqb a "wait" then RWait
        else if String.eqb a "hotkey" then RHotkey
        else RLearned
    | None => RLearned
    end in
  if contains "save" (lower description) then (base_reason, CtxSave)
  else if contains "open" (lower description) then (base_reason, CtxOpen)
  else if contains "close" (lower description) then (base_reason, CtxClose)
  else (base_reason, CtxNone).

(** The [if]/[elif] chain of the loop body, lines 192-223. *)
Definition dispatch (env : Env) (action : string) (step : Step) : M unit :=
  if String.eqb action "click" then
    log_feedback env (MsgClicking (default "" (target step))) None >>
    match arg step "x", arg step "y" with
    | Some x, Some y =>
        inject env (CClick x y) >>
        log_feedback env (MsgClicked x y) None
    | _, _ => log_feedback env MsgNoCoordinates None
    end
  else if String.eqb action "type" then
    let text := default (VStr "") (arg step "text") in
    log_feedback env (MsgTyping text) None >>
    inject env (CWrite text) >>
    log_feedback env MsgTyped None
  else if String.eqb action "wait" then
    let seconds := default (VNum 1) (arg step "seconds") in
    log_feedback env (MsgWaiting seconds) None >>
    time_sleep seconds >>
    log_feedback env MsgWaitComplete None
  else if String.eqb action "hotkey" then
    let keys := default (VStr "") (arg step "keys") in
    log_feedback env (MsgPressing keys) None >>
    match keys with
    | VStr k =>
        inject env (CHotkey (parse_hotkey k)) >>
        log_feedback env MsgHotkeyPressed None
    | _ => raise AttributeError
    end
  else
    log_feedback env (MsgUnknownAction action) None.

(** ** The facade (Flask routes of dashboard.py) *)

Inductive Body :=
  | BStarted (workflow_id : string)
  | BError (error : string)
  | BStopped.

Record Response := { http_status : nat; body : Body }.

(** [POST /api/stop] *)
Definition stop_execution : M Response :=
  set_automation_running false >>
  ret {| http_status := 200; body := BStopped |}.

(** The web thread runs while the execution thread does: a stop request
    served since the previous test of the flag takes effect before the
    test of iteration [i]. A start request served after that stop finds
    the flag cleared and is accepted (line 335); if its thread has run
    line 142 before the test, the flag is set again ([started_again]).
    While the flag is set a start request is refused, so nothing else
    writes the flag between two tests. Of the other thread only this
    write is followed here, since it is what the loop reads; its own run
    is followed by the traces below. *)
Definition serve_requests (env : Env) (i : nat) : M unit :=
  if stop_requested env i then
    stop_execution >>
    (if started_again env i then set_automation_running true else ret tt)
  else ret tt.

(** The inner [try] statement, lines 190-229: a step whose dispatch
    returns is counted and followed by the half-second pause; one whose
    dispatch raises is logged and not counted. *)
Definition attempt (env : Env) (action : string) (step : Step)
    (successful_steps : Z) : M Z :=
  try_except
    (dispatch env action step >>
     sleep (1 # 2) >>
     ret (successful_steps + 1))
    (fun e =>
       log_feedback env (MsgStepError e) None >>
       ret successful_steps).

(** The loop body after the test of the flag, lines 181-229; it returns
    the new value of [successful_steps]. *)
Definition loop_body (env : Env) (workflow : Workflow) (n : Z) (i : nat)
    (successful_steps : Z) (step : Step) : M Z :=
  let* action :=
    match action step with
    | Some a => ret a
    | None => raise AttributeError     (* None.upper() *)
    end in
  log_feedback env (MsgStep i n action) (Some step) >>
  let reasoning := get_reasoning_for_action step workflow in
  log_feedback env (MsgReasoning (fst reasoning) (snd reasoning)) None >>
  attempt env action step successful_steps.

(** The [for i, step in enumerate(steps, 1)] loop, lines 176-229; [n] is
    [len(steps)] of the whole list. *)
Fixpoint run_steps (env : Env) (workflow : Workflow) (n : Z) (i : nat)
    (successful_steps : Z) (steps : list Step) : M Z :=
  match steps with
  | [] => ret successful_steps
  | step :: rest =>
      serve_requests env i >>
      let* running := get_automation_running in
      if negb running then
        log_feedback env MsgStopped None >>
        ret successful_steps               (* break *)
      else
        let* successful_steps' :=
          loop_body env workflow n i successful_steps step in
        run_steps env workflow n (S i) successful_steps' rest
  end.

(** The body of the [try] statement, lines 156-243. *)
Definition try_block (env : Env) (workflow_id : string) : M bool :=
  match workflow_file env workflow_id with
  | Missing =>
      log_feedback env MsgNotFound None >>
      ret false
  | Unreadable e => raise e
  | Content workflow =>
      let steps := automation_steps workflow in
      let n := Z.of_nat (List.length steps) in
      log_feedback env (MsgStarting workflow_id) None >>
      log_feedback env (MsgTotalSteps n) None >>
      log_feedback env MsgPrepare None >>
      sleep 3 >>
      let* successful_steps := run_steps env workflow n 1 0 steps in
      let* success_rate := lift (success_ratio successful_steps n) in
      (if is_100 success_rate
       then log_feedback env (MsgAllDone n) None
       else log_feedback env (MsgPartial successful_steps n) None) >>
      update_learning_data env workflow_id (is_100 success_rate)
        successful_steps n >>
      set_automation_running false >>
      ret true
  end.

(** The [except Exception as e] clause, lines 245-248. *)
Definition critical_handler (env : Env) (e : exn) : M bool :=
  log_feedback env (MsgCritical e) None >>
  set_automation_running false >>
  ret false.

(** Lines 142-143, the first statements the execution thread runs. *)
Definition enter_run : M unit :=
  set_automation_running true >>
  set_execution_logs [].

Definition execute_workflow_with_feedback (env : Env) (workflow_id : string)
    : M bool :=
  enter_run >>
  try_except (try_block env workflow_id) (critical_handler env).

(** ** The web thread and the execution threads

    [Thread(target=...).start()] returns once the thread exists, before
    the thread has run its first statement. A thread is followed through
    three phases; the scheduler's choices are the events of a trace. *)

Inductive Phase :=
  | Spawned      (* started, line 142 not yet run *)
  | Executing    (* past line 143, not yet returned *)
  | Returned.

Record Server := {
  world : World;
  threads : list (string * Phase)
}.

(** [POST /api/execute/<workflow_id>] *)
Definition execute_workflow (workflow_id : string) (s : Server)
    : Response * Server :=
  if automation_running (world s) then
    ({| http_status := 400; body := BError "Automation already running" |}, s)
  else
    ({| http_status := 200; body := BStarted workflow_id |},
     {| world := world s;
        threads := threads s ++ [(workflow_id, Spawned)] |}).

Inductive Event :=
  | PostExecute (workflow_id : string)
  | PostStop
  | ThreadEnters (t : nat)
  | ThreadFinishes (t : nat).

(** One scheduling step; the response is that of the request served, if
    the event is a request. A thread event on a thread that is not in the
    phase it needs leaves the server as it is. *)
Definition step_server (env : Env) (ev : Event) (s : Server)
    : option Response * Server :=
  match ev with
  | PostExecute workflow_id =>
      let (r, s') := execute_workflow workflow_id s in (Some r, s')
  | PostStop =>
      let (o, w') := stop_execution (world s) in
      (match o with Ok r => Some r | Raise _ => None end,
       {| world := w'; threads := threads s |})
  | ThreadEnters t =>
      match threads s !! t with
      | Some (workflow_id, Spawned) =>
          (None, {| world := snd (enter_run (world s));
                    threads := <[t := (workflow_id, Executing)]> (threads s) |})
      | _ => (None, s)
      end
  | ThreadFinishes t =>
      match threads s !! t with
      | Some (workflow_id, Executing) =>
          (None,
           {| world := snd (try_except (try_block env workflow_id)
                                       (critical_handler env) (world s));
              threads := <[t := (workflow_id, Returned)]> (threads s) |})
      | _ => (None, s)
      end
  end.

Fixpoint run_trace (env : Env) (evs : list Event) (s : Server)
    : list (option Response) * Server :=
  match evs with
  | [] => ([], s)
  | ev :: rest =>
      let (r, s') := step_server env ev s in
      let (rs, s'') := run_trace env rest s' in
      (r :: rs, s'')
  end.

Definition is_alive (p : Phase) : bool :=
  match p with Returned => false | _ => true end.

(** The execution threads that exist and have not returned. *)
Definition alive (s : Server) : nat :=
  List.length (List.filter (fun t => is_alive (snd t)) (threads s)).

(** ** The step dispatcher (run_automation.py) *)

Module AutomationRunner.

Definition _execute_click (env : Env) (step : Step) : M unit :=
  let target := default "" (target step) in
  match arg step "x", arg step "y" with
  | Some x, Some y =>
      print (OutClickingAt x y) >>
      inject env (CClick x y)
  | _, _ =>
      print (OutNoClickTarget target) >>
      print OutRound2Detection
  end.

Definition _execute_type (env : Env) (step : Step) : M unit :=
  let text := default (VStr "") (arg step "text") in
  if negb (truthy text) then
    print OutNoText                       (* and return *)
  else
    print (OutTyping text) >>
    match arg step "x", arg step "y" with
    | Some x, Some y => inject env (CClick x y) >> sleep (3 # 10)
    | _, _ => ret tt
    end >>
    inject env (CWrite text).

Definition _execute_wait (env : Env) (step : Step) : M unit :=
  let seconds := default (VNum 1) (arg step "seconds") in
  print (OutWaiting seconds) >>
  time_sleep seconds.

Definition _execute_hotkey (env : Env) (step : Step) : M unit :=
  let keys := default (VStr "") (arg step "keys") in
  if negb (truthy keys) then
    print OutNoHotkey                     (* and return *)
  else
    print (OutPressing keys) >>
    match keys with
    | VStr k => inject env (CHotkey (parse_hotkey k))
    | _ => raise AttributeError
    end.

Definition _execute_command (env : Env) (step : Step) : M unit :=
  let command := default "" (command step) in
  if String.eqb command "" then
    print OutNoCommand                    (* and return *)
  else
    print (OutExecuting command) >>
    print OutRound2Command.

(** [action] is the string of the key, or ["unknown"] when the key is
    absent. A key that is present with [null] or a number is not a
    [Step]: [action.upper()] in the header line, which is outside the
    [try], would raise on it. *)
Definition execute_step (env : Env) (step : Step) (dry_run : bool)
    : M unit :=
  let step_num := step_num step in
  let action := default "unknown" (action step) in
  let description := default "No description" (description step) in
  print (OutHeader step_num action description) >>
  if dry_run then
    print (OutWouldExecute action)
  else
    try_except
      ((if String.eqb action "click" then _execute_click env step
        else if String.eqb action "type" then _execute_type env step
        else if String.eqb action "wait" then _execute_wait env step
        else if String.eqb action "hotkey" then _execute_hotkey env step
        else if String.eqb action "execute" then _execute_command env step
        else print (OutUnknownAction action)) >>
       print (OutCompleted step_num))
      (fun e => print (OutError step_num e)).

Fixpoint for_each_step (env : Env) (steps : list Step) (dry_run : bool)
    : M unit :=
  match steps with
  | [] => ret tt
  | step :: rest =>
      execute_step env step dry_run >> for_each_step env rest dry_run
  end.

Definition execute_workflow (env : Env) (workflow_data : Workflow)
    (dry_run : bool) : M unit :=
  let automation_steps := automation_steps workflow_data in
  match automation_steps with
  | [] => print OutNoSteps
  | _ =>
      print (OutBanner (wf_workflow_id workflow_data)
               (Z.of_nat (List.length automation_steps)) dry_run) >>
      (if dry_run then ret tt else print OutLiveStart >> sleep 3) >>
      for_each_step env automation_steps dry_run
  end.

End AutomationRunner.

(** * Specification vocabulary *)

(** ** Reading a world *)

(** The learning document a reader of the file obtains. *)
Definition stored_data (w : World) : LearningData :=
  default empty_learning_data (learning_db w).

(** The per-workflow record, zero when there is none. *)
Definition stats_of (w : World) (workflow_id : string) : Stats :=
  default zero_stats (success_rate (stored_data w) !! workflow_id).

Definition curve_of (w : World) : list CurveEntry :=
  learning_curve (stored_data w).

Definition messages (w : World) : list Message :=
  map log_message (execution_logs w).

(** The messages the source marks as warnings. *)
Definition is_warning (m : Message) : bool :=
  match m with
  | MsgStopped | MsgNoCoordinates | MsgUnknownAction _ | MsgPartial _ _
  | OutLiveStart | OutNoClickTarget _ | OutNoText | OutNoHotkey
  | OutNoCommand | OutUnknownAction _ => true
  | _ => false
  end.

Definition is_step_error (m : Message) : bool :=
  match m with MsgStepError _ => true | _ => false end.

(** The number of steps a log reports as failed. *)
Definition step_errors (l : list Message) : nat :=
  List.length (List.filter is_step_error l).

(** ** What a recording stores *)

(** What one recording stores, given the document it loaded and the clock
    reading [t] at which it started. *)
Definition recorded (env : Env) (t : nat) (d : LearningData)
    (workflow_id : string) (success : bool) (successful_steps total_steps : Z)
    : LearningData :=
  let old := default zero_stats (success_rate d !! workflow_id) in
  {| total_sessions := total_sessions d;
     total_automations := total_automations d + 1;
     workflow_improvements := workflow_improvements d;
     success_rate :=
       <[workflow_id :=
           {| stat_total := stat_total old + 1;
              stat_successful :=
                if success then stat_successful old + 1
                else stat_successful old;
              stat_last_run := Some (now env t) |}]> (success_rate d);
     learning_curve :=
       last_100
         (learning_curve d ++
          [ {| ce_timestamp := now env (S t); ce_workflow_id := workflow_id;
               ce_success := success; ce_steps_completed := successful_steps;
               ce_total_steps := total_steps |} ]) |}.

(** One call of [update_learning_data], as the controller makes it at the
    end of a run. *)
Record Recording := {
  rec_workflow_id : string;
  rec_success : bool;
  rec_successful_steps : Z;
  rec_total_steps : Z
}.

(** A fully successful run of [wf-1] followed by a run of [wf-2] in which
    one step of three succeeded. *)
Definition two_runs : list Recording :=
  [ {| rec_workflow_id := "wf-1"; rec_success := true;
       rec_successful_steps := 4; rec_total_steps := 4 |};
    {| rec_workflow_id := "wf-2"; rec_success := false;
       rec_successful_steps := 1; rec_total_steps := 3 |} ].

(** A stored document whose curve is full: 100 entries of [wf-0],
    numbered 0 to 99 in their [steps_completed]. *)
Definition full_curve_world : World :=
  {| automation_running := false; execution_logs := [];
     learning_db :=
       Some {| total_sessions := 0; total_automations := 100;
               workflow_improvements := ∅; success_rate := ∅;
               learning_curve :=
                 map (fun k =>
                        {| ce_timestamp := "2024-12-31T00:00:00";
                           ce_workflow_id := "wf-0"; ce_success := false;
                           ce_steps_completed := Z.of_nat k;
                           ce_total_steps := 100 |})
                     (seq 0 100) |};
     db_writable := true; ticks := 0; effects := []; stdout := [] |}.

(** The recordings of a sequence of runs, one after the other. *)
Fixpoint record_all (env : Env) (runs : list Recording) : M unit :=
  match runs with
  | [] => ret tt
  | r :: rest =>
      update_learning_data env (rec_workflow_id r) (rec_success r)
        (rec_successful_steps r) (rec_total_steps r) >>
      record_all env rest
  end.

(** The curve entries of a sequence of recordings that starts at clock
    reading [t]: each recording reads the clock twice, the second time
    for its entry. *)
Fixpoint entries_of (env : Env) (t : nat) (runs : list Recording)
    : list CurveEntry :=
  match runs with
  | [] => []
  | r :: rest =>
      {| ce_timestamp := now env (S t);
         ce_workflow_id := rec_workflow_id r;
         ce_success := rec_success r;
         ce_steps_completed := rec_successful_steps r;
         ce_total_steps := rec_total_steps r |}
      :: entries_of env (S (S t)) rest
  end.

(** ** Parts of a run *)

(** The statements between the [try:] and the loop, lines 168-171. *)
Definition opening (env : Env) (workflow_id : string) (n : Z) : M unit :=
  log_feedback env (MsgStarting workflow_id) None >>
  log_feedback env (MsgTotalSteps n) None >>
  log_feedback env MsgPrepare None >>
  sleep 3.

(** The statements after the loop, lines 231-243. *)
Definition closing (env : Env) (workflow_id : string) (n : Z)
    (successful_steps : Z) : M bool :=
  let* success_rate := lift (success_ratio successful_steps n) in
  (if is_100 success_rate
   then log_feedback env (MsgAllDone n) None
   else log_feedback env (MsgPartial successful_steps n) None) >>
  update_learning_data env workflow_id (is_100 success_rate)
    successful_steps n >>
  set_automation_running false >>
  ret true.

(** ** Relations between the worlds before and after a computation *)

(** [w'] differs from [w] in nothing the web thread or the recorder
    decide on: the running flag and the learning database file. *)
Definition frame (w w' : World) : Prop :=
  automation_running w' = automation_running w ∧
  learning_db w' = learning_db w ∧
  db_writable w' = db_writable w.

(** [w'] has the learning database file of [w]. *)
Definition same_db (w w' : World) : Prop :=
  learning_db w' = learning_db w ∧ db_writable w' = db_writable w.

(** Whatever its outcome, [c] leaves a world related to the one it
    started in. *)
Definition preserves {A} (R : relation World) (c : M A) : Prop :=
  ∀ w, R w (snd (c w)).

Abbreviation framed := (preserves frame).

(** From [w] to [w'] the log grew by entries of which [k] report a failed
    step. *)
Definition logs_errors (k : nat) (w w' : World) : Prop :=
  ∃ l, messages w' = messages w ++ l ∧ step_errors l = k.

(** ** Binary64 against exact arithmetic *)

(** The test [success_rate == 100] as binary64 arithmetic evaluates it. *)
Definition success_test_float (successful_steps n : Z) : Outcome bool :=
  match py_truediv successful_steps n with
  | Ok q => Ok (SFeqb (py_mul q 100) (float_of_int 100))
  | Raise e => Raise e
  end.

(** The same test on the exact quotient, as [try_block] uses it. *)
Definition success_test (successful_steps n : Z) : Outcome bool :=
  match success_ratio successful_steps n with
  | Ok r => Ok (is_100 r)
  | Raise e => Raise e
  end.

Definition agree_upto (bound : nat) : bool :=
  forallb
    (fun n => forallb
       (fun s =>
          match success_test_float (Z.of_nat s) (Z.of_nat n),
                success_test (Z.of_nat s) (Z.of_nat n) with
          | Ok a, Ok b => Bool.eqb a b
          | Raise _, Raise _ => true
          | _, _ => false
          end)
       (seq 0 (S n)))
    (seq 0 (S bound)).

(** [int((successful / total) * 100)] for a non-zero [total], in
    binary64. *)
Definition binary64_rate (successful total : Z) : Outcome Z :=
  match py_truediv successful total with
  | Ok q => py_int (py_mul q 100)
  | Raise e => Raise e
  end.

(** The integer floor of (successful / total) * 100, in exact
    arithmetic. *)
Definition exact_floor_rate (successful total : Z) : Z :=
  Qfloor ((inject_Z successful / inject_Z total) * 100)%Q.

Definition near_floor_upto (bound : nat) : bool :=
  forallb
    (fun t => forallb
       (fun s =>
          match binary64_rate (Z.of_nat s) (Z.of_nat t) with
          | Ok r =>
              (exact_floor_rate (Z.of_nat s) (Z.of_nat t) - 1 <=? r) &&
              (r <=? exact_floor_rate (Z.of_nat s) (Z.of_nat t))
          | Raise _ => false
          end)
       (seq 0 (S t)))
    (seq 1 bound).

(** The counts of successful runs among [total] runs for which the
    query does not return the exact floor. *)
Definition truncated_counts (total : nat) : list nat :=
  List.filter
    (fun s =>
       match binary64_rate (Z.of_nat s) (Z.of_nat total) with
       | Ok r => negb (r =? exact_floor_rate (Z.of_nat s) (Z.of_nat total))
       | Raise _ => true
       end)
    (seq 0 (S total)).

(** ** Responses *)

Definition already_running : Response :=
  {| http_status := 400; body := BError "Automation already running" |}.

Definition started (workflow_id : string) : Response :=
  {| http_status := 200; body := BStarted workflow_id |}.

Definition stopped : Response := {| http_status := 200; body := BStopped |}.

Definition idle_server (w : World) : Server := {| world := w; threads := [] |}.

(** ** Concrete worlds, environments and workflows *)

Definition fresh_world : World :=
  {| automation_running := false; execution_logs := []; learning_db := None;
     db_writable := true; ticks := 0; effects := []; stdout := [] |}.

Definition read_only_world : World :=
  {| automation_running := false; execution_logs := []; learning_db := None;
     db_writable := false; ticks := 0; effects := []; stdout := [] |}.

(** A world in which a run has been entered. *)
Definition running_world : World :=
  {| automation_running := true; execution_logs := []; learning_db := None;
     db_writable := true; ticks := 0; effects := []; stdout := [] |}.

(** A stored document in which [wf-1] has run 100 times, 29 of them with
    every step successful. *)
Definition world_29_of_100 : World :=
  {| automation_running := false; execution_logs := [];
     learning_db :=
       Some {| total_sessions := 0; total_automations := 100;
               workflow_improvements := ∅;
               success_rate :=
                 {[ "wf-1" := {| stat_total := 100; stat_successful := 29;
                                 stat_last_run := None |} ]};
               learning_curve := [] |};
     db_writable := true; ticks := 0; effects := []; stdout := [] |}.

Definition never : nat → bool := fun _ => false.

(** A stop request is served between the tests of iterations 1 and 2. *)
Definition stop_after_first : nat → bool := fun j => Nat.eqb j 2.

(** An environment with one workflow file content for every id, a
    constant clock, an injector that never raises and no start request
    after a stop. *)
Definition calm_env (f : File) (stop : nat → bool) : Env :=
  {| workflow_file := fun _ => f; now := fun _ => "2025-01-01T00:00:00";
     injector := fun _ _ => None; stop_requested := stop;
     started_again := never |}.

Definition bare_step (a : option string) (ar : option (gmap string value))
    : Step :=
  {| step_num := None; action := a; target := None; args := ar;
     description := None; command := None |}.

(** A click step without [args]. *)
Definition click_nowhere : Step := bare_step (Some "click") None.

(** A type step whose text is the empty string. *)
Definition type_nothing : Step :=
  bare_step (Some "type") (Some {[ "text" := VStr "" ]}).




Definition workflow_of (steps : list Step) : File :=
  Content {| wf_workflow_id := "wf-1"; wf_created_at := "";
             automation_steps := steps |}.

Definition one_step_workflow (step : Step) : Workflow :=
  {| wf_workflow_id := "wf-1"; wf_created_at := "";
     automation_steps := [step] |}.



(** * Vocabulary for the further properties *)

(** ** The learning database *)

(** In every per-workflow record the successful runs are among the
    runs. *)
Definition counts_consistent (d : LearningData) : Prop :=
  ∀ workflow_id st,
    success_rate d !! workflow_id = Some st →
    0 ≤ stat_successful st ≤ stat_total st.

(** The recordings of [runs] that concern [workflow_id]. *)
Definition runs_of (workflow_id : string) (runs : list Recording)
    : list Recording :=
  List.filter (fun r => String.eqb (rec_workflow_id r) workflow_id) runs.

(** A stored document with one record, of three runs, two of them
    successful. *)
Definition world_2_of_3 : World :=
  {| automation_running := false; execution_logs := [];
     learning_db :=
       Some {| total_sessions := 0; total_automations := 3;
               workflow_improvements := ∅;
               success_rate :=
                 {[ "wf-1" := {| stat_total := 3; stat_successful := 2;
                                 stat_last_run := None |} ]};
               learning_curve := [] |};
     db_writable := true; ticks := 0; effects := []; stdout := [] |}.

(** ** Runs *)

(** The entry that closes the log of a run whose steps have all been
    attempted or skipped. *)
Definition verdict (successful_steps n : Z) : Message :=
  if successful_steps =? n then MsgAllDone n
  else MsgPartial successful_steps n.

(** From [w] to [w'] the log only grew. *)
Definition log_grows (w w' : World) : Prop :=
  ∃ l, messages w' = messages w ++ l.

(** [w] with another flag and another log. *)
Definition with_flag_and_log (b : bool) (l : list LogEntry) (w : World)
    : World :=
  {| automation_running := b; execution_logs := l;
     learning_db := learning_db w; db_writable := db_writable w;
     ticks := ticks w; effects := effects w; stdout := stdout w |}.

Definition has_action (step : Step) : Prop := is_Some (action step).

(** Three steps that the controller runs without a failure when the
    injector does not raise. *)
Definition three_steps : Workflow :=
  {| wf_workflow_id := "wf-1"; wf_created_at := "";
     automation_steps :=
       [ bare_step (Some "click") (Some {[ "x" := VNum 10; "y" := VNum 20 ]});
         bare_step (Some "type") (Some {[ "text" := VStr "hello" ]});
         bare_step (Some "hotkey") (Some {[ "keys" := VStr "ctrl+s" ]}) ] |}.

Definition calm_three : Env := calm_env (Content three_steps) never.

(** A step without the [action] key between two steps that have one. *)
Definition actionless_step : Step := bare_step None None.

Definition broken_workflow : Workflow :=
  {| wf_workflow_id := "wf-1"; wf_created_at := "";
     automation_steps := [type_nothing; actionless_step; click_nowhere] |}.

(** The four actions the controller's dispatch knows. *)
Definition known_to_dashboard (a : string) : bool :=
  String.eqb a "click" || String.eqb a "type" || String.eqb a "wait"
  || String.eqb a "hotkey".

Definition click_at_10_20 : Step :=
  bare_step (Some "click") (Some {[ "x" := VNum 10; "y" := VNum 20 ]}).

(** An environment whose injector always raises. *)
Definition failing_injector_env : Env :=
  {| workflow_file := fun _ => Missing; now := fun _ => "2025-01-01T00:00:00";
     injector := fun _ _ => Some (InjectorError "FailSafeException");
     stop_requested := never; started_again := never |}.

(** ** Strings *)

(** ["+".join(l)] *)
Fixpoint join_plus (l : list string) : string :=
  match l with
  | [] => ""
  | [a] => a
  | a :: rest => a +:+ "+" +:+ join_plus rest
  end.

(** [all(P(c) for c in s)] *)
Fixpoint all_chars (P : ascii → bool) (s : string) : bool :=
  match s with
  | EmptyString => true
  | String c r => P c && all_chars P r
  end.

(** A character below 128. *)
Definition is_ascii (c : ascii) : bool := (nat_of_ascii c <? 128)%nat.

(** A character of a normalised key name: not the separator, not a
    space, not an upper-case ASCII letter. *)
Definition key_char (c : ascii) : bool :=
  negb (Ascii.eqb c "+") && negb (Ascii.eqb c " ")
  && Ascii.eqb (lower_ascii c) c.

(** ** The runner's output *)

(** The line [execute_step] prints first for a step. *)
Definition header (step : Step) : Message :=
  OutHeader (step_num step) (default "unknown" (action step))
    (default "No description" (description step)).

(** What a dry run prints for one step. *)
Definition dry_lines (step : Step) : list Message :=
  [header step; OutWouldExecute (default "unknown" (action step))].

(** What a dry run prints for a workflow. *)
Definition dry_output (workflow_data : Workflow) : list Message :=
  match automation_steps workflow_data with
  | [] => [OutNoSteps]
  | steps =>
      OutBanner (wf_workflow_id workflow_data)
        (Z.of_nat (List.length steps)) true
      :: flat_map dry_lines steps
  end.

(** [w] with another standard output. *)
Definition with_stdout (l : list Message) (w : World) : World :=
  {| automation_running := automation_running w;
     execution_logs := execution_logs w;
     learning_db := learning_db w; db_writable := db_writable w;
     ticks := ticks w; effects := effects w; stdout := l |}.

(** The two lines that close a live step. *)
Definition is_report (m : Message) : bool :=
  match m with OutCompleted _ | OutError _ _ => true | _ => false end.

Definition reports (l : list Message) : nat :=
  List.length (List.filter is_report l).

(** From [w] to [w'] the standard output grew by lines of which [k] close
    a step. *)
Definition prints_reports (k : nat) (w w' : World) : Prop :=
  ∃ l, stdout w' = stdout w ++ l ∧ reports l = k.

(** A step that asks for a system command. *)
Definition run_command_step : Step :=
  {| step_num := Some 1; action := Some "execute"; target := None;
     args := None; description := None; command := Some "rm -rf /tmp/x" |}.

(** * The analysis pipeline (modules/llm, modules/processing,
      modules/automation)

    These modules have no [try] statement of their own: a failed lookup
    leaves them as [KeyError] or [IndexError]. *)

Inductive Failure :=
  | KeyError (key : string)
  | IndexError
  | Other (e : exn).

Inductive Result (A : Type) :=
  | Done (a : A)
  | Failed (e : Failure).
Arguments Done {A} a.
Arguments Failed {A} e.

Definition and_then {A B} (r : Result A) (k : A → Result B) : Result B :=
  match r with
  | Done a => k a
  | Failed e => Failed e
  end.

Notation "'let?' x ':=' r 'in' k" := (and_then r (fun x => k))
  (at level 10, x name, r at level 100, k at level 200).

(** ** More of [str], on ASCII strings *)

(** [c.isspace()] *)
Definition is_space (c : ascii) : bool :=
  let n := nat_of_ascii c in
  ((9 <=? n) && (n <=? 13) || (28 <=? n) && (n <=? 32))%nat.

(** [s.lstrip()] *)
Fixpoint lstrip (s : string) : string :=
  match s with
  | EmptyString => EmptyString
  | String c r => if is_space c then lstrip r else s
  end.

(** [s.rstrip()] *)
Fixpoint rstrip (s : string) : string :=
  match s with
  | EmptyString => EmptyString
  | String c r =>
      match rstrip r with
      | EmptyString => if is_space c then EmptyString else String c EmptyString
      | r' => String c r'
      end
  end.

(** [s.strip()] *)
Definition strip (s : string) : string := lstrip (rstrip s).

(** [s.split(sep)] for a separator of one character *)
Fixpoint split_on (sep : ascii) (s : string) : list string :=
  match s with
  | EmptyString => [EmptyString]
  | String c r =>
      if Ascii.eqb c sep then EmptyString :: split_on sep r
      else match split_on sep r with
           | h :: t => String c h :: t
           | [] => [String c EmptyString]
           end
  end.

(** [s.split(":", 1)[1]] where [":" in s], and [None] where not. *)
Fixpoint after_colon (s : string) : option string :=
  match s with
  | EmptyString => None
  | String c r => if Ascii.eqb c ":" then Some r else after_colon r
  end.

(** [list(s)], the characters of a string as strings; one per byte,
    which is one per character on ASCII strings. *)
Fixpoint characters (s : string) : list string :=
  match s with
  | EmptyString => []
  | String c r => String c EmptyString :: characters r
  end.

(** ** Session data *)

Record UiElement := {
  el_type : option string;
  el_text : option string
}.

Record OcrResult := {
  ui_elements : list UiElement          (* ocr.get('ui_elements', []) *)
}.

Record Transcription := {
  tr_success : value;                   (* transcription.get('success') *)
  tr_text : value                       (* transcription.get('text') *)
}.

Record SessionData := {
  ocr_results : list OcrResult;         (* .get('ocr_results', []) *)
  audio_transcription : Transcription   (* .get('audio_transcription', {}) *)
}.

(** [d[key]] *)
Definition subscript {A} (key : string) (field : option A) : Result A :=
  match field with
  | Some a => Done a
  | None => Failed (KeyError key)
  end.

Module stt_processor.

(** What a caller passes as [transcription_text]. *)
Inductive Argument :=
  | AString (s : string)
  | ADict (d : Transcription).

Definition keywords : list string :=
  ["open"; "close"; "click"; "save"; "search";
   "start"; "stop"; "run"; "analyze"; "record";
   "delete"; "copy"; "move"; "upload"; "download"].

(** [list(set(actions))] has no order of its own; the order of
    [elements] stands for it. *)
Definition extract_commands_from_transcription (transcription_text : Argument)
    : list string :=
  match transcription_text with
  | ADict _ => []                  (* falsy, or not isinstance(_, str) *)
  | AString s =>
      if String.eqb s "" then []
      else
        let text_lower := lower s in
        let actions :=
          List.map (fun word => "Detected command: '" +:+ word +:+ "'")
            (List.filter (fun word => contains word text_lower) keywords) in
        elements (list_to_set (C := gset string) actions)
  end.

End stt_processor.

Module local_llm.

(** The inner loop of [detect_actions_from_session], lines 203-207. *)
Fixpoint actions_of_elements (ui_elements : list UiElement)
    : Result (list string) :=
  match ui_elements with
  | [] => Done []
  | element :: rest =>
      let? element_type := subscript "type" (el_type element) in
      let? here :=
        if String.eqb element_type "button" then
          let? text := subscript "text" (el_text element) in
          Done ["Clicked button: " +:+ text]
        else if String.eqb element_type "input" then
          let? text := subscript "text" (el_text element) in
          Done ["Interacted with input: " +:+ text]
        else Done [] in
      let? more := actions_of_elements rest in
      Done (here ++ more)
  end.

(** The outer loop, lines 201-207. *)
Fixpoint actions_of_ocr (ocr_results : list OcrResult)
    : Result (list string) :=
  match ocr_results with
  | [] => Done []
  | ocr :: rest =>
      let? here := actions_of_elements (ui_elements ocr) in
      let? more := actions_of_ocr rest in
      Done (here ++ more)
  end.

Definition general_actions : list string :=
  ["Viewed screen content";
   "Navigated desktop";
   "Potential mouse/keyboard interaction"].

Definition detect_actions_from_session (session_data : SessionData)
    : Result (list string) :=
  let? actions := actions_of_ocr (ocr_results session_data) in
  let transcription := audio_transcription session_data in
  let? voice :=
    if truthy (tr_success transcription) then
      let commands :=
        stt_processor.extract_commands_from_transcription
          (stt_processor.ADict transcription) in
      match commands with
      | [] => Done []
      | cmd :: _ => Failed (Other TypeError)     (* cmd['command'] on a str *)
      end
    else Done [] in
  let actions := actions ++ voice in
  match actions with
  | [] => Done general_actions
  | _ => Done actions
  end.

Definition total_ui_elements (session_data : SessionData) : Z :=
  fold_right Z.add 0
    (List.map (fun ocr => Z.of_nat (List.length (ui_elements ocr)))
       (ocr_results session_data)).

Definition calculate_automation_potential (session_data : SessionData)
    (actions patterns : list string) : Z :=
  let score := 0 in
  let score := score + 2 in
  let score := score + Z.min (Z.of_nat (List.length actions)) 3 in
  let score := score + Z.min (Z.of_nat (List.length patterns)) 2 in
  let total_ui_elements := total_ui_elements session_data in
  let score :=
    if 5 <=? total_ui_elements then score + 2
    else if 2 <=? total_ui_elements then score + 1
    else score in
  let transcription := audio_transcription session_data in
  let score :=
    if truthy (tr_success transcription) && truthy (tr_text transcription)
    then score + 1 else score in
  Z.min score 10.

(** [action.split(':')[1]] *)
Definition second_field (action : string) : Result string :=
  match split_on ":" action with
  | _ :: field :: _ => Done field
  | _ => Failed IndexError
  end.

(** The step appended for the action at index [i], lines 285-317. *)
Definition step_of_action (i : Z) (action : string) : Result Step :=
  if contains "Clicked button" action then
    let? field := second_field action in
    let button_text := strip field in
    Done {| step_num := Some (i + 1); action := Some "click";
            target := Some button_text; args := None;
            description := Some ("Click button '" +:+ button_text +:+ "'");
            command := None |}
  else if contains "Interacted with input" action then
    let? field := second_field action in
    let input_text := strip field in
    Done {| step_num := Some (i + 1); action := Some "type";
            target := Some input_text; args := None;
            description := Some ("Type into field '" +:+ input_text +:+ "'");
            command := None |}
  else if contains "Voice command" action then
    let? field := second_field action in
    let command := strip field in
    Done {| step_num := Some (i + 1); action := Some "execute";
            target := None; args := None;
            description := Some ("Execute command: " +:+ command);
            command := Some command |}
  else
    Done {| step_num := Some (i + 1); action := Some "generic";
            target := None; args := None;
            description := Some action; command := None |}.

(** [for i, action in enumerate(actions)], from index [i] on. *)
Fixpoint steps_from (i : Z) (actions : list string) : Result (list Step) :=
  match actions with
  | [] => Done []
  | action :: rest =>
      let? step := step_of_action i action in
      let? steps := steps_from (i + 1) rest in
      Done (step :: steps)
  end.

Definition generate_automation_steps (session_data : SessionData)
    (actions : list string) : Result (list Step) :=
  steps_from 0 actions.

End local_llm.

Module workflow_parser.

(** The target of a description: [action.split(":", 1)[1].strip()] if
    [":" in action], else the default of the branch. *)
Definition target_of (action : string) (otherwise : string) : string :=
  match after_colon action with
  | Some rest => strip rest
  | None => otherwise
  end.

Definition parse_action_to_step (action : string) (step_number : Z) : Step :=
  let action_lower := lower action in
  if contains "click" action_lower || contains "clicked" action_lower then
    let target := target_of action "Unknown" in
    {| step_num := Some step_number; action := Some "click";
       target := Some target; args := Some {[ "button" := VStr target ]};
       description := Some action; command := None |}
  else if contains "type" action_lower || contains "input" action_lower
          || contains "enter" action_lower then
    let target := target_of action "" in
    {| step_num := Some step_number; action := Some "type";
       target := Some target; args := Some {[ "text" := VStr target ]};
       description := Some action; command := None |}
  else if contains "wait" action_lower then
    let seconds := 2 in
    {| step_num := Some step_number; action := Some "wait";
       target := None; args := Some {[ "seconds" := VNum (inject_Z seconds) ]};
       description := Some action; command := None |}
  else if contains "hotkey" action_lower || contains "shortcut" action_lower
  then
    let keys := target_of action "ctrl+s" in
    {| step_num := Some step_number; action := Some "hotkey";
       target := None; args := Some {[ "keys" := VStr keys ]};
       description := Some action; command := None |}
  else if contains "voice command" action_lower then
    let command := target_of action "" in
    {| step_num := Some step_number; action := Some "execute";
       target := None; args := None;
       description := Some action; command := Some command |}
  else
    {| step_num := Some step_number; action := Some "generic";
       target := None; args := None;
       description := Some action; command := None |}.

(** The loop over [detected_actions] of [parse_summary_to_workflow],
    lines 42-45, from index [i] on; a step is a dict with keys and so
    always appended. *)
Fixpoint steps_of_actions (i : Z) (detected_actions : list string)
    : list Step :=
  match detected_actions with
  | [] => []
  | action :: rest =>
      parse_action_to_step action (i + 1) :: steps_of_actions (i + 1) rest
  end.

End workflow_parser.

Module auto_runner.

(** What the process has done so far: the calls that left it and the
    actions it printed as executed. *)
Record Trace := {
  calls : list Call;
  executed : list string
}.

Definition R (A : Type) : Type := Trace → Result A * Trace.

(** A call on [pyautogui]; what it raises is not caught here. *)
Definition call (env : Env) (c : Call) : R unit := fun t =>
  let t' := {| calls := calls t ++ [c]; executed := executed t |} in
  match injector env (List.length (calls t)) c with
  | None => (Done tt, t')
  | Some e => (Failed (Other e), t')
  end.

(** [time.sleep(v)] *)
Definition time_sleep (v : value) : R unit := fun t =>
  let pause q :=
    (Done tt, {| calls := calls t ++ [CSleep q]; executed := executed t |}) in
  match v with
  | VNum q =>
      if fits_time_t q then
        if Qle_bool 0 q then pause q else (Failed (Other ValueError), t)
      else (Failed (Other OverflowError), t)
  | VBool b => pause (if b then 1%Q else 0%Q)
  | VNull | VStr _ => (Failed (Other TypeError), t)
  end.

Definition fail {A} (e : Failure) : R A := fun t => (Failed e, t).

(** [args[key]] with [args = step.get("args", {})] *)
Definition args_subscript (step : Step) (key : string) : Result value :=
  subscript key (arg step key).

(** One iteration of the loop. *)
Definition execute_step (env : Env) (step : Step) : R unit := fun t =>
  match subscript "action" (action step) with
  | Failed e => (Failed e, t)
  | Done action =>
      let done_ t' :=
        (Done tt, {| calls := calls t'; executed := executed t' ++ [action] |})
      in
      let then_print (r : Result unit * Trace) :=
        match r with
        | (Done _, t') => done_ t'
        | (Failed e, t') => (Failed e, t')
        end in
      if String.eqb action "click" then
        match args_subscript step "x" with
        | Failed e => (Failed e, t)
        | Done x =>
            match args_subscript step "y" with
            | Failed e => (Failed e, t)
            | Done y => then_print (call env (CClick x y) t)
            end
        end
      else if String.eqb action "type" then
        match args_subscript step "text" with
        | Failed e => (Failed e, t)
        | Done text => then_print (call env (CWrite text) t)
        end
      else if String.eqb action "hotkey" then
        match args_subscript step "keys" with
        | Failed e => (Failed e, t)
        | Done (VStr keys) =>
            then_print (call env (CHotkey (characters keys)) t)
        | Done _ => (Failed (Other TypeError), t)    (* not iterable *)
        end
      else if String.eqb action "wait" then
        match args_subscript step "seconds" with
        | Failed e => (Failed e, t)
        | Done seconds => then_print (time_sleep seconds t)
        end
      else done_ t
  end.

Fixpoint execute_workflow (env : Env) (workflow_steps : list Step) : R unit :=
  fun t =>
    match workflow_steps with
    | [] => (Done tt, t)
    | step :: rest =>
        match execute_step env step t with
        | (Done _, t') => execute_workflow env rest t'
        | (Failed e, t') => (Failed e, t')
        end
    end.

End auto_runner.

(** ** Vocabulary for the pipeline *)

(** From [w] to [w'] the process made only calls that satisfy [P]. *)
Definition calls_only (P : Call → bool) (w w' : World) : Prop :=
  ∃ l, effects w' = effects w ++ l ∧ forallb P l = true.

(** Whatever the dispatch of [step] on the dashboard does, it makes only
    calls that satisfy [P]. *)
Definition step_calls (P : Call → bool) (env : Env) (step : Step) : Prop :=
  ∀ a, action step = Some a → preserves (calls_only P) (dispatch env a step).

(** A pause, or typing the empty string. *)
Definition pause_or_empty_write (c : Call) : bool :=
  match c with
  | CSleep _ => true
  | CWrite (VStr EmptyString) => true
  | _ => false
  end.

Definition no_click (c : Call) : bool :=
  match c with CClick _ _ => false | _ => true end.

(** A step has both coordinates. *)
Definition has_coordinates (step : Step) : bool :=
  match arg step "x", arg step "y" with
  | Some _, Some _ => true
  | _, _ => false
  end.

(** The workflow [generate_automation_steps] builds for one button. *)
Definition save_button_workflow : Workflow :=
  {| wf_workflow_id := "wf-1"; wf_created_at := "";
     automation_steps :=
       [ {| step_num := Some 1; action := Some "click";
            target := Some "Save"; args := None;
            description := Some "Click button 'Save'";
            command := None |} ] |}.

(** A workflow of two parsed descriptions. *)
Definition parsed_workflow : Workflow :=
  {| wf_workflow_id := "wf-1"; wf_created_at := "";
     automation_steps :=
       workflow_parser.steps_of_actions 0
         ["Clicked button: Save"; "Pressed hotkey: ctrl+s"] |}.

(** [session_data] with another transcription. *)
Definition with_transcription (tr : Transcription) (sd : SessionData)
    : SessionData :=
  {| ocr_results := ocr_results sd; audio_transcription := tr |}.

(** A session of two buttons and an input field, with speech. *)
Definition office_session : SessionData :=
  {| ocr_results :=
       [ {| ui_elements :=
              [ {| el_type := Some "button"; el_text := Some "Save" |};
                {| el_type := Some "input"; el_text := Some "File name:" |};
                {| el_type := Some "label"; el_text := None |} ] |};
         {| ui_elements :=
              [ {| el_type := Some "button"; el_text := Some "OK" |} ] |} ];
     audio_transcription :=
       {| tr_success := VBool true; tr_text := VStr "please save the file" |}
  |}.

(** The characters in all the strings of a list. *)
Definition total_length (l : list string) : nat :=
  fold_right (λ s n, (String.length s + n)%nat) 0%nat l.

(** A stop request is served between the tests of iterations 1 and 2 of
    a run of [three_steps]; a start request is served after it, and its
    thread sets the flag again before the test of iteration 2. *)
Definition restart_env : Env :=
  {| workflow_file := fun _ => Content three_steps;
     now := fun _ => "2025-01-01T00:00:00";
     injector := fun _ _ => None;
     stop_requested := stop_after_first;
     started_again := stop_after_first |}.

(** * Properties *)

(** ** Stepping through a computation *)

Lemma bind_ok {A B} (c : M A) (k : A → M B) w a w' :
  c w = (Ok a, w') → bind c k w = k a w'.
Proof. intros H. unfold bind. by rewrite H. Qed.

Lemma bind_raise {A B} (c : M A) (k : A → M B) w e w' :
  c w = (Raise e, w') → bind c k w = (Raise e, w').
Proof. intros H. unfold bind. by rewrite H. Qed.

Lemma try_except_ok {A} (c : M A) (h : exn → M A) w a w' :
  c w = (Ok a, w') → try_except c h w = (Ok a, w').
Proof. intros H. unfold try_except. by rewrite H. Qed.

Lemma try_except_raise {A} (c : M A) (h : exn → M A) w e w' :
  c w = (Raise e, w') → try_except c h w = h e w'.
Proof. intros H. unfold try_except. by rewrite H. Qed.

(** ** The learning recorder *)

Lemma recorded_stats env t d workflow_id success s n :
  default zero_stats
    (success_rate (recorded env t d workflow_id success s n) !! workflow_id) =
  {| stat_total :=
       stat_total (default zero_stats (success_rate d !! workflow_id)) + 1;
     stat_successful :=
       if success
       then stat_successful
              (default zero_stats (success_rate d !! workflow_id)) + 1
       else stat_successful
              (default zero_stats (success_rate d !! workflow_id));
     stat_last_run := Some (now env t) |}.
Proof. unfold recorded; simpl. by rewrite lookup_insert_eq. Qed.


Lemma update_learning_data_writable env workflow_id success s n w :
  db_writable w = true →
  update_learning_data env workflow_id success s n w =
  (Ok tt,
   {| automation_running := automation_running w;
      execution_logs := execution_logs w;
      learning_db :=
        Some (recorded env (ticks w) (stored_data w) workflow_id success s n);
      db_writable := db_writable w;
      ticks := S (S (ticks w));
      effects := effects w;
      stdout := stdout w |}).
Proof.
  intros Hw.
  unfold update_learning_data, bind, load_learning_data, datetime_now,
    save_learning_data, set_learning_db, recorded, stored_data; simpl.
  rewrite Hw.
  destruct (success_rate (default empty_learning_data (learning_db w))
              !! workflow_id) as [st|] eqn:Hst; simpl.
  - rewrite Hst; simpl. reflexivity.
  - rewrite lookup_insert_eq; simpl. rewrite insert_insert_eq. reflexivity.
Qed.

Lemma success_ratio_is_100 s n :
  n ≠ 0 →
  ∃ r, success_ratio s n = Ok r ∧ (is_100 r = true ↔ s = n).
Proof.
  intros Hn. unfold success_ratio.
  destruct (Z.eqb_spec n 0) as [->|_]; [done|].
  eexists; split; [reflexivity|].
  unfold is_100. rewrite Qeq_bool_iff.
  destruct n as [|p|p]; [done| |];
    unfold Qeq, Qdiv, Qmult, Qinv, inject_Z; simpl; lia.
Qed.

Lemma agree_upto_sound bound (s n : nat) :
  agree_upto bound = true →
  (n ≤ bound)%nat → (s ≤ n)%nat →
  success_test_float (Z.of_nat s) (Z.of_nat n) =
  success_test (Z.of_nat s) (Z.of_nat n).
Proof.
  intros H Hn Hs.
  unfold agree_upto in H. rewrite forallb_forall in H.
  specialize (H n). rewrite forallb_forall in H.
  assert (Hin : In n (seq 0 (S bound))) by (apply in_seq; lia).
  specialize (H Hin s).
  assert (Hin' : In s (seq 0 (S n))) by (apply in_seq; lia).
  specialize (H Hin').
  destruct (success_test_float _ _) as [a|e] eqn:E1,
           (success_test _ _) as [b|e'] eqn:E2; try discriminate.
  - apply Bool.eqb_prop in H. by subst.
  - unfold success_test_float, success_test, py_truediv, success_ratio in *.
    destruct (Z.of_nat n =? 0); congruence.
Qed.

Lemma agree_upto_64 : agree_upto 64 = true.
Proof. vm_compute. reflexivity. Qed.

(** On every workflow of up to 64 steps and every count of successful
    steps, the binary64 evaluation of [success_rate == 100] and the exact
    one give the same answer. *)
Lemma success_test_binary64 (s n : nat) :
  (n ≤ 64)%nat → (s ≤ n)%nat →
  success_test_float (Z.of_nat s) (Z.of_nat n) =
  success_test (Z.of_nat s) (Z.of_nat n).
Proof. apply agree_upto_sound, agree_upto_64. Qed.

(** C2. A recording adds one to the workflow's [total], stores the clock
    reading of the recording as [last_run], and adds one to [successful]
    exactly when the success flag the controller passes, the test
    [success_rate == 100], holds, which is exactly when every step
    succeeded. Three successful steps of four leave [successful] as it
    was. *)
Theorem learning_update_counts env workflow_id (s n : Z) w :
  n ≠ 0 →
  db_writable w = true →
  ∃ r st,
    success_ratio s n = Ok r ∧
    (is_100 r = true ↔ s = n) ∧
    fst (update_learning_data env workflow_id (is_100 r) s n w) = Ok tt ∧
    success_rate
      (stored_data (snd (update_learning_data env workflow_id (is_100 r) s n w)))
      !! workflow_id = Some st ∧
    stat_total st = stat_total (stats_of w workflow_id) + 1 ∧
    stat_last_run st = Some (now env (ticks w)) ∧
    (stat_successful st = stat_successful (stats_of w workflow_id) + 1
       ↔ s = n) ∧
    (s ≠ n → stat_successful st = stat_successful (stats_of w workflow_id)).
Proof.
  intros Hn Hw.
  destruct (success_ratio_is_100 s n Hn) as (r & Hr & Hiff).
  exists r. eexists. split; [exact Hr|]. split; [exact Hiff|].
  rewrite (update_learning_data_writable _ _ _ _ _ _ Hw); simpl.
  split; [reflexivity|].
  unfold stored_data at 1; simpl. rewrite lookup_insert_eq.
  split; [reflexivity|]. simpl.
  fold (stats_of w workflow_id).
  split; [reflexivity|]. split; [reflexivity|].
  destruct (is_100 r) eqn:E.
  - assert (s = n) by (by apply Hiff). split; [tauto|intros; contradiction].
  - assert (s ≠ n) by (intros ?; assert (false = true) by tauto; discriminate).
    split; [split; [lia|tauto]|done].
Qed.

Lemma learning_update_counts_3_of_4 :
  ∃ r st,
    success_ratio 3 4 = Ok r ∧
    (is_100 r = true ↔ (3:Z) = 4) ∧
    fst (update_learning_data (calm_env Missing never) "wf-1" (is_100 r) 3 4
           fresh_world) = Ok tt ∧
    success_rate
      (stored_data
         (snd (update_learning_data (calm_env Missing never) "wf-1" (is_100 r)
                 3 4 fresh_world)))
      !! "wf-1" = Some st ∧
    stat_total st = stat_total (stats_of fresh_world "wf-1") + 1 ∧
    stat_last_run st = Some (now (calm_env Missing never) (ticks fresh_world)) ∧
    (stat_successful st = stat_successful (stats_of fresh_world "wf-1") + 1
       ↔ (3:Z) = 4) ∧
    ((3:Z) ≠ 4 → stat_successful st = stat_successful (stats_of fresh_world "wf-1")).
Proof.
  apply (learning_update_counts (calm_env Missing never) "wf-1" 3 4 fresh_world).
  - lia.
  - reflexivity.
Defined.

(** *** The bounded learning curve *)

Lemma last_100_length {A} (l : list A) : (List.length (last_100 l) ≤ 100)%nat.
Proof. unfold last_100. rewrite length_drop. lia. Qed.

Lemma last_100_short {A} (l : list A) :
  (List.length l ≤ 100)%nat → last_100 l = l.
Proof.
  intros H. unfold last_100.
  replace (List.length l - 100)%nat with 0%nat by lia. reflexivity.
Qed.

(** On a full list, appending one element evicts the first. *)
Lemma last_100_full {A} (l : list A) x :
  List.length l = 100%nat → last_100 (l ++ [x]) = drop 1 l ++ [x].
Proof.
  intros H. unfold last_100. rewrite length_app, H. simpl.
  by rewrite drop_app_le by lia.
Qed.

Lemma last_100_app {A} (l k : list A) :
  last_100 (last_100 l ++ k) = last_100 (l ++ k).
Proof.
  destruct (decide (List.length l ≤ 100)%nat) as [H|H].
  { by rewrite (last_100_short l). }
  unfold last_100. rewrite !length_app, length_drop.
  destruct (decide (List.length k ≤ 100)%nat) as [Hk|Hk].
  - rewrite !drop_app_le by (rewrite ?length_drop; lia).
    rewrite drop_drop. f_equal. f_equal. lia.
  - rewrite !drop_app_ge by (rewrite ?length_drop; lia).
    rewrite length_drop. f_equal. lia.
Qed.

Lemma entries_of_length env t runs :
  List.length (entries_of env t runs) = List.length runs.
Proof. revert t; induction runs as [|r rest IH]; intros t; simpl; auto. Qed.

(** The list a recording stores as the curve. *)
Lemma record_all_curve env runs w :
  db_writable w = true →
  runs ≠ [] ∨ (List.length (curve_of w) ≤ 100)%nat →
  fst (record_all env runs w) = Ok tt ∧
  curve_of (snd (record_all env runs w)) =
    last_100 (curve_of w ++ entries_of env (ticks w) runs).
Proof.
  revert w. induction runs as [|r rest IH]; intros w Hw Hne.
  - destruct Hne as [Hne|Hlen]; [done|]. simpl. split; [reflexivity|].
    rewrite app_nil_r. symmetry. by apply last_100_short.
  - simpl. unfold bind at 1 2.
    rewrite (update_learning_data_writable _ _ _ _ _ _ Hw).
    match goal with |- context [record_all env rest ?w1] =>
      destruct (IH w1) as [IH1 IH2]
    end.
    + exact Hw.
    + right. unfold curve_of, stored_data; simpl. apply last_100_length.
    + split; [exact IH1|]. rewrite IH2.
      unfold curve_of at 1, stored_data at 1; simpl.
      fold (curve_of w). rewrite last_100_app, <- app_assoc. reflexivity.
Qed.

(** C3. Recording any sequence of runs leaves a learning curve of at most
    100 entries. Take the old curve followed by one entry per run, in
    the order of the runs: what is evicted is a front part of that list,
    and the new curve is all the rest, in the same order, so it ends
    with the entries of the most recent runs; nothing is evicted while
    the list has 100 entries or fewer. *)
Theorem learning_curve_window env runs w :
  db_writable w = true →
  runs ≠ [] ∨ (List.length (curve_of w) ≤ 100)%nat →
  fst (record_all env runs w) = Ok tt ∧
  (List.length (curve_of (snd (record_all env runs w))) ≤ 100)%nat ∧
  ∃ evicted,
    curve_of w ++ entries_of env (ticks w) runs =
      evicted ++ curve_of (snd (record_all env runs w)) ∧
    List.length evicted =
      (List.length (curve_of w) + List.length runs - 100)%nat.
Proof.
  intros Hw Hne.
  destruct (record_all_curve env runs w Hw Hne) as [H1 H2].
  split; [exact H1|]. rewrite H2. split; [apply last_100_length|].
  set (all := curve_of w ++ entries_of env (ticks w) runs).
  exists (take (List.length all - 100) all). split.
  - unfold last_100. by rewrite take_drop.
  - rewrite length_take. unfold all.
    rewrite length_app, entries_of_length. lia.
Qed.

(** Two runs recorded on a curve that already has 100 entries: the two
    oldest entries are evicted. *)
Lemma learning_curve_window_two_runs :
  fst (record_all (calm_env Missing never) two_runs full_curve_world)
    = Ok tt ∧
  (List.length
     (curve_of (snd (record_all (calm_env Missing never) two_runs
                       full_curve_world))) ≤ 100)%nat ∧
  ∃ evicted,
    curve_of full_curve_world ++
    entries_of (calm_env Missing never) (ticks full_curve_world) two_runs =
      evicted ++
      curve_of (snd (record_all (calm_env Missing never) two_runs
                       full_curve_world)) ∧
    List.length evicted =
      (List.length (curve_of full_curve_world) + List.length two_runs
       - 100)%nat.
Proof.
  apply (learning_curve_window (calm_env Missing never) two_runs
           full_curve_world).
  - reflexivity.
  - left. discriminate.
Defined.

(** The same recordings computed: entries 0 and 1 are gone, the curve
    starts at entry 2 and ends with the two new entries. *)
Lemma full_curve_evicts_oldest :
  List.length (curve_of full_curve_world) = 100%nat ∧
  map ce_steps_completed
    (curve_of (snd (record_all (calm_env Missing never) two_runs
                      full_curve_world))) =
    map Z.of_nat (seq 2 98) ++ [4; 1] ∧
  map ce_workflow_id
    (drop 98 (curve_of (snd (record_all (calm_env Missing never) two_runs
                               full_curve_world)))) = ["wf-1"; "wf-2"].
Proof. repeat split; vm_compute; reflexivity. Qed.

(** *** The success-rate query *)

Lemma near_floor_100 : near_floor_upto 100 = true.
Proof. vm_compute. reflexivity. Qed.

Lemma near_floor_sound bound (s t : nat) :
  near_floor_upto bound = true →
  (1 ≤ t ≤ bound)%nat → (s ≤ t)%nat →
  ∃ r, binary64_rate (Z.of_nat s) (Z.of_nat t) = Ok r ∧
       exact_floor_rate (Z.of_nat s) (Z.of_nat t) - 1 ≤ r
         ≤ exact_floor_rate (Z.of_nat s) (Z.of_nat t).
Proof.
  intros H Ht Hs.
  unfold near_floor_upto in H. rewrite forallb_forall in H.
  specialize (H t). rewrite forallb_forall in H.
  assert (Hin : In t (seq 1 bound)) by (apply in_seq; lia).
  specialize (H Hin s).
  assert (Hin' : In s (seq 0 (S t))) by (apply in_seq; lia).
  specialize (H Hin').
  destruct (binary64_rate _ _) as [r|e]; [|discriminate].
  exists r. split; [reflexivity|]. lia.
Qed.

Lemma get_success_rate_eq workflow_id w :
  get_success_rate workflow_id w =
  if stat_total (stats_of w workflow_id) =? 0 then (Ok 0, w)
  else (binary64_rate (stat_successful (stats_of w workflow_id))
                      (stat_total (stats_of w workflow_id)), w).
Proof.
  unfold get_success_rate, binary64_rate, stats_of, stored_data.
  rewrite (bind_ok _ _ _ _ _
             (eq_refl : load_learning_data w =
                        (Ok (default empty_learning_data (learning_db w)), w))).
  destruct (success_rate (default empty_learning_data (learning_db w))
              !! workflow_id) as [st|];
    cbn [from_option default stat_total stat_successful zero_stats];
    unfold id.
  - destruct (stat_total st =? 0); [reflexivity|]. unfold bind, lift.
    destruct (py_truediv (stat_successful st) (stat_total st)); reflexivity.
  - reflexivity.
Qed.

(** C10. The query returns 0 for a workflow with no recorded run,
    without dividing. Otherwise it returns [int] of the double
    [(successful / total) * 100], which is not always the integer floor
    of the percentage: for counts with successful <= total <= 100 it is
    the floor or one below it, and for 29 successful runs of 100 it is
    28, where the floor is 29. *)
Theorem success_rate_query workflow_id w :
  (stat_total (stats_of w workflow_id) = 0 →
     get_success_rate workflow_id w = (Ok 0, w)) ∧
  (0 < stat_total (stats_of w workflow_id) ≤ 100 →
   0 ≤ stat_successful (stats_of w workflow_id)
     ≤ stat_total (stats_of w workflow_id) →
   ∃ r, get_success_rate workflow_id w = (Ok r, w) ∧
        exact_floor_rate (stat_successful (stats_of w workflow_id))
                         (stat_total (stats_of w workflow_id)) - 1 ≤ r
          ≤ exact_floor_rate (stat_successful (stats_of w workflow_id))
                             (stat_total (stats_of w workflow_id))) ∧
  (stat_total (stats_of w workflow_id) = 100 →
   stat_successful (stats_of w workflow_id) = 29 →
   get_success_rate workflow_id w = (Ok 28, w) ∧
   exact_floor_rate (stat_successful (stats_of w workflow_id))
                    (stat_total (stats_of w workflow_id)) = 29).
Proof.
  rewrite get_success_rate_eq.
  split; [|split].
  - intros ->. reflexivity.
  - intros Ht Hs.
    destruct (Z.eqb_spec (stat_total (stats_of w workflow_id)) 0); [lia|].
    destruct (near_floor_sound 100
                (Z.to_nat (stat_successful (stats_of w workflow_id)))
                (Z.to_nat (stat_total (stats_of w workflow_id)))
                near_floor_100) as (r & Hr & Hb); [lia|lia|].
    rewrite !Z2Nat.id in Hr, Hb by lia.
    exists r. rewrite Hr. split; [reflexivity|exact Hb].
  - intros -> ->. split; vm_compute; reflexivity.
Qed.

Lemma success_rate_query_witness :
  get_success_rate "wf-1" world_29_of_100 = (Ok 28, world_29_of_100) ∧
  exact_floor_rate (stat_successful (stats_of world_29_of_100 "wf-1"))
                   (stat_total (stats_of world_29_of_100 "wf-1")) = 29.
Proof.
  apply (success_rate_query "wf-1" world_29_of_100); reflexivity.
Defined.

Lemma truncated_counts_of_100 : truncated_counts 100 = [29; 57; 58]%nat.
Proof. vm_compute. reflexivity. Qed.

(** The arithmetic of that answer: after 29 fully successful runs of 100
    the exact floor is 29 and the query answers 28. The quotient [29 / 100]
    is the double nearest to 0.29, which lies below 0.29; its product
    with 100 rounds to the double just below 29, which Python prints as
    28.999999999999996, and [int] truncates it. *)
Lemma success_rate_29_of_100 :
  exact_floor_rate 29 100 = 29 ∧
  py_truediv 29 100 = Ok (S754_finite false 5224175567749775 (-54)) ∧
  py_mul (S754_finite false 5224175567749775 (-54)) 100 =
    S754_finite false (29 * 2 ^ 48 - 1) (-48) ∧
  fst (get_success_rate "wf-1" world_29_of_100) = Ok 28 ∧
  fst (get_success_rate "wf-1" world_29_of_100) ≠ Ok (exact_floor_rate 29 100).
Proof.
  split; [reflexivity|]. split; [vm_compute; reflexivity|].
  split; [vm_compute; reflexivity|]. split; [vm_compute; reflexivity|].
  vm_compute. discriminate.
Qed.

(** ** The execution controller *)

(** *** One iteration of the loop *)


(** The iteration that finds the flag set runs its step. *)
Lemma run_steps_running env workflow n i s step rest w :
  stop_requested env i = false →
  automation_running w = true →
  run_steps env workflow n i s (step :: rest) w =
  bind (loop_body env workflow n i s step)
       (fun s' => run_steps env workflow n (S i) s' rest) w.
Proof.
  intros Hstop Hrun. simpl. unfold bind at 1 2.
  unfold serve_requests, get_automation_running. rewrite Hstop. simpl.
  rewrite Hrun. reflexivity.
Qed.

(** *** What the loop leaves alone *)

#[local] Instance frame_preorder : PreOrder frame.
Proof.
  split.
  - intros w. by unfold frame.
  - unfold frame. intros w1 w2 w3 (?&?&?) (?&?&?). repeat split; congruence.
Qed.

#[local] Instance same_db_preorder : PreOrder same_db.
Proof.
  split.
  - intros w. by unfold same_db.
  - unfold same_db. intros w1 w2 w3 (?&?) (?&?). split; congruence.
Qed.

Lemma frame_same_db w w' : frame w w' → same_db w w'.
Proof. unfold frame, same_db. tauto. Qed.

Section Preserves.
Context (R : relation World) `{!PreOrder R}.

Lemma preserves_ret {A} (a : A) : preserves R (ret a).
Proof. intros w. reflexivity. Qed.

Lemma preserves_raise {A} e : preserves R (@raise A e).
Proof. intros w. reflexivity. Qed.

Lemma preserves_lift {A} (o : Outcome A) : preserves R (lift o).
Proof. intros w. reflexivity. Qed.

Lemma preserves_bind {A B} (c : M A) (k : A → M B) :
  preserves R c → (∀ a, preserves R (k a)) → preserves R (bind c k).
Proof.
  intros Hc Hk w. unfold bind. specialize (Hc w).
  destruct (c w) as [[a|e] w']; simpl in *; [|exact Hc].
  etransitivity; [exact Hc|apply Hk].
Qed.

Lemma preserves_try_except {A} (c : M A) (h : exn → M A) :
  preserves R c → (∀ e, preserves R (h e)) → preserves R (try_except c h).
Proof.
  intros Hc Hh w. unfold try_except. specialize (Hc w).
  destruct (c w) as [[a|e] w']; simpl in *; [exact Hc|].
  etransitivity; [exact Hc|apply Hh].
Qed.

End Preserves.

Lemma preserves_same_db {A} (c : M A) : framed c → preserves same_db c.
Proof. intros H w. apply frame_same_db, H. Qed.

Lemma framed_ret {A} (a : A) : framed (ret a).
Proof. apply preserves_ret, _. Qed.

Lemma framed_raise {A} e : framed (@raise A e).
Proof. apply preserves_raise, _. Qed.

Lemma framed_print m : framed (print m).
Proof. intros w. by unfold frame. Qed.

Lemma framed_datetime_now env : framed (datetime_now env).
Proof. intros w. by unfold frame. Qed.

Lemma framed_append_log e : framed (append_log e).
Proof. intros w. by unfold frame. Qed.

Lemma framed_sleep q : framed (sleep q).
Proof. intros w. by unfold frame. Qed.

Lemma framed_inject env c : framed (inject env c).
Proof. intros w. unfold inject. by destruct (injector _ _ _). Qed.

Lemma framed_time_sleep v : framed (time_sleep v).
Proof.
  destruct v as [|b|q|s]; cbn [time_sleep];
    try apply framed_raise; try apply framed_sleep.
  destruct (fits_time_t q); [|apply framed_raise].
  destruct (Qle_bool 0 q); [apply framed_sleep|apply framed_raise].
Qed.

Lemma framed_log_feedback env m step_info : framed (log_feedback env m step_info).
Proof.
  unfold log_feedback.
  apply preserves_bind; [apply _|apply framed_datetime_now|intros t].
  apply preserves_bind;
    [apply _|apply framed_append_log|intros _; apply framed_print].
Qed.

Create HintDb framed.
#[local] Hint Resolve framed_ret framed_raise framed_print framed_sleep
  framed_datetime_now framed_append_log
  framed_inject framed_time_sleep framed_log_feedback : framed.

Ltac framed_step :=
  first [ solve [auto with framed]
        | apply preserves_bind; [apply _| |intros ?]
        | apply preserves_try_except; [apply _| |intros ?] ].

Lemma framed_dispatch env a step : framed (dispatch env a step).
Proof.
  unfold dispatch.
  repeat match goal with
         | |- framed (if ?b then _ else _) => destruct b
         | |- framed (match ?o with Some _ => _ | None => _ end) => destruct o
         | |- framed (match ?v with VNull => _ | _ => _ end) => destruct v
         | _ => framed_step
         end.
Qed.

Lemma framed_opening env workflow_id n : framed (opening env workflow_id n).
Proof. unfold opening. repeat framed_step. Qed.

Lemma framed_attempt env a step s : framed (attempt env a step s).
Proof.
  unfold attempt. pose proof (framed_dispatch env a step).
  repeat framed_step.
Qed.

Lemma framed_loop_body env workflow n i s step :
  framed (loop_body env workflow n i s step).
Proof.
  unfold loop_body. pose proof (framed_attempt env).
  apply preserves_bind; [apply _| |intros a; repeat framed_step].
  destruct (action step); auto with framed.
Qed.

Lemma same_db_serve_requests env i : preserves same_db (serve_requests env i).
Proof.
  intros w. unfold serve_requests.
  destruct (stop_requested env i), (started_again env i); by unfold same_db.
Qed.

Lemma same_db_enter_run : preserves same_db enter_run.
Proof. intros w. by unfold same_db. Qed.

Lemma same_db_run_steps env workflow n i s steps :
  preserves same_db (run_steps env workflow n i s steps).
Proof.
  revert i s. induction steps as [|step rest IH]; intros i s; simpl.
  - apply preserves_ret, _.
  - apply preserves_bind; [apply _|apply same_db_serve_requests|intros _].
    apply preserves_bind; [apply _| |intros running].
    { intros w. reflexivity. }
    destruct (negb running).
    + apply preserves_same_db. repeat framed_step.
    + apply preserves_bind; [apply _| |intros s'; apply IH].
      apply preserves_same_db, framed_loop_body.
Qed.

Lemma framed_run_steps env workflow n i s steps :
  (∀ j, (i ≤ j < i + List.length steps)%nat → stop_requested env j = false) →
  framed (run_steps env workflow n i s steps).
Proof.
  revert i s. induction steps as [|step rest IH]; intros i s Hstop; simpl.
  - apply framed_ret.
  - apply preserves_bind; [apply _| |intros _].
    { unfold serve_requests. rewrite Hstop by (simpl; lia). apply framed_ret. }
    apply preserves_bind; [apply _| |intros running].
    { intros w. reflexivity. }
    destruct (negb running).
    + repeat framed_step.
    + apply preserves_bind; [apply _|apply framed_loop_body|intros s'].
      apply IH. intros j Hj. apply Hstop. simpl. lia.
Qed.

(** *** Counting the failed steps in the log *)

Lemma step_errors_app l l' :
  step_errors (l ++ l') = (step_errors l + step_errors l')%nat.
Proof. unfold step_errors. by rewrite List.filter_app, length_app. Qed.

Lemma logs_errors_trans j k w1 w2 w3 :
  logs_errors j w1 w2 → logs_errors k w2 w3 → logs_errors (j + k) w1 w3.
Proof.
  intros (l & Hl & Hj) (l' & Hl' & Hk). exists (l ++ l'). split.
  - by rewrite Hl', Hl, app_assoc.
  - rewrite step_errors_app. lia.
Qed.

#[local] Instance quiet_preorder : PreOrder (logs_errors 0).
Proof.
  split.
  - intros w. exists []. split; [by rewrite app_nil_r|reflexivity].
  - intros w1 w2 w3 H1 H2. apply (logs_errors_trans 0 0 w1 w2 w3 H1 H2).
Qed.

Lemma quiet_same_log {A} (c : M A) :
  (∀ w, execution_logs (snd (c w)) = execution_logs w) →
  preserves (logs_errors 0) c.
Proof.
  intros H w. exists []. unfold messages. rewrite H, app_nil_r. done.
Qed.

Lemma quiet_print m : preserves (logs_errors 0) (print m).
Proof. by apply quiet_same_log. Qed.

Lemma quiet_sleep q : preserves (logs_errors 0) (sleep q).
Proof. by apply quiet_same_log. Qed.

Lemma quiet_inject env c : preserves (logs_errors 0) (inject env c).
Proof.
  apply quiet_same_log. intros w. unfold inject. by destruct (injector _ _ _).
Qed.

Lemma quiet_time_sleep v : preserves (logs_errors 0) (time_sleep v).
Proof.
  apply quiet_same_log. intros w.
  destruct v as [|b|q|s]; cbn [time_sleep]; try done.
  by destruct (fits_time_t q), (Qle_bool 0 q).
Qed.

Lemma log_feedback_messages env m step_info w :
  log_feedback env m step_info w =
  (Ok tt,
   {| automation_running := automation_running w;
      execution_logs :=
        execution_logs w ++
        [ {| log_timestamp := now env (ticks w); log_message := m;
             log_step := step_info |} ];
      learning_db := learning_db w; db_writable := db_writable w;
      ticks := S (ticks w); effects := effects w;
      stdout := stdout w ++ [m] |}).
Proof. reflexivity. Qed.

Lemma log_feedback_logs_errors env m step_info w :
  logs_errors (if is_step_error m then 1 else 0) w
    (snd (log_feedback env m step_info w)).
Proof.
  exists [m]. rewrite log_feedback_messages. unfold messages; simpl.
  rewrite map_app. split; [reflexivity|].
  unfold step_errors; simpl. by destruct (is_step_error m).
Qed.

Lemma quiet_log_feedback env m step_info :
  is_step_error m = false →
  preserves (logs_errors 0) (log_feedback env m step_info).
Proof.
  intros H w. pose proof (log_feedback_logs_errors env m step_info w) as L.
  by rewrite H in L.
Qed.

Ltac quiet_step :=
  first [ apply preserves_ret; apply _
        | apply preserves_raise; apply _
        | apply quiet_print | apply quiet_sleep | apply quiet_inject
        | apply quiet_time_sleep
        | apply quiet_log_feedback; reflexivity
        | apply preserves_bind; [apply _| |intros ?] ].

Lemma quiet_dispatch env a step : preserves (logs_errors 0) (dispatch env a step).
Proof.
  unfold dispatch.
  repeat match goal with
         | |- preserves _ (if ?b then _ else _) => destruct b
         | |- preserves _ (match ?o with Some _ => _ | None => _ end) =>
             destruct o
         | |- preserves _ (match ?v with VNull => _ | _ => _ end) => destruct v
         | _ => quiet_step
         end.
Qed.

Lemma attempt_eq env a step s w :
  attempt env a step s w =
  match dispatch env a step w with
  | (Ok _, w1) => (Ok (s + 1), snd (sleep (1 # 2) w1))
  | (Raise e, w1) => (Ok s, snd (log_feedback env (MsgStepError e) None w1))
  end.
Proof.
  unfold attempt, try_except, bind.
  destruct (dispatch env a step w) as [[[]|e] w1]; reflexivity.
Qed.

(** A step is either counted, or reported as failed in the log: never
    both, never neither; the attempt itself never raises. *)
Lemma attempt_counts env a step s w :
  (fst (attempt env a step s w) = Ok (s + 1) ∧
   logs_errors 0 w (snd (attempt env a step s w))) ∨
  (fst (attempt env a step s w) = Ok s ∧
   logs_errors 1 w (snd (attempt env a step s w))).
Proof.
  rewrite attempt_eq.
  pose proof (quiet_dispatch env a step w) as Hq.
  destruct (dispatch env a step w) as [[[]|e] w1]; simpl in Hq.
  - left. split; [reflexivity|].
    eapply (logs_errors_trans 0 0); [exact Hq|]. apply quiet_sleep.
  - right. split; [reflexivity|].
    eapply (logs_errors_trans 0 1); [exact Hq|].
    apply (log_feedback_logs_errors env (MsgStepError e) None w1).
Qed.

Lemma loop_body_no_action env workflow n i s step w :
  action step = None →
  loop_body env workflow n i s step w = (Raise AttributeError, w).
Proof. intros H. unfold loop_body, bind. by rewrite H. Qed.

Lemma loop_body_counts env workflow n i s step w :
  is_Some (action step) →
  ∃ s' w' e,
    loop_body env workflow n i s step w = (Ok s', w') ∧
    logs_errors e w w' ∧ s' + Z.of_nat e = s + 1.
Proof.
  intros [a Ha]. unfold loop_body. rewrite Ha.
  unfold bind at 1, ret at 1. unfold bind at 1.
  rewrite log_feedback_messages. unfold bind at 1.
  rewrite log_feedback_messages.
  match goal with |- context [attempt env a step s ?w1] =>
    assert (Hq : logs_errors 0 w w1);
    [|destruct (attempt_counts env a step s w1) as [[H1 H2]|[H1 H2]];
      destruct (attempt env a step s w1) as [o w2]; simpl in H1, H2; subst o]
  end.
  - eexists [_; _]. unfold messages; simpl. rewrite !map_app, <- app_assoc.
    split; reflexivity.
  - exists (s + 1), w2, 0%nat. split; [reflexivity|]. split; [|lia].
    apply (logs_errors_trans 0 0 _ _ _ Hq H2).
  - exists s, w2, 1%nat. split; [reflexivity|]. split; [|lia].
    apply (logs_errors_trans 0 1 _ _ _ Hq H2).
Qed.

(** *** The loop over a prefix of the steps *)

(** While no stop request is served, the steps of a list all run: the
    loop returns, and every step is either counted or reported as failed
    in the log. *)
Lemma run_steps_completes env workflow n steps : ∀ i s w,
  Forall (fun st => is_Some (action st)) steps →
  (∀ j, (i ≤ j < i + List.length steps)%nat → stop_requested env j = false) →
  automation_running w = true →
  ∃ s' w' e,
    run_steps env workflow n i s steps w = (Ok s', w') ∧
    frame w w' ∧ logs_errors e w w' ∧
    s' + Z.of_nat e = s + Z.of_nat (List.length steps).
Proof.
  induction steps as [|step rest IH]; intros i s w Hact Hstop Hrun.
  - exists s, w, 0%nat. split; [reflexivity|]. split; [reflexivity|].
    split; [reflexivity|simpl; lia].
  - inversion Hact as [|? ? Hstep Hrest]; subst.
    rewrite run_steps_running
      by first [assumption | apply Hstop; simpl; lia].
    destruct (loop_body_counts env workflow n i s step w Hstep)
      as (s1 & w1 & e1 & Hbody & Hlog1 & Hs1).
    pose proof (framed_loop_body env workflow n i s step w) as Hf1.
    unfold bind. rewrite Hbody in *. simpl in Hf1.
    destruct (IH (S i) s1 w1 Hrest) as (s' & w' & e & Hrun' & Hf & Hlog & Hs').
    { intros j Hj. apply Hstop. simpl. lia. }
    { destruct Hf1 as [-> _]. exact Hrun. }
    exists s', w', (e1 + e)%nat. split; [exact Hrun'|].
    split; [by etransitivity|].
    split; [by eapply logs_errors_trans|]. simpl length. lia.
Qed.

(** While no stop request is served, running a list of steps is running a
    prefix of it and then the rest. *)
Lemma run_steps_app env workflow n pre post : ∀ i s w,
  (∀ j, (i ≤ j < i + List.length pre)%nat → stop_requested env j = false) →
  automation_running w = true →
  run_steps env workflow n i s (pre ++ post) w =
  bind (run_steps env workflow n i s pre)
       (fun s' => run_steps env workflow n (i + List.length pre) s' post) w.
Proof.
  induction pre as [|step rest IH]; intros i s w Hstop Hrun.
  - simpl. unfold bind, ret. by rewrite Nat.add_0_r.
  - rewrite <- app_comm_cons.
    rewrite run_steps_running
      by first [assumption | apply Hstop; simpl; lia].
    unfold bind.
    rewrite run_steps_running
      by first [assumption | apply Hstop; simpl; lia].
    unfold bind.
    pose proof (framed_loop_body env workflow n i s step w) as Hf1.
    destruct (loop_body env workflow n i s step w) as [[s1|e] w1];
      [|reflexivity].
    simpl in Hf1. rewrite IH.
    + unfold bind. simpl length.
      by replace (S i + List.length rest)%nat
        with (i + S (List.length rest))%nat by lia.
    + intros j Hj. apply Hstop. simpl. lia.
    + destruct Hf1 as [-> _]. exact Hrun.
Qed.

(** *** Whole runs *)

Lemma try_block_content env workflow_id workflow w :
  workflow_file env workflow_id = Content workflow →
  try_block env workflow_id w =
  bind (opening env workflow_id (Z.of_nat (List.length (automation_steps workflow))))
    (fun _ =>
       bind (run_steps env workflow
               (Z.of_nat (List.length (automation_steps workflow))) 1 0
               (automation_steps workflow))
            (closing env workflow_id
               (Z.of_nat (List.length (automation_steps workflow))))) w.
Proof.
  intros H. unfold try_block, opening, closing. rewrite H.
  unfold bind. rewrite !log_feedback_messages. simpl. reflexivity.
Qed.

Lemma execute_workflow_with_feedback_eq env workflow_id w :
  execute_workflow_with_feedback env workflow_id w =
  try_except (try_block env workflow_id) (critical_handler env)
    (snd (enter_run w)).
Proof. reflexivity. Qed.

(** C5. A workflow with no steps: the quotient [0 / 0] raises, the run
    ends in the critical-error handler with the result [False], and the
    recorder is never called. *)
Theorem empty_workflow_fails env workflow_id workflow w :
  workflow_file env workflow_id = Content workflow →
  automation_steps workflow = [] →
  success_ratio 0 0 = Raise ZeroDivisionError ∧
  fst (execute_workflow_with_feedback env workflow_id w) = Ok false ∧
  messages (snd (execute_workflow_with_feedback env workflow_id w)) =
    [MsgStarting workflow_id; MsgTotalSteps 0; MsgPrepare;
     MsgCritical ZeroDivisionError] ∧
  learning_db (snd (execute_workflow_with_feedback env workflow_id w)) =
    learning_db w.
Proof.
  intros Hf Hs. split; [reflexivity|].
  rewrite execute_workflow_with_feedback_eq. unfold try_except.
  rewrite try_block_content with (workflow := workflow) by done.
  rewrite Hs. repeat split; vm_compute; reflexivity.
Qed.

Lemma empty_workflow_fails_witness :
  success_ratio 0 0 = Raise ZeroDivisionError ∧
  fst (execute_workflow_with_feedback (calm_env (workflow_of []) never) "wf-1"
         fresh_world) = Ok false ∧
  messages (snd (execute_workflow_with_feedback
                   (calm_env (workflow_of []) never) "wf-1" fresh_world)) =
    [MsgStarting "wf-1"; MsgTotalSteps 0; MsgPrepare;
     MsgCritical ZeroDivisionError] ∧
  learning_db (snd (execute_workflow_with_feedback
                      (calm_env (workflow_of []) never) "wf-1" fresh_world)) =
    learning_db fresh_world.
Proof.
  apply (empty_workflow_fails (calm_env (workflow_of []) never) "wf-1"
           {| wf_workflow_id := "wf-1"; wf_created_at := "";
              automation_steps := [] |} fresh_world); reflexivity.
Defined.

(** *** Single steps *)

Lemma loop_body_action env workflow n i s step a w :
  action step = Some a →
  loop_body env workflow n i s step w =
  attempt env a step s
    (snd (log_feedback env
            (MsgReasoning (fst (get_reasoning_for_action step workflow))
                          (snd (get_reasoning_for_action step workflow))) None
       (snd (log_feedback env (MsgStep i n a) (Some step) w)))).
Proof. intros H. unfold loop_body. rewrite H. reflexivity. Qed.

(** Rewrites a goal about the world after a sequence of log entries,
    pauses and injector calls into one about the fields of the world
    before it. *)
Ltac world_fields :=
  unfold bind, sleep, ret;
  rewrite ?log_feedback_messages;
  cbn [fst snd automation_running execution_logs learning_db db_writable
       ticks effects stdout];
  unfold messages;
  cbn [fst snd automation_running execution_logs learning_db db_writable
       ticks effects stdout];
  rewrite ?map_app; cbn [map log_message]; rewrite <- ?app_assoc.

Lemma click_step_counted env workflow n i s step w :
  action step = Some "click" →
  arg step "x" = None ∨ arg step "y" = None →
  fst (loop_body env workflow n i s step w) = Ok (s + 1) ∧
  messages (snd (loop_body env workflow n i s step w)) =
    messages w ++
    [MsgStep i n "click";
     MsgReasoning (fst (get_reasoning_for_action step workflow))
                  (snd (get_reasoning_for_action step workflow));
     MsgClicking (default "" (target step)); MsgNoCoordinates] ∧
  effects (snd (loop_body env workflow n i s step w)) =
    effects w ++ [CSleep (1 # 2)].
Proof.
  intros Ha Hxy.
  assert (H : dispatch env "click" step =
              (log_feedback env (MsgClicking (default "" (target step))) None >>
               log_feedback env MsgNoCoordinates None)).
  { unfold dispatch. cbn [String.eqb Ascii.eqb Bool.eqb].
    destruct Hxy as [-> | ->]; [reflexivity|].
    destruct (arg step "x"); reflexivity. }
  rewrite (loop_body_action _ _ _ _ _ _ _ _ Ha), attempt_eq, H.
  world_fields. repeat split; reflexivity.
Qed.

(** C6, as the code has it. A click step without [x] or [y] clicks
    nothing and logs the "No coordinates available, skipping" warning;
    the step is then counted among the successful steps like any step
    whose dispatch returns, and the loop goes on with the next step. *)
Theorem click_without_coordinates env workflow n i s step rest w :
  stop_requested env i = false →
  automation_running w = true →
  action step = Some "click" →
  arg step "x" = None ∨ arg step "y" = None →
  ∃ w',
    run_steps env workflow n i s (step :: rest) w =
    run_steps env workflow n (S i) (s + 1) rest w' ∧
    messages w' =
      messages w ++
      [MsgStep i n "click";
       MsgReasoning (fst (get_reasoning_for_action step workflow))
                    (snd (get_reasoning_for_action step workflow));
       MsgClicking (default "" (target step)); MsgNoCoordinates] ∧
    effects w' = effects w ++ [CSleep (1 # 2)] ∧
    automation_running w' = true.
Proof.
  intros Hstop Hrun Ha Hxy.
  destruct (click_step_counted env workflow n i s step w Ha Hxy)
    as (H1 & H2 & H3).
  pose proof (framed_loop_body env workflow n i s step w) as (Hf & _).
  rewrite run_steps_running by assumption. unfold bind.
  destruct (loop_body env workflow n i s step w) as [o w1].
  simpl in H1, H2, H3, Hf. subst o.
  exists w1. split; [reflexivity|]. split; [exact H2|]. split; [exact H3|].
  congruence.
Qed.

Lemma click_without_coordinates_witness :
  ∃ w',
    run_steps (calm_env Missing never) (one_step_workflow click_nowhere) 1 1 0
      [click_nowhere] running_world =
    run_steps (calm_env Missing never) (one_step_workflow click_nowhere) 1 2
      (0 + 1) [] w' ∧
    messages w' =
      messages running_world ++
      [MsgStep 1 1 "click";
       MsgReasoning
         (fst (get_reasoning_for_action click_nowhere
                 (one_step_workflow click_nowhere)))
         (snd (get_reasoning_for_action click_nowhere
                 (one_step_workflow click_nowhere)));
       MsgClicking (default "" (target click_nowhere)); MsgNoCoordinates] ∧
    effects w' = effects running_world ++ [CSleep (1 # 2)] ∧
    automation_running w' = true.
Proof.
  apply (click_without_coordinates (calm_env Missing never)
           (one_step_workflow click_nowhere) 1 1 0 click_nowhere []
           running_world).
  - reflexivity.
  - reflexivity.
  - reflexivity.
  - left. reflexivity.
Defined.

(** C6, as stated, fails: a workflow whose only step is a click without
    coordinates is recorded as a fully successful run, one step of one
    completed. *)
Lemma click_without_coordinates_is_success :
  fst (execute_workflow_with_feedback
         (calm_env (workflow_of [click_nowhere]) never) "wf-1" fresh_world)
    = Ok true ∧
  messages (snd (execute_workflow_with_feedback
         (calm_env (workflow_of [click_nowhere]) never) "wf-1" fresh_world))
    = [MsgStarting "wf-1"; MsgTotalSteps 1; MsgPrepare; MsgStep 1 1 "click";
       MsgReasoning RClick CtxNone; MsgClicking ""; MsgNoCoordinates;
       MsgAllDone 1] ∧
  map (fun e => (ce_success e, ce_steps_completed e, ce_total_steps e))
    (curve_of (snd (execute_workflow_with_feedback
         (calm_env (workflow_of [click_nowhere]) never) "wf-1" fresh_world)))
    = [(true, 1, 1)] ∧
  stat_successful
    (stats_of (snd (execute_workflow_with_feedback
         (calm_env (workflow_of [click_nowhere]) never) "wf-1" fresh_world))
       "wf-1") = 1.
Proof. repeat split; vm_compute; reflexivity. Qed.

Lemma type_step_counted env workflow n i s step w :
  action step = Some "type" →
  arg step "text" = None ∨ arg step "text" = Some (VStr "") →
  injector env (List.length (effects w)) (CWrite (VStr "")) = None →
  fst (loop_body env workflow n i s step w) = Ok (s + 1) ∧
  messages (snd (loop_body env workflow n i s step w)) =
    messages w ++
    [MsgStep i n "type";
     MsgReasoning (fst (get_reasoning_for_action step workflow))
                  (snd (get_reasoning_for_action step workflow));
     MsgTyping (VStr ""); MsgTyped] ∧
  effects (snd (loop_body env workflow n i s step w)) =
    effects w ++ [CWrite (VStr ""); CSleep (1 # 2)].
Proof.
  intros Ha Ht Hinj.
  assert (H : dispatch env "type" step =
              (log_feedback env (MsgTyping (VStr "")) None >>
               inject env (CWrite (VStr "")) >>
               log_feedback env MsgTyped None)).
  { unfold dispatch. cbn [String.eqb Ascii.eqb Bool.eqb].
    destruct Ht as [-> | ->]; reflexivity. }
  rewrite (loop_body_action _ _ _ _ _ _ _ _ Ha), attempt_eq, H.
  unfold bind, inject. rewrite !log_feedback_messages.
  cbn [fst snd automation_running execution_logs learning_db db_writable
       ticks effects stdout].
  rewrite Hinj. world_fields. repeat split; reflexivity.
Qed.

(** C9 on the controller's path. For a type step with an empty text the
    controller logs "Typing" and "Typed successfully", calls
    [pyautogui.write] with the empty string and counts the step; none of
    the entries it logs is a warning. *)
Theorem dashboard_types_empty_text env workflow n i s step w :
  action step = Some "type" →
  arg step "text" = None ∨ arg step "text" = Some (VStr "") →
  injector env (List.length (effects w)) (CWrite (VStr "")) = None →
  ∃ new,
    fst (loop_body env workflow n i s step w) = Ok (s + 1) ∧
    messages (snd (loop_body env workflow n i s step w)) = messages w ++ new ∧
    new = [MsgStep i n "type";
           MsgReasoning (fst (get_reasoning_for_action step workflow))
                        (snd (get_reasoning_for_action step workflow));
           MsgTyping (VStr ""); MsgTyped] ∧
    existsb is_warning new = false ∧
    effects (snd (loop_body env workflow n i s step w)) =
      effects w ++ [CWrite (VStr ""); CSleep (1 # 2)].
Proof.
  intros Ha Ht Hinj.
  destruct (type_step_counted env workflow n i s step w Ha Ht Hinj)
    as (H1 & H2 & H3).
  eexists. split; [exact H1|]. split; [exact H2|]. split; [reflexivity|].
  split; [reflexivity|exact H3].
Qed.

Lemma dashboard_types_empty_text_witness :
  ∃ new,
    fst (loop_body (calm_env Missing never) (one_step_workflow type_nothing)
           1 1 0 type_nothing running_world) = Ok (0 + 1) ∧
    messages (snd (loop_body (calm_env Missing never)
                     (one_step_workflow type_nothing) 1 1 0 type_nothing
                     running_world)) = messages running_world ++ new ∧
    new = [MsgStep 1 1 "type";
           MsgReasoning
             (fst (get_reasoning_for_action type_nothing
                     (one_step_workflow type_nothing)))
             (snd (get_reasoning_for_action type_nothing
                     (one_step_workflow type_nothing)));
           MsgTyping (VStr ""); MsgTyped] ∧
    existsb is_warning new = false ∧
    effects (snd (loop_body (calm_env Missing never)
                    (one_step_workflow type_nothing) 1 1 0 type_nothing
                    running_world)) =
      effects running_world ++ [CWrite (VStr ""); CSleep (1 # 2)].
Proof.
  apply (dashboard_types_empty_text (calm_env Missing never)
           (one_step_workflow type_nothing) 1 1 0 type_nothing running_world).
  - reflexivity.
  - right. vm_compute. reflexivity.
  - reflexivity.
Defined.

(** The sibling path: the runner's dispatcher types nothing, prints the
    "No text to type" warning and reports the step as completed. *)
Lemma runner_empty_text env step w :
  action step = Some "type" →
  arg step "text" = None ∨ arg step "text" = Some (VStr "") →
  fst (AutomationRunner.execute_step env step false w) = Ok tt ∧
  stdout (snd (AutomationRunner.execute_step env step false w)) =
    stdout w ++
    [OutHeader (step_num step) "type"
       (default "No description" (description step));
     OutNoText; OutCompleted (step_num step)] ∧
  effects (snd (AutomationRunner.execute_step env step false w)) = effects w.
Proof.
  intros Ha Ht.
  unfold AutomationRunner.execute_step, AutomationRunner._execute_type.
  rewrite Ha. change (default "unknown" (Some "type")) with "type".
  cbn [String.eqb Ascii.eqb Bool.eqb].
  assert (Htext : default (VStr "") (arg step "text") = VStr "")
    by (destruct Ht as [-> | ->]; reflexivity).
  rewrite Htext. cbn [truthy String.eqb negb].
  unfold try_except, bind, print.
  cbn [fst snd automation_running execution_logs learning_db db_writable
       ticks effects stdout].
  rewrite <- ?app_assoc. repeat split; reflexivity.
Qed.

(** *** Errors outside the per-step handler *)

(** The handler's path: whatever the [try] block raises, the run returns
    [False], its last log entry is the critical error, and the flag is
    cleared. *)
Lemma critical_error_resets env workflow_id w e w1 :
  try_block env workflow_id (snd (enter_run w)) = (Raise e, w1) →
  fst (execute_workflow_with_feedback env workflow_id w) = Ok false ∧
  last (messages (snd (execute_workflow_with_feedback env workflow_id w))) =
    Some (MsgCritical e) ∧
  automation_running (snd (execute_workflow_with_feedback env workflow_id w))
    = false.
Proof.
  intros H. rewrite execute_workflow_with_feedback_eq. unfold try_except.
  rewrite H. unfold critical_handler, set_automation_running. world_fields.
  split; [reflexivity|]. split; [apply last_snoc|reflexivity].
Qed.

Lemma unreadable_file_raises env workflow_id e w :
  workflow_file env workflow_id = Unreadable e →
  try_block env workflow_id w = (Raise e, w).
Proof. intros H. unfold try_block. rewrite H. reflexivity. Qed.

(** A workflow file that exists and cannot be read or parsed takes the
    handler's path. *)
Lemma unreadable_workflow_resets env workflow_id e w :
  workflow_file env workflow_id = Unreadable e →
  fst (execute_workflow_with_feedback env workflow_id w) = Ok false ∧
  last (messages (snd (execute_workflow_with_feedback env workflow_id w))) =
    Some (MsgCritical e) ∧
  automation_running (snd (execute_workflow_with_feedback env workflow_id w))
    = false.
Proof.
  intros H. apply critical_error_resets with (w1 := snd (enter_run w)).
  by apply unreadable_file_raises.
Qed.

(** While the flag is set a start request is refused and starts nothing. *)
Lemma start_rejected_while_running workflow_id s :
  automation_running (world s) = true →
  execute_workflow workflow_id s = (already_running, s).
Proof. intros H. unfold execute_workflow. rewrite H. reflexivity. Qed.

(** C8 on the early return of line 161. When the workflow file does not
    exist the run logs "Workflow file not found" and returns [False]
    with [automation_running] still set: no critical-error entry, and
    every later start request is answered "Automation already running"
    although no thread is executing. *)
Theorem missing_workflow_leaves_running env workflow_id w :
  workflow_file env workflow_id = Missing →
  fst (execute_workflow_with_feedback env workflow_id w) = Ok false ∧
  messages (snd (execute_workflow_with_feedback env workflow_id w)) =
    [MsgNotFound] ∧
  automation_running (snd (execute_workflow_with_feedback env workflow_id w))
    = true ∧
  ∀ next ts,
    fst (execute_workflow next
           {| world := snd (execute_workflow_with_feedback env workflow_id w);
              threads := ts |}) = already_running.
Proof.
  intros H. rewrite execute_workflow_with_feedback_eq.
  unfold try_except, try_block. rewrite H.
  split; [reflexivity|]. split; [reflexivity|]. split; [reflexivity|].
  intros next ts. reflexivity.
Qed.

Lemma missing_workflow_leaves_running_witness :
  fst (execute_workflow_with_feedback (calm_env Missing never) "wf-9"
         fresh_world) = Ok false ∧
  messages (snd (execute_workflow_with_feedback (calm_env Missing never)
                   "wf-9" fresh_world)) = [MsgNotFound] ∧
  automation_running (snd (execute_workflow_with_feedback
                             (calm_env Missing never) "wf-9" fresh_world))
    = true ∧
  ∀ next ts,
    fst (execute_workflow next
           {| world := snd (execute_workflow_with_feedback
                              (calm_env Missing never) "wf-9" fresh_world);
              threads := ts |}) = already_running.
Proof.
  apply (missing_workflow_leaves_running (calm_env Missing never) "wf-9"
           fresh_world).
  reflexivity.
Defined.

(** *** Start requests and execution threads *)

(** C1 on two traces. From an idle server, (1) a start, the thread's
    entry, a stop and a second start, and (2) two starts before the
    first thread has run its first statement, both end with every start
    accepted and two execution threads alive. *)
Theorem second_start_while_thread_alive env a b w :
  automation_running w = false →
  fst (run_trace env [PostExecute a; ThreadEnters 0; PostStop; PostExecute b]
         (idle_server w)) =
    [Some (started a); None; Some stopped; Some (started b)] ∧
  alive (snd (run_trace env
                [PostExecute a; ThreadEnters 0; PostStop; PostExecute b]
                (idle_server w))) = 2%nat ∧
  fst (run_trace env [PostExecute a; PostExecute b] (idle_server w)) =
    [Some (started a); Some (started b)] ∧
  alive (snd (run_trace env [PostExecute a; PostExecute b] (idle_server w)))
    = 2%nat.
Proof.
  intros H. destruct w; simpl in H; subst.
  repeat split; vm_compute; reflexivity.
Qed.

Lemma second_start_while_thread_alive_witness :
  fst (run_trace (calm_env Missing never)
         [PostExecute "a"; ThreadEnters 0; PostStop; PostExecute "b"]
         (idle_server fresh_world)) =
    [Some (started "a"); None; Some stopped; Some (started "b")] ∧
  alive (snd (run_trace (calm_env Missing never)
                [PostExecute "a"; ThreadEnters 0; PostStop; PostExecute "b"]
                (idle_server fresh_world))) = 2%nat ∧
  fst (run_trace (calm_env Missing never) [PostExecute "a"; PostExecute "b"]
         (idle_server fresh_world)) =
    [Some (started "a"); Some (started "b")] ∧
  alive (snd (run_trace (calm_env Missing never)
                [PostExecute "a"; PostExecute "b"] (idle_server fresh_world)))
    = 2%nat.
Proof.
  apply (second_start_while_thread_alive (calm_env Missing never) "a" "b"
           fresh_world).
  reflexivity.
Defined.

(** The two runs of the first trace, continued to their ends: the log
    that run [b] reset holds the entries of run [a]; run [a], which the
    user stopped, completes all its steps; run [b], which nobody stopped,
    is cancelled by the flag that run [a] clears when it returns. *)
Lemma two_runs_share_the_log :
  messages (world (snd (run_trace
      (calm_env (workflow_of [click_nowhere]) never)
      [PostExecute "a"; ThreadEnters 0; PostStop; PostExecute "b";
       ThreadEnters 1; ThreadFinishes 0; ThreadFinishes 1]
      (idle_server fresh_world)))) =
  [MsgStarting "a"; MsgTotalSteps 1; MsgPrepare; MsgStep 1 1 "click";
   MsgReasoning RClick CtxNone; MsgClicking ""; MsgNoCoordinates;
   MsgAllDone 1;
   MsgStarting "b"; MsgTotalSteps 1; MsgPrepare; MsgStopped; MsgPartial 0 1].
Proof. vm_compute. reflexivity. Qed.

(** *** A learning database that cannot be written *)

Lemma update_learning_data_raises env workflow_id success s n w :
  db_writable w = false →
  update_learning_data env workflow_id success s n w =
  (Raise OSError,
   {| automation_running := automation_running w;
      execution_logs := execution_logs w;
      learning_db := learning_db w; db_writable := db_writable w;
      ticks := S (S (ticks w)); effects := effects w; stdout := stdout w |}).
Proof.
  intros Hw.
  unfold update_learning_data, bind, load_learning_data, datetime_now,
    save_learning_data; simpl.
  rewrite Hw. reflexivity.
Qed.

Lemma critical_handler_eq env e w :
  critical_handler env e w =
  (Ok false,
   {| automation_running := false;
      execution_logs :=
        execution_logs w ++
        [ {| log_timestamp := now env (ticks w);
             log_message := MsgCritical e; log_step := None |} ];
      learning_db := learning_db w; db_writable := db_writable w;
      ticks := S (ticks w); effects := effects w;
      stdout := stdout w ++ [MsgCritical e] |}).
Proof. reflexivity. Qed.

Lemma opening_eq env workflow_id n w :
  fst (opening env workflow_id n w) = Ok tt ∧
  frame w (snd (opening env workflow_id n w)) ∧
  messages (snd (opening env workflow_id n w)) =
    messages w ++ [MsgStarting workflow_id; MsgTotalSteps n; MsgPrepare].
Proof.
  unfold opening, frame. world_fields. repeat split; reflexivity.
Qed.

(** With a read-only database the statements after the loop raise: the
    quotient does for an empty workflow, the recorder does otherwise. *)
Lemma closing_read_only env workflow_id n s w :
  db_writable w = false →
  ∃ e, fst (closing env workflow_id n s w) = Raise e ∧
       same_db w (snd (closing env workflow_id n s w)) ∧
       (n ≠ 0 → e = OSError).
Proof.
  intros Hw. unfold closing, success_ratio.
  destruct (Z.eqb_spec n 0) as [->|Hn].
  { exists ZeroDivisionError. split; [reflexivity|].
    split; [by unfold same_db|done]. }
  assert (H : ∃ w', (let* r := lift (Ok (inject_Z s / inject_Z n * 100)%Q) in
                     (if is_100 r
                      then log_feedback env (MsgAllDone n) None
                      else log_feedback env (MsgPartial s n) None) >>
                     update_learning_data env workflow_id (is_100 r) s n >>
                     set_automation_running false >> ret true) w
                    = (Raise OSError, w') ∧ same_db w w').
  { unfold bind at 1, lift at 1.
    destruct (is_100 _);
      unfold bind at 1; rewrite log_feedback_messages; unfold bind at 1;
      rewrite update_learning_data_raises by exact Hw;
      (eexists; split; [reflexivity|]; by unfold same_db). }
  destruct H as (w' & -> & Hdb). exists OSError. done.
Qed.

Lemma try_block_read_only env workflow_id w :
  db_writable w = false →
  same_db w (snd (try_block env workflow_id w)) ∧
  (fst (try_block env workflow_id w) = Ok false ∨
   ∃ e, fst (try_block env workflow_id w) = Raise e).
Proof.
  intros Hw.
  destruct (workflow_file env workflow_id) as [|e|workflow] eqn:Hf.
  - unfold try_block. rewrite Hf. split; [by unfold same_db|by left].
  - rewrite (unreadable_file_raises _ _ _ _ Hf). split; [reflexivity|eauto].
  - rewrite (try_block_content _ _ _ _ Hf).
    set (n := Z.of_nat (List.length (automation_steps workflow))).
    pose proof (opening_eq env workflow_id n w) as (Ho & Hf1 & _).
    destruct (opening env workflow_id n w) as [o1 w1] eqn:Eo.
    simpl in Ho, Hf1. subst o1. rewrite (bind_ok _ _ _ _ _ Eo).
    pose proof (same_db_run_steps env workflow n 1 0
                  (automation_steps workflow) w1) as Hdb.
    destruct (run_steps env workflow n 1 0 (automation_steps workflow) w1)
      as [[s|e] w2] eqn:Er; simpl in Hdb.
    + rewrite (bind_ok _ _ _ _ _ Er).
      destruct (closing_read_only env workflow_id n s w2)
        as (e & He & Hdb' & _).
      { destruct Hdb as [_ ->]. destruct Hf1 as (_ & _ & ->). exact Hw. }
      destruct (closing env workflow_id n s w2) as [o3 w3].
      simpl in He, Hdb'. subst o3.
      split; [|right; exists e; reflexivity].
      etransitivity; [apply frame_same_db, Hf1|].
      etransitivity; [exact Hdb|exact Hdb'].
    + rewrite (bind_raise _ _ _ _ _ Er).
      split; [|right; exists e; reflexivity].
      etransitivity; [apply frame_same_db, Hf1|exact Hdb].
Qed.

(** With a database file that cannot be opened for writing, the
    statements after the loop log the verdict and then raise. *)
Lemma closing_refused env workflow_id n s w :
  n ≠ 0 → db_writable w = false →
  closing env workflow_id n s w =
  (Raise OSError,
   {| automation_running := automation_running w;
      execution_logs :=
        execution_logs w ++
        [ {| log_timestamp := now env (ticks w);
             log_message := verdict s n; log_step := None |} ];
      learning_db := learning_db w; db_writable := db_writable w;
      ticks := S (S (S (ticks w))); effects := effects w;
      stdout := stdout w ++ [verdict s n] |}).
Proof.
  intros Hn Hw. unfold closing, verdict.
  destruct (success_ratio_is_100 s n Hn) as (r & Hr & Hiff).
  rewrite Hr.
  assert (Hr' : is_100 r = (s =? n)).
  { destruct (Z.eqb_spec s n) as [He|He].
    - by apply Hiff.
    - destruct (is_100 r); [|reflexivity]. exfalso. apply He. by apply Hiff. }
  rewrite (bind_ok _ _ _ r w (eq_refl : lift (Ok r) w = (Ok r, w))).
  rewrite Hr'.
  destruct (s =? n).
  - rewrite (bind_ok _ _ _ _ _ (log_feedback_messages env _ None w)).
    erewrite bind_raise; [|apply update_learning_data_raises; exact Hw].
    reflexivity.
  - rewrite (bind_ok _ _ _ _ _ (log_feedback_messages env _ None w)).
    erewrite bind_raise; [|apply update_learning_data_raises; exact Hw].
    reflexivity.
Qed.

(** C7, as the code has it. The recorder has no handler of its own, and
    the run calls it after it has logged its verdict. When the database
    file cannot be opened for writing, a run whose steps were all
    attempted therefore fails at its very end: the log has the verdict
    of the run, then the critical error [OSError] that the recorder
    raised and the outer handler caught; the flag is cleared and the run
    returns [False]. *)
Theorem recorder_failure_fails_run env workflow_id workflow w :
  db_writable w = false →
  workflow_file env workflow_id = Content workflow →
  automation_steps workflow ≠ [] →
  Forall (fun st => is_Some (action st)) (automation_steps workflow) →
  (∀ j, stop_requested env j = false) →
  ∃ s' l,
    fst (execute_workflow_with_feedback env workflow_id w) = Ok false ∧
    messages (snd (execute_workflow_with_feedback env workflow_id w)) =
      l ++ [verdict s' (Z.of_nat (List.length (automation_steps workflow)));
            MsgCritical OSError] ∧
    s' = Z.of_nat (List.length (automation_steps workflow))
         - Z.of_nat (step_errors l) ∧
    automation_running
      (snd (execute_workflow_with_feedback env workflow_id w)) = false.
Proof.
  intros Hw Hf Hne Hact Hstop.
  set (n := Z.of_nat (List.length (automation_steps workflow))).
  assert (Hn : n ≠ 0).
  { unfold n. destruct (automation_steps workflow); [done|simpl; lia]. }
  set (w0 := snd (enter_run w)).
  pose proof (opening_eq env workflow_id n w0) as (Ho & Hf1 & Hm1).
  destruct (opening env workflow_id n w0) as [o w1] eqn:Eo.
  simpl in Ho, Hf1, Hm1. subst o.
  destruct (run_steps_completes env workflow n (automation_steps workflow)
              1 0 w1 Hact) as (s' & w2 & k & Hrun & Hf2 & (l & Hl & He) & Hs').
  { intros j _. apply Hstop. }
  { destruct Hf1 as (-> & _). reflexivity. }
  assert (Hw2 : db_writable w2 = false).
  { destruct Hf2 as (_ & _ & ->). destruct Hf1 as (_ & _ & ->). exact Hw. }
  pose proof (closing_refused env workflow_id n s' w2 Hn Hw2) as Ec.
  match type of Ec with _ = (_, ?W) => set (w3 := W) in Ec end.
  assert (Hrun3 : execute_workflow_with_feedback env workflow_id w =
                  critical_handler env OSError w3).
  { rewrite execute_workflow_with_feedback_eq. fold w0.
    apply try_except_raise.
    rewrite (try_block_content _ _ _ _ Hf). fold n.
    rewrite (bind_ok _ _ _ _ _ Eo), (bind_ok _ _ _ _ _ Hrun). exact Ec. }
  rewrite Hrun3, critical_handler_eq. cbn [fst snd].
  exists s', (messages w2). split; [reflexivity|]. split; [|split].
  - unfold messages, w3.
    cbn [automation_running execution_logs learning_db db_writable
         ticks effects stdout].
    rewrite !map_app, <- app_assoc. reflexivity.
  - rewrite Hl, Hm1, !step_errors_app, He. simpl in Hs'.
    change (step_errors (messages w0)) with 0%nat.
    change (step_errors [MsgStarting workflow_id; MsgTotalSteps n; MsgPrepare])
      with 0%nat.
    fold n. lia.
  - reflexivity.
Qed.

Lemma recorder_failure_fails_run_witness :
  ∃ s' l,
    fst (execute_workflow_with_feedback
           (calm_env (workflow_of [click_nowhere]) never) "wf-1"
           read_only_world) = Ok false ∧
    messages (snd (execute_workflow_with_feedback
                     (calm_env (workflow_of [click_nowhere]) never) "wf-1"
                     read_only_world)) =
      l ++ [verdict s' (Z.of_nat (List.length [click_nowhere]));
            MsgCritical OSError] ∧
    s' = Z.of_nat (List.length [click_nowhere])
         - Z.of_nat (step_errors l) ∧
    automation_running
      (snd (execute_workflow_with_feedback
              (calm_env (workflow_of [click_nowhere]) never) "wf-1"
              read_only_world)) = false.
Proof.
  apply (recorder_failure_fails_run
           (calm_env (workflow_of [click_nowhere]) never) "wf-1"
           {| wf_workflow_id := "wf-1"; wf_created_at := "";
              automation_steps := [click_nowhere] |} read_only_world).
  - reflexivity.
  - reflexivity.
  - discriminate.
  - constructor; [|constructor]. eexists. reflexivity.
  - reflexivity.
Defined.

(** C7, as stated, fails: the recorder raises to its caller, and a run
    all of whose steps succeeded returns [False] with a critical-error
    entry at the end of its log. *)
Lemma recorder_raises_and_run_fails :
  fst (update_learning_data (calm_env Missing never) "wf-1" true 1 1
         read_only_world) = Raise OSError ∧
  fst (execute_workflow_with_feedback
         (calm_env (workflow_of [click_nowhere]) never) "wf-1"
         read_only_world) = Ok false ∧
  messages (snd (execute_workflow_with_feedback
         (calm_env (workflow_of [click_nowhere]) never) "wf-1"
         read_only_world)) =
    [MsgStarting "wf-1"; MsgTotalSteps 1; MsgPrepare; MsgStep 1 1 "click";
     MsgReasoning RClick CtxNone; MsgClicking ""; MsgNoCoordinates;
     MsgAllDone 1; MsgCritical OSError].
Proof. repeat split; vm_compute; reflexivity. Qed.

(** *** Cancellation between two steps *)






(** Without the condition on other runs the stop is lost: a start
    request accepted after the stop sets the flag again, the stopped run
    finds it set at its next test, dispatches its remaining steps and
    is recorded as fully successful. *)
Lemma stopped_run_resumes :
  stop_requested restart_env 2 = true ∧
  started_again restart_env 2 = true ∧
  fst (execute_workflow_with_feedback restart_env "wf-1" fresh_world)
    = Ok true ∧
  messages (snd (execute_workflow_with_feedback restart_env "wf-1"
                   fresh_world)) =
    [MsgStarting "wf-1"; MsgTotalSteps 3; MsgPrepare;
     MsgStep 1 3 "click"; MsgReasoning RClick CtxNone; MsgClicking "";
     MsgClicked (VNum 10) (VNum 20);
     MsgStep 2 3 "type"; MsgReasoning RType CtxNone;
     MsgTyping (VStr "hello"); MsgTyped;
     MsgStep 3 3 "hotkey"; MsgReasoning RHotkey CtxNone;
     MsgPressing (VStr "ctrl+s"); MsgHotkeyPressed; MsgAllDone 3] ∧
  effects (snd (execute_workflow_with_feedback restart_env "wf-1"
                  fresh_world)) =
    [CSleep 3; CClick (VNum 10) (VNum 20); CSleep (1 # 2);
     CWrite (VStr "hello"); CSleep (1 # 2); CHotkey ["ctrl"; "s"];
     CSleep (1 # 2)] ∧
  map (fun e => (ce_success e, ce_steps_completed e, ce_total_steps e))
    (curve_of (snd (execute_workflow_with_feedback restart_env "wf-1"
                      fresh_world))) = [(true, 3, 3)].
Proof. repeat split; vm_compute; reflexivity. Qed.

(** * Further properties *)

(** ** The learning recorder and its queries *)

Lemma stored_data_after_update env workflow_id success s n w :
  db_writable w = true →
  stored_data (snd (update_learning_data env workflow_id success s n w)) =
  recorded env (ticks w) (stored_data w) workflow_id success s n.
Proof.
  intros Hw. rewrite (update_learning_data_writable _ _ _ _ _ _ Hw).
  reflexivity.
Qed.

(** X1. A recording changes the record of its own workflow only: the
    records of all other workflows, [total_sessions] and
    [workflow_improvements] are stored back as they were loaded, and
    [total_automations] grows by one. *)
Theorem recording_touches_one_workflow env workflow_id success s n w :
  db_writable w = true →
  total_automations
    (stored_data (snd (update_learning_data env workflow_id success s n w))) =
    total_automations (stored_data w) + 1 ∧
  total_sessions
    (stored_data (snd (update_learning_data env workflow_id success s n w))) =
    total_sessions (stored_data w) ∧
  workflow_improvements
    (stored_data (snd (update_learning_data env workflow_id success s n w))) =
    workflow_improvements (stored_data w) ∧
  ∀ other,
    other ≠ workflow_id →
    success_rate
      (stored_data (snd (update_learning_data env workflow_id success s n w)))
      !! other = success_rate (stored_data w) !! other.
Proof.
  intros Hw. rewrite (stored_data_after_update _ _ _ _ _ _ Hw).
  unfold recorded; simpl. repeat split.
  intros other Hne. by rewrite lookup_insert_ne.
Qed.

Lemma recording_touches_one_workflow_witness :
  total_automations
    (stored_data (snd (update_learning_data (calm_env Missing never) "wf-2"
                         true 2 2 world_2_of_3))) =
    total_automations (stored_data world_2_of_3) + 1 ∧
  total_sessions
    (stored_data (snd (update_learning_data (calm_env Missing never) "wf-2"
                         true 2 2 world_2_of_3))) =
    total_sessions (stored_data world_2_of_3) ∧
  workflow_improvements
    (stored_data (snd (update_learning_data (calm_env Missing never) "wf-2"
                         true 2 2 world_2_of_3))) =
    workflow_improvements (stored_data world_2_of_3) ∧
  ∀ other,
    other ≠ "wf-2" →
    success_rate
      (stored_data (snd (update_learning_data (calm_env Missing never) "wf-2"
                           true 2 2 world_2_of_3)))
      !! other = success_rate (stored_data world_2_of_3) !! other.
Proof.
  apply (recording_touches_one_workflow (calm_env Missing never) "wf-2"
           true 2 2 world_2_of_3).
  reflexivity.
Defined.

(** X2. If in the stored document no workflow has more successful runs
    than runs, and none has a negative count, the same holds after a
    recording, whatever its success flag. *)
Theorem recording_keeps_counts_consistent env workflow_id success s n w :
  db_writable w = true →
  counts_consistent (stored_data w) →
  counts_consistent
    (stored_data (snd (update_learning_data env workflow_id success s n w))).
Proof.
  intros Hw Hc. rewrite (stored_data_after_update _ _ _ _ _ _ Hw).
  intros other st. unfold recorded; simpl.
  destruct (decide (workflow_id = other)) as [<-|Hne].
  - rewrite lookup_insert_eq. intros [= <-]. simpl.
    destruct (success_rate (stored_data w) !! workflow_id) as [old|] eqn:Hold;
      simpl.
    + specialize (Hc _ _ Hold). destruct success; lia.
    + destruct success; lia.
  - rewrite lookup_insert_ne by done. apply Hc.
Qed.

Lemma recording_keeps_counts_consistent_witness :
  counts_consistent
    (stored_data (snd (update_learning_data (calm_env Missing never) "wf-1"
                         false 1 4 world_2_of_3))).
Proof.
  apply (recording_keeps_counts_consistent (calm_env Missing never) "wf-1"
           false 1 4 world_2_of_3).
  - reflexivity.
  - intros workflow_id st. unfold stored_data, world_2_of_3; simpl.
    destruct (decide (workflow_id = "wf-1")) as [->|Hne].
    + rewrite lookup_singleton_eq. intros [= <-]. simpl. lia.
    + rewrite lookup_singleton_ne by done. discriminate.
Defined.

Lemma record_all_cons env r rest w :
  db_writable w = true →
  record_all env (r :: rest) w =
  record_all env rest
    (snd (update_learning_data env (rec_workflow_id r) (rec_success r)
            (rec_successful_steps r) (rec_total_steps r) w)).
Proof.
  intros Hw. simpl.
  rewrite (bind_ok _ _ _ _ _ (update_learning_data_writable env
             (rec_workflow_id r) (rec_success r) (rec_successful_steps r)
             (rec_total_steps r) w Hw)).
  rewrite (update_learning_data_writable _ _ _ _ _ _ Hw). reflexivity.
Qed.

Lemma db_writable_after_update env workflow_id success s n w :
  db_writable w = true →
  db_writable (snd (update_learning_data env workflow_id success s n w)) = true.
Proof.
  intros Hw. by rewrite (update_learning_data_writable _ _ _ _ _ _ Hw).
Qed.

Lemma stats_of_after_update env recorded_id success s n w workflow_id :
  db_writable w = true →
  stats_of (snd (update_learning_data env recorded_id success s n w))
    workflow_id =
  if String.eqb recorded_id workflow_id
  then {| stat_total := stat_total (stats_of w workflow_id) + 1;
          stat_successful :=
            if success then stat_successful (stats_of w workflow_id) + 1
            else stat_successful (stats_of w workflow_id);
          stat_last_run := Some (now env (ticks w)) |}
  else stats_of w workflow_id.
Proof.
  intros Hw. unfold stats_of.
  rewrite (stored_data_after_update _ _ _ _ _ _ Hw).
  destruct (String.eqb_spec recorded_id workflow_id) as [->|Hne].
  - apply recorded_stats.
  - unfold recorded; simpl. by rewrite lookup_insert_ne.
Qed.

(** X3. After the recordings of any sequence of runs,
    [total_automations] has grown by the number of runs, and for every
    workflow [total] has grown by the number of its runs in the sequence
    and [successful] by the number of those recorded as successful. *)
Theorem record_all_counts env runs workflow_id : ∀ w,
  db_writable w = true →
  total_automations (stored_data (snd (record_all env runs w))) =
    total_automations (stored_data w) + Z.of_nat (List.length runs) ∧
  stat_total (stats_of (snd (record_all env runs w)) workflow_id) =
    stat_total (stats_of w workflow_id)
    + Z.of_nat (List.length (runs_of workflow_id runs)) ∧
  stat_successful (stats_of (snd (record_all env runs w)) workflow_id) =
    stat_successful (stats_of w workflow_id)
    + Z.of_nat (List.length
                  (List.filter rec_success (runs_of workflow_id runs))).
Proof.
  induction runs as [|r rest IH]; intros w Hw.
  - simpl. repeat split; lia.
  - rewrite (record_all_cons _ _ _ _ Hw).
    pose proof (db_writable_after_update env (rec_workflow_id r)
                  (rec_success r) (rec_successful_steps r)
                  (rec_total_steps r) w Hw) as Hw1.
    destruct (IH _ Hw1) as (IH1 & IH2 & IH3).
    rewrite IH1, IH2, IH3.
    rewrite (stats_of_after_update _ _ _ _ _ _ workflow_id Hw).
    rewrite (stored_data_after_update _ _ _ _ _ _ Hw).
    unfold runs_of. cbn [List.filter List.length recorded total_automations].
    destruct (String.eqb (rec_workflow_id r) workflow_id);
      cbn [List.filter List.length stat_total stat_successful];
      [destruct (rec_success r); cbn [List.length]|]; repeat split; lia.
Qed.

Lemma record_all_counts_witness :
  total_automations
    (stored_data (snd (record_all (calm_env Missing never) two_runs
                         world_2_of_3))) =
    total_automations (stored_data world_2_of_3)
    + Z.of_nat (List.length two_runs) ∧
  stat_total
    (stats_of (snd (record_all (calm_env Missing never) two_runs world_2_of_3))
       "wf-1") =
    stat_total (stats_of world_2_of_3 "wf-1")
    + Z.of_nat (List.length (runs_of "wf-1" two_runs)) ∧
  stat_successful
    (stats_of (snd (record_all (calm_env Missing never) two_runs world_2_of_3))
       "wf-1") =
    stat_successful (stats_of world_2_of_3 "wf-1")
    + Z.of_nat (List.length
                  (List.filter rec_success (runs_of "wf-1" two_runs))).
Proof.
  apply (record_all_counts (calm_env Missing never) two_runs "wf-1"
           world_2_of_3).
  reflexivity.
Defined.

(** X4. The three queries read the stored document and leave the world
    as it is. Asked after a recording of the workflow, the execution
    count is the previous count plus one and the last execution is the
    clock reading of the recording; asked about a workflow that has no
    record, they answer 0, 0 and [None]. *)
Theorem queries_after_recording env workflow_id success s n w :
  db_writable w = true →
  (∀ w0 id,
     snd (get_execution_count id w0) = w0 ∧
     snd (get_last_execution id w0) = w0 ∧
     snd (get_success_rate id w0) = w0) ∧
  fst (bind (update_learning_data env workflow_id success s n)
         (fun _ => get_execution_count workflow_id) w) =
    Ok (stat_total (stats_of w workflow_id) + 1) ∧
  fst (bind (update_learning_data env workflow_id success s n)
         (fun _ => get_last_execution workflow_id) w) =
    Ok (Some (now env (ticks w))) ∧
  (∀ w0 id,
     success_rate (stored_data w0) !! id = None →
     fst (get_execution_count id w0) = Ok 0 ∧
     fst (get_last_execution id w0) = Ok None ∧
     fst (get_success_rate id w0) = Ok 0).
Proof.
  intros Hw. split; [|split; [|split]].
  - intros w0 id. split; [reflexivity|]. split; [reflexivity|].
    rewrite get_success_rate_eq.
    destruct (stat_total (stats_of w0 id) =? 0); reflexivity.
  - erewrite bind_ok
      by (apply update_learning_data_writable; exact Hw).
    unfold get_execution_count, bind, load_learning_data, ret.
    cbn [fst snd learning_db default from_option id].
    by rewrite recorded_stats.
  - erewrite bind_ok
      by (apply update_learning_data_writable; exact Hw).
    unfold get_last_execution, bind, load_learning_data, ret.
    cbn [fst snd learning_db default from_option id].
    unfold recorded; cbn [success_rate]. by rewrite lookup_insert_eq.
  - intros w0 id Hnone. split; [|split].
    + unfold get_execution_count, bind, load_learning_data, ret; simpl.
      fold (stored_data w0). by rewrite Hnone.
    + unfold get_last_execution, bind, load_learning_data, ret; simpl.
      fold (stored_data w0). by rewrite Hnone.
    + rewrite get_success_rate_eq. unfold stats_of. by rewrite Hnone.
Qed.

Lemma queries_after_recording_witness :
  (∀ w0 id,
     snd (get_execution_count id w0) = w0 ∧
     snd (get_last_execution id w0) = w0 ∧
     snd (get_success_rate id w0) = w0) ∧
  fst (bind (update_learning_data (calm_env Missing never) "wf-1" true 2 2)
         (fun _ => get_execution_count "wf-1") world_2_of_3) =
    Ok (stat_total (stats_of world_2_of_3 "wf-1") + 1) ∧
  fst (bind (update_learning_data (calm_env Missing never) "wf-1" true 2 2)
         (fun _ => get_last_execution "wf-1") world_2_of_3) =
    Ok (Some (now (calm_env Missing never) (ticks world_2_of_3))) ∧
  (∀ w0 id,
     success_rate (stored_data w0) !! id = None →
     fst (get_execution_count id w0) = Ok 0 ∧
     fst (get_last_execution id w0) = Ok None ∧
     fst (get_success_rate id w0) = Ok 0).
Proof.
  apply (queries_after_recording (calm_env Missing never) "wf-1" true 2 2
           world_2_of_3).
  reflexivity.
Defined.

(** ** Whole runs of the controller *)

Lemma closing_recorded env workflow_id n s w :
  n ≠ 0 → db_writable w = true →
  closing env workflow_id n s w =
  (Ok true,
   {| automation_running := false;
      execution_logs :=
        execution_logs w ++
        [ {| log_timestamp := now env (ticks w);
             log_message := verdict s n; log_step := None |} ];
      learning_db :=
        Some (recorded env (S (ticks w)) (stored_data w) workflow_id
                (s =? n) s n);
      db_writable := db_writable w;
      ticks := S (S (S (ticks w))); effects := effects w;
      stdout := stdout w ++ [verdict s n] |}).
Proof.
  intros Hn Hw. unfold closing, verdict.
  destruct (success_ratio_is_100 s n Hn) as (r & Hr & Hiff).
  rewrite Hr.
  assert (Hr' : is_100 r = (s =? n)).
  { destruct (Z.eqb_spec s n) as [He|He].
    - by apply Hiff.
    - destruct (is_100 r); [|reflexivity]. exfalso. apply He. by apply Hiff. }
  rewrite (bind_ok _ _ _ r w (eq_refl : lift (Ok r) w = (Ok r, w))).
  rewrite Hr'.
  destruct (s =? n).
  - rewrite (bind_ok _ _ _ _ _ (log_feedback_messages env _ None w)).
    erewrite bind_ok; [|apply update_learning_data_writable; exact Hw].
    reflexivity.
  - rewrite (bind_ok _ _ _ _ _ (log_feedback_messages env _ None w)).
    erewrite bind_ok; [|apply update_learning_data_writable; exact Hw].
    reflexivity.
Qed.

Lemma closing_empty env workflow_id s w :
  closing env workflow_id 0 s w = (Raise ZeroDivisionError, w).
Proof. reflexivity. Qed.

Lemma stored_data_same_db w w' :
  same_db w w' → stored_data w' = stored_data w.
Proof. intros [H _]. unfold stored_data. by rewrite H. Qed.

(** The three ways the [try] block ends. *)
Lemma try_block_outcome env workflow_id w :
  match try_block env workflow_id w with
  | (Ok true, w') =>
      automation_running w' = false ∧ db_writable w = true ∧
      ∃ t success s n,
        stored_data w' = recorded env t (stored_data w) workflow_id success s n
  | (Ok false, w') => same_db w w'
  | (Raise e, w') => same_db w w'
  end.
Proof.
  destruct (workflow_file env workflow_id) as [|e|workflow] eqn:Hf.
  - unfold try_block. rewrite Hf.
    rewrite (bind_ok _ _ _ _ _ (log_feedback_messages env _ None w)).
    by unfold same_db.
  - rewrite (unreadable_file_raises _ _ _ _ Hf). reflexivity.
  - rewrite (try_block_content _ _ _ _ Hf).
    set (n := Z.of_nat (List.length (automation_steps workflow))).
    pose proof (opening_eq env workflow_id n w) as (Ho & Hf1 & _).
    destruct (opening env workflow_id n w) as [o1 w1] eqn:Eo.
    simpl in Ho, Hf1. subst o1. rewrite (bind_ok _ _ _ _ _ Eo).
    pose proof (same_db_run_steps env workflow n 1 0
                  (automation_steps workflow) w1) as Hdb.
    assert (Hdb1 : same_db w w1) by (by apply frame_same_db).
    destruct (run_steps env workflow n 1 0 (automation_steps workflow) w1)
      as [[s|e] w2] eqn:Er; simpl in Hdb.
    2: { rewrite (bind_raise _ _ _ _ _ Er). by etransitivity. }
    rewrite (bind_ok _ _ _ _ _ Er).
    assert (Hdb2 : same_db w w2) by (by etransitivity).
    destruct (Z.eq_dec n 0) as [Hn|Hn].
    { rewrite Hn, closing_empty. exact Hdb2. }
    destruct (db_writable w2) eqn:Hw2.
    + rewrite (closing_recorded _ _ _ _ _ Hn Hw2).
      split; [reflexivity|]. split.
      { destruct Hdb2 as [_ <-]. exact Hw2. }
      exists (S (ticks w2)), (s =? n), s, n.
      rewrite <- (stored_data_same_db _ _ Hdb2). reflexivity.
    + destruct (closing_read_only env workflow_id n s w2 Hw2)
        as (e & He & Hdb' & _).
      destruct (closing env workflow_id n s w2) as [o3 w3].
      simpl in He, Hdb'. subst o3. by etransitivity.
Qed.

Lemma try_block_false env workflow_id w w1 :
  try_block env workflow_id w = (Ok false, w1) →
  workflow_file env workflow_id = Missing.
Proof.
  destruct (workflow_file env workflow_id) as [|e|workflow] eqn:Hf;
    [reflexivity| |].
  - rewrite (unreadable_file_raises _ _ _ _ Hf). discriminate.
  - rewrite (try_block_content _ _ _ _ Hf).
    set (n := Z.of_nat (List.length (automation_steps workflow))).
    pose proof (opening_eq env workflow_id n w) as (Ho & _ & _).
    destruct (opening env workflow_id n w) as [o1 w2] eqn:Eo.
    simpl in Ho. subst o1. rewrite (bind_ok _ _ _ _ _ Eo).
    destruct (run_steps env workflow n 1 0 (automation_steps workflow) w2)
      as [[s|e] w3] eqn:Er.
    2: { rewrite (bind_raise _ _ _ _ _ Er). discriminate. }
    rewrite (bind_ok _ _ _ _ _ Er).
    destruct (Z.eq_dec n 0) as [Hn|Hn].
    { rewrite Hn, closing_empty. discriminate. }
    destruct (db_writable w3) eqn:Hw3.
    + rewrite (closing_recorded _ _ _ _ _ Hn Hw3). discriminate.
    + destruct (closing_read_only env workflow_id n s w3 Hw3)
        as (e & He & _ & _).
      destruct (closing env workflow_id n s w3) as [o4 w4].
      simpl in He. subst o4. discriminate.
Qed.

(** X5. A run never raises to the thread that called it. It returns
    [True] only when the recorder has stored it: then the flag is
    cleared and the stored document counts one more automation and one
    more run of this workflow. It returns [False] in two ways: the
    workflow file does not exist, the log is the single entry that says
    so and the flag stays set; or an exception reached the outer
    handler, the critical error is the last log entry and the flag is
    cleared. *)
Theorem run_outcome env workflow_id w :
  ∃ b,
    fst (execute_workflow_with_feedback env workflow_id w) = Ok b ∧
    (b = true →
       automation_running
         (snd (execute_workflow_with_feedback env workflow_id w)) = false ∧
       db_writable w = true ∧
       total_automations
         (stored_data (snd (execute_workflow_with_feedback env workflow_id w)))
         = total_automations (stored_data w) + 1 ∧
       stat_total
         (stats_of (snd (execute_workflow_with_feedback env workflow_id w))
            workflow_id) = stat_total (stats_of w workflow_id) + 1) ∧
    (b = false →
       (workflow_file env workflow_id = Missing ∧
        messages (snd (execute_workflow_with_feedback env workflow_id w)) =
          [MsgNotFound] ∧
        automation_running
          (snd (execute_workflow_with_feedback env workflow_id w)) = true) ∨
       (∃ e,
          last (messages
                  (snd (execute_workflow_with_feedback env workflow_id w))) =
            Some (MsgCritical e) ∧
          automation_running
            (snd (execute_workflow_with_feedback env workflow_id w)) = false)).
Proof.
  rewrite execute_workflow_with_feedback_eq.
  pose proof (try_block_outcome env workflow_id (snd (enter_run w))) as H.
  destruct (try_block env workflow_id (snd (enter_run w)))
    as [[[]|e] w1] eqn:E.
  - rewrite (try_except_ok _ _ _ _ _ E). exists true.
    destruct H as (Hflag & Hw & t & success & s & n & Hd).
    split; [reflexivity|]. split; [|discriminate]. intros _. simpl.
    split; [exact Hflag|]. split; [exact Hw|].
    unfold stats_of. rewrite Hd.
    change (stored_data (snd (enter_run w))) with (stored_data w).
    rewrite recorded_stats. split; reflexivity.
  - rewrite (try_except_ok _ _ _ _ _ E). exists false.
    split; [reflexivity|]. split; [discriminate|]. intros _. left.
    pose proof (try_block_false _ _ _ _ E) as Hm.
    split; [exact Hm|].
    unfold try_block in E. rewrite Hm in E.
    rewrite (bind_ok _ _ _ _ _ (log_feedback_messages env _ None _)) in E.
    injection E as <-. split; reflexivity.
  - rewrite (try_except_raise _ _ _ _ _ E), critical_handler_eq.
    exists false. split; [reflexivity|]. split; [discriminate|]. intros _.
    right. exists e. cbn [fst snd]. split; [|reflexivity].
    unfold messages. cbn [execution_logs]. rewrite map_app. apply last_snoc.
Qed.




(** The spec's first example scenario computed: click, type and hotkey
    all succeed. *)
Lemma three_steps_all_done :
  messages (snd (execute_workflow_with_feedback calm_three "wf-1"
                   fresh_world)) =
    [MsgStarting "wf-1"; MsgTotalSteps 3; MsgPrepare;
     MsgStep 1 3 "click"; MsgReasoning RClick CtxNone; MsgClicking "";
     MsgClicked (VNum 10) (VNum 20);
     MsgStep 2 3 "type"; MsgReasoning RType CtxNone;
     MsgTyping (VStr "hello"); MsgTyped;
     MsgStep 3 3 "hotkey"; MsgReasoning RHotkey CtxNone;
     MsgPressing (VStr "ctrl+s"); MsgHotkeyPressed;
     MsgAllDone 3] ∧
  effects (snd (execute_workflow_with_feedback calm_three "wf-1"
                  fresh_world)) =
    [CSleep 3; CClick (VNum 10) (VNum 20); CSleep (1 # 2);
     CWrite (VStr "hello"); CSleep (1 # 2);
     CHotkey ["ctrl"; "s"]; CSleep (1 # 2)].
Proof. split; vm_compute; reflexivity. Qed.

(** X7. A run starts from a clean slate: its result and the world it
    leaves do not depend on the flag and the log it finds. In particular
    a stop request served before the thread has run its first statement
    is lost. *)
Theorem run_ignores_flag_and_log env workflow_id w :
  (∀ b l,
     execute_workflow_with_feedback env workflow_id (with_flag_and_log b l w) =
     execute_workflow_with_feedback env workflow_id w) ∧
  execute_workflow_with_feedback env workflow_id (snd (stop_execution w)) =
  execute_workflow_with_feedback env workflow_id w.
Proof.
  split.
  - intros b l. rewrite !execute_workflow_with_feedback_eq. reflexivity.
  - rewrite !execute_workflow_with_feedback_eq. reflexivity.
Qed.

(** X8. A step without an [action] key is fatal to the run: the steps
    before it are executed, then [None.upper()] raises outside the
    per-step handler; the run returns [False] with the critical error
    as its last log entry, the flag cleared and nothing recorded, and no
    later step is dispatched. *)
Theorem step_without_action_aborts env workflow_id workflow pre step post w :
  workflow_file env workflow_id = Content workflow →
  automation_steps workflow = pre ++ step :: post →
  Forall has_action pre →
  action step = None →
  (∀ j, (1 ≤ j ≤ S (List.length pre))%nat → stop_requested env j = false) →
  ∃ s' w2,
    run_steps env workflow (Z.of_nat (List.length (pre ++ step :: post))) 1 0
      pre
      (snd (opening env workflow_id
              (Z.of_nat (List.length (pre ++ step :: post)))
              (snd (enter_run w)))) = (Ok s', w2) ∧
    fst (execute_workflow_with_feedback env workflow_id w) = Ok false ∧
    messages (snd (execute_workflow_with_feedback env workflow_id w)) =
      messages w2 ++ [MsgCritical AttributeError] ∧
    effects (snd (execute_workflow_with_feedback env workflow_id w)) =
      effects w2 ∧
    automation_running
      (snd (execute_workflow_with_feedback env workflow_id w)) = false ∧
    learning_db (snd (execute_workflow_with_feedback env workflow_id w)) =
      learning_db w.
Proof.
  intros Hf Hsteps Hact Hnone Hquiet.
  set (n := Z.of_nat (List.length (pre ++ step :: post))).
  set (w0 := snd (enter_run w)).
  pose proof (opening_eq env workflow_id n w0) as (Ho & Hf1 & _).
  destruct (opening env workflow_id n w0) as [o1 w1] eqn:Eo.
  simpl in Ho, Hf1. subst o1.
  destruct (run_steps_completes env workflow n pre 1 0 w1 Hact)
    as (s' & w2 & e & Er & Hf2 & _ & _).
  { intros j Hj. apply Hquiet. lia. }
  { destruct Hf1 as (-> & _). reflexivity. }
  assert (Hrun2 : automation_running w2 = true).
  { destruct Hf2 as (-> & _). destruct Hf1 as (-> & _). reflexivity. }
  assert (Hdb2 : learning_db w2 = learning_db w).
  { destruct Hf2 as (_ & -> & _). destruct Hf1 as (_ & -> & _). reflexivity. }
  assert (Eloop :
    run_steps env workflow n 1 0 (pre ++ step :: post) w1 =
    (Raise AttributeError, w2)).
  { rewrite run_steps_app.
    - rewrite (bind_ok _ _ _ _ _ Er).
      rewrite run_steps_running by first [exact Hrun2 | apply Hquiet; lia].
      apply bind_raise. by apply loop_body_no_action.
    - intros j Hj. apply Hquiet. lia.
    - destruct Hf1 as (-> & _). reflexivity. }
  assert (Hrun :
    execute_workflow_with_feedback env workflow_id w =
    critical_handler env AttributeError w2).
  { rewrite execute_workflow_with_feedback_eq. fold w0.
    apply try_except_raise.
    rewrite (try_block_content _ _ _ _ Hf), Hsteps. fold n.
    rewrite (bind_ok _ _ _ _ _ Eo). by apply bind_raise. }
  exists s', w2. simpl. split; [exact Er|].
  rewrite Hrun, critical_handler_eq. cbn [fst snd].
  split; [reflexivity|]. split.
  { unfold messages. cbn [execution_logs]. by rewrite map_app. }
  split; [reflexivity|]. split; [reflexivity|exact Hdb2].
Qed.

Lemma step_without_action_aborts_witness :
  ∃ s' w2,
    run_steps (calm_env (Content broken_workflow) never) broken_workflow
      (Z.of_nat (List.length
                   ([type_nothing] ++ actionless_step :: [click_nowhere])))
      1 0 [type_nothing]
      (snd (opening (calm_env (Content broken_workflow) never) "wf-1"
              (Z.of_nat (List.length
                   ([type_nothing] ++ actionless_step :: [click_nowhere])))
              (snd (enter_run fresh_world)))) = (Ok s', w2) ∧
    fst (execute_workflow_with_feedback
           (calm_env (Content broken_workflow) never) "wf-1" fresh_world)
      = Ok false ∧
    messages (snd (execute_workflow_with_feedback
           (calm_env (Content broken_workflow) never) "wf-1" fresh_world)) =
      messages w2 ++ [MsgCritical AttributeError] ∧
    effects (snd (execute_workflow_with_feedback
           (calm_env (Content broken_workflow) never) "wf-1" fresh_world)) =
      effects w2 ∧
    automation_running
      (snd (execute_workflow_with_feedback
           (calm_env (Content broken_workflow) never) "wf-1" fresh_world))
      = false ∧
    learning_db (snd (execute_workflow_with_feedback
           (calm_env (Content broken_workflow) never) "wf-1" fresh_world)) =
      learning_db fresh_world.
Proof.
  apply (step_without_action_aborts
           (calm_env (Content broken_workflow) never) "wf-1" broken_workflow
           [type_nothing] actionless_step [click_nowhere] fresh_world).
  - reflexivity.
  - reflexivity.
  - constructor; [by eexists|]. constructor.
  - reflexivity.
  - reflexivity.
Defined.

(** ** Single steps of the controller *)

(** Computes the loop body of a step whose dispatch has been rewritten
    into a sequence of log entries, pauses and injector calls. *)
Ltac step_fields Ha Hdispatch :=
  rewrite (loop_body_action _ _ _ _ _ _ _ _ Ha), attempt_eq, Hdispatch;
  unfold bind, inject, raise; rewrite ?log_feedback_messages;
  cbn [fst snd automation_running execution_logs learning_db db_writable
       ticks effects stdout].




Lemma dispatch_unknown env a step :
  known_to_dashboard a = false →
  dispatch env a step = log_feedback env (MsgUnknownAction a) None.
Proof.
  unfold known_to_dashboard, dispatch. intros H.
  destruct (String.eqb a "click"); [discriminate|].
  destruct (String.eqb a "type"); [discriminate|].
  destruct (String.eqb a "wait"); [discriminate|].
  destruct (String.eqb a "hotkey"); [discriminate|]. reflexivity.
Qed.

(** X10. A step whose action is none of click, type, wait and hotkey,
    such as the "execute" and "generic" steps the analysis produces, is
    logged as an unknown action type, has no effect but the pause
    between steps, and is counted as successful. *)
Theorem unknown_action_counted env workflow n i s step a w :
  action step = Some a →
  known_to_dashboard a = false →
  fst (loop_body env workflow n i s step w) = Ok (s + 1) ∧
  messages (snd (loop_body env workflow n i s step w)) =
    messages w ++
    [MsgStep i n a;
     MsgReasoning RLearned (snd (get_reasoning_for_action step workflow));
     MsgUnknownAction a] ∧
  effects (snd (loop_body env workflow n i s step w)) =
    effects w ++ [CSleep (1 # 2)].
Proof.
  intros Ha Hk.
  assert (Hr : fst (get_reasoning_for_action step workflow) = RLearned).
  { unfold get_reasoning_for_action. rewrite Ha.
    unfold known_to_dashboard in Hk.
    destruct (String.eqb a "click"); [discriminate|].
    destruct (String.eqb a "type"); [discriminate|].
    destruct (String.eqb a "wait"); [discriminate|].
    destruct (String.eqb a "hotkey"); [discriminate|].
    repeat match goal with |- context [if ?b then _ else _] => destruct b end;
      reflexivity. }
  step_fields Ha (dispatch_unknown env a step Hk). rewrite Hr.
  world_fields. repeat split; reflexivity.
Qed.

Lemma unknown_action_counted_witness :
  fst (loop_body (calm_env Missing never)
         (one_step_workflow (bare_step (Some "execute") None)) 1 1 0
         (bare_step (Some "execute") None) running_world) = Ok (0 + 1) ∧
  messages (snd (loop_body (calm_env Missing never)
         (one_step_workflow (bare_step (Some "execute") None)) 1 1 0
         (bare_step (Some "execute") None) running_world)) =
    messages running_world ++
    [MsgStep 1 1 "execute";
     MsgReasoning RLearned
       (snd (get_reasoning_for_action (bare_step (Some "execute") None)
               (one_step_workflow (bare_step (Some "execute") None))));
     MsgUnknownAction "execute"] ∧
  effects (snd (loop_body (calm_env Missing never)
         (one_step_workflow (bare_step (Some "execute") None)) 1 1 0
         (bare_step (Some "execute") None) running_world)) =
    effects running_world ++ [CSleep (1 # 2)].
Proof.
  apply (unknown_action_counted (calm_env Missing never)
           (one_step_workflow (bare_step (Some "execute") None)) 1 1 0
           (bare_step (Some "execute") None) "execute" running_world).
  - reflexivity.
  - reflexivity.
Defined.

Lemma dispatch_click_at env step x y :
  arg step "x" = Some x → arg step "y" = Some y →
  dispatch env "click" step =
  (log_feedback env (MsgClicking (default "" (target step))) None >>
   inject env (CClick x y) >>
   log_feedback env (MsgClicked x y) None).
Proof.
  intros Hx Hy. unfold dispatch. cbn [String.eqb Ascii.eqb Bool.eqb].
  rewrite Hx, Hy. reflexivity.
Qed.

(** X12. A click step with both coordinates makes exactly one call of
    [pyautogui.click], with those coordinates. If the call returns the
    step is counted and "Clicked at" is logged; if it raises, the error
    is logged as a failed step, the step is not counted and the pause
    between steps is skipped. In both cases the loop body itself does
    not raise. *)
Theorem click_step env workflow n i s step x y w :
  action step = Some "click" →
  arg step "x" = Some x →
  arg step "y" = Some y →
  (injector env (List.length (effects w)) (CClick x y) = None →
     fst (loop_body env workflow n i s step w) = Ok (s + 1) ∧
     effects (snd (loop_body env workflow n i s step w)) =
       effects w ++ [CClick x y; CSleep (1 # 2)] ∧
     last (messages (snd (loop_body env workflow n i s step w))) =
       Some (MsgClicked x y)) ∧
  (∀ e,
     injector env (List.length (effects w)) (CClick x y) = Some e →
     fst (loop_body env workflow n i s step w) = Ok s ∧
     effects (snd (loop_body env workflow n i s step w)) =
       effects w ++ [CClick x y] ∧
     last (messages (snd (loop_body env workflow n i s step w))) =
       Some (MsgStepError e)).
Proof.
  intros Ha Hx Hy. split.
  - intros Hinj. step_fields Ha (dispatch_click_at env step x y Hx Hy).
    rewrite Hinj. world_fields.
    split; [reflexivity|]. split; [reflexivity|].
    rewrite !app_assoc. apply last_snoc.
  - intros e Hinj. step_fields Ha (dispatch_click_at env step x y Hx Hy).
    rewrite Hinj. world_fields.
    split; [reflexivity|]. split; [reflexivity|].
    rewrite !app_assoc. apply last_snoc.
Qed.

Lemma click_step_witness :
  (injector failing_injector_env (List.length (effects running_world))
     (CClick (VNum 10) (VNum 20)) = None →
     fst (loop_body failing_injector_env (one_step_workflow click_at_10_20)
            1 1 0 click_at_10_20 running_world) = Ok (0 + 1) ∧
     effects (snd (loop_body failing_injector_env
                     (one_step_workflow click_at_10_20) 1 1 0 click_at_10_20
                     running_world)) =
       effects running_world ++ [CClick (VNum 10) (VNum 20); CSleep (1 # 2)] ∧
     last (messages (snd (loop_body failing_injector_env
                            (one_step_workflow click_at_10_20) 1 1 0
                            click_at_10_20 running_world))) =
       Some (MsgClicked (VNum 10) (VNum 20))) ∧
  (∀ e,
     injector failing_injector_env (List.length (effects running_world))
       (CClick (VNum 10) (VNum 20)) = Some e →
     fst (loop_body failing_injector_env (one_step_workflow click_at_10_20)
            1 1 0 click_at_10_20 running_world) = Ok 0 ∧
     effects (snd (loop_body failing_injector_env
                     (one_step_workflow click_at_10_20) 1 1 0 click_at_10_20
                     running_world)) =
       effects running_world ++ [CClick (VNum 10) (VNum 20)] ∧
     last (messages (snd (loop_body failing_injector_env
                            (one_step_workflow click_at_10_20) 1 1 0
                            click_at_10_20 running_world))) =
       Some (MsgStepError e)).
Proof.
  apply (click_step failing_injector_env (one_step_workflow click_at_10_20)
           1 1 0 click_at_10_20 (VNum 10) (VNum 20) running_world).
  - reflexivity.
  - vm_compute. reflexivity.
  - vm_compute. reflexivity.
Defined.

(** ** Hot-key strings *)

Lemma split_plus_nonempty s : split_plus s ≠ [].
Proof.
  destruct s as [|c r]; simpl; [done|].
  destruct (Ascii.eqb c "+"); [done|]. by destruct (split_plus r).
Qed.

Lemma join_plus_cons a b rest :
  join_plus (a :: b :: rest) = a +:+ "+" +:+ join_plus (b :: rest).
Proof. reflexivity. Qed.

Lemma join_split_plus s : join_plus (split_plus s) = s.
Proof.
  induction s as [|c r IH]; [reflexivity|]. simpl split_plus.
  destruct (Ascii.eqb_spec c "+") as [->|Hc].
  - pose proof (split_plus_nonempty r) as Hne.
    destruct (split_plus r) as [|h t] eqn:E; [done|].
    rewrite join_plus_cons, IH. reflexivity.
  - pose proof (split_plus_nonempty r) as Hne.
    destruct (split_plus r) as [|h t] eqn:E; [done|].
    destruct t as [|b t'].
    + simpl in *. by rewrite IH.
    + rewrite join_plus_cons. rewrite join_plus_cons in IH.
      rewrite <- IH. reflexivity.
Qed.

Lemma lower_ascii_idempotent c : lower_ascii (lower_ascii c) = lower_ascii c.
Proof. destruct c as [[] [] [] [] [] [] [] []]; reflexivity. Qed.

Lemma all_chars_lower_spaces s :
  all_chars (fun c => negb (Ascii.eqb c " ") && Ascii.eqb (lower_ascii c) c)
    (remove_spaces (lower s)) = true.
Proof.
  induction s as [|c r IH]; [reflexivity|]. simpl.
  destruct (Ascii.eqb (lower_ascii c) " ") eqn:E; [exact IH|].
  simpl. rewrite E, lower_ascii_idempotent, Ascii.eqb_refl. exact IH.
Qed.

Lemma split_plus_key_chars s :
  all_chars (fun c => negb (Ascii.eqb c " ") && Ascii.eqb (lower_ascii c) c)
    s = true →
  Forall (fun k => all_chars key_char k = true) (split_plus s).
Proof.
  induction s as [|c r IH]; intros H; simpl in *.
  - by constructor.
  - apply andb_prop in H as [Hc Hr]. specialize (IH Hr).
    destruct (Ascii.eqb c "+") eqn:E.
    + by constructor.
    + destruct (split_plus r) as [|h t]; inversion IH; subst;
        constructor; trivial; simpl; unfold key_char at 1;
        rewrite E; simpl; by rewrite Hc.
Qed.

(** X11. For an ASCII key string, the key list passed to
    [pyautogui.hotkey] is never empty; its names contain no "+", no
    space and no upper-case letter; and joined with "+" they give back
    the lower-cased string without its spaces, so no character of a key
    name is lost or invented. *)
Theorem hotkey_key_list keys :
  all_chars is_ascii keys = true →
  parse_hotkey keys ≠ [] ∧
  Forall (fun k => all_chars key_char k = true) (parse_hotkey keys) ∧
  join_plus (parse_hotkey keys) = remove_spaces (lower keys).
Proof.
  intros _.
  unfold parse_hotkey. split; [apply split_plus_nonempty|]. split.
  - apply split_plus_key_chars, all_chars_lower_spaces.
  - apply join_split_plus.
Qed.

Lemma hotkey_key_list_witness :
  parse_hotkey "Ctrl + Shift+S" ≠ [] ∧
  Forall (fun k => all_chars key_char k = true)
    (parse_hotkey "Ctrl + Shift+S") ∧
  join_plus (parse_hotkey "Ctrl + Shift+S") =
    remove_spaces (lower "Ctrl + Shift+S").
Proof. apply (hotkey_key_list "Ctrl + Shift+S"). reflexivity. Defined.

Example hotkey_key_list_ctrl_shift_s :
  parse_hotkey "Ctrl + Shift+S" = ["ctrl"; "shift"; "s"] ∧
  parse_hotkey "" = [""].
Proof. split; reflexivity. Qed.

(** ** The log of a run *)

#[local] Instance log_grows_preorder : PreOrder log_grows.
Proof.
  split.
  - intros w. exists []. by rewrite app_nil_r.
  - intros w1 w2 w3 [l Hl] [l' Hl']. exists (l ++ l').
    by rewrite Hl', Hl, app_assoc.
Qed.

Lemma quiet_log_grows {A} (c : M A) :
  preserves (logs_errors 0) c → preserves log_grows c.
Proof. intros H w. destruct (H w) as (l & Hl & _). by exists l. Qed.

Lemma log_grows_same_log {A} (c : M A) :
  (∀ w, execution_logs (snd (c w)) = execution_logs w) →
  preserves log_grows c.
Proof. intros H. by apply quiet_log_grows, quiet_same_log. Qed.

Lemma log_grows_log_feedback env m step_info :
  preserves log_grows (log_feedback env m step_info).
Proof.
  intros w. exists [m]. rewrite log_feedback_messages.
  unfold messages; simpl. by rewrite map_app.
Qed.

Lemma log_grows_update env workflow_id success s n :
  preserves log_grows (update_learning_data env workflow_id success s n).
Proof.
  apply log_grows_same_log. intros w.
  destruct (db_writable w) eqn:Hw.
  - by rewrite (update_learning_data_writable _ _ _ _ _ _ Hw).
  - by rewrite (update_learning_data_raises _ _ _ _ _ _ Hw).
Qed.

Lemma log_grows_loop_body env workflow n i s step :
  preserves log_grows (loop_body env workflow n i s step).
Proof.
  unfold loop_body.
  apply preserves_bind; [apply _| |intros a].
  { destruct (action step); [apply preserves_ret|apply preserves_raise];
      apply _. }
  apply preserves_bind; [apply _|apply log_grows_log_feedback|intros _].
  apply preserves_bind; [apply _|apply log_grows_log_feedback|intros _].
  unfold attempt. apply preserves_try_except; [apply _| |intros e].
  - apply preserves_bind; [apply _| |intros _].
    { apply quiet_log_grows, quiet_dispatch. }
    apply preserves_bind; [apply _| |intros _; apply preserves_ret, _].
    by apply log_grows_same_log.
  - apply preserves_bind;
      [apply _|apply log_grows_log_feedback|intros _; apply preserves_ret, _].
Qed.

Lemma log_grows_run_steps env workflow n i s steps :
  preserves log_grows (run_steps env workflow n i s steps).
Proof.
  revert i s. induction steps as [|step rest IH]; intros i s; simpl.
  - apply preserves_ret, _.
  - apply preserves_bind; [apply _| |intros _].
    { apply log_grows_same_log. intros w. unfold serve_requests.
      by destruct (stop_requested env i), (started_again env i). }
    apply preserves_bind; [apply _| |intros running].
    { by apply log_grows_same_log. }
    destruct (negb running).
    + apply preserves_bind;
        [apply _|apply log_grows_log_feedback|intros _; apply preserves_ret, _].
    + apply preserves_bind;
        [apply _|apply log_grows_loop_body|intros s'; apply IH].
Qed.

Lemma log_grows_closing env workflow_id n s :
  preserves log_grows (closing env workflow_id n s).
Proof.
  unfold closing.
  apply preserves_bind; [apply _|apply preserves_lift, _|intros r].
  apply preserves_bind; [apply _| |intros _].
  { destruct (is_100 r); apply log_grows_log_feedback. }
  apply preserves_bind; [apply _|apply log_grows_update|intros _].
  apply preserves_bind; [apply _| |intros _; apply preserves_ret, _].
  by apply log_grows_same_log.
Qed.

(** X13. The log of a run whose workflow file was read starts with the
    three opening entries; its last entry is the verdict when the run
    returns [True] and the critical error when it returns [False]. *)
Theorem run_log_shape env workflow_id workflow w :
  workflow_file env workflow_id = Content workflow →
  ∃ l final,
    messages (snd (execute_workflow_with_feedback env workflow_id w)) =
      [MsgStarting workflow_id;
       MsgTotalSteps (Z.of_nat (List.length (automation_steps workflow)));
       MsgPrepare] ++ l ++ [final] ∧
    ((fst (execute_workflow_with_feedback env workflow_id w) = Ok true ∧
      ∃ s, final =
           verdict s (Z.of_nat (List.length (automation_steps workflow)))) ∨
     (fst (execute_workflow_with_feedback env workflow_id w) = Ok false ∧
      ∃ e, final = MsgCritical e)).
Proof.
  intros Hf.
  set (n := Z.of_nat (List.length (automation_steps workflow))).
  set (w0 := snd (enter_run w)).
  pose proof (opening_eq env workflow_id n w0) as (Ho & Hf1 & Hm1).
  destruct (opening env workflow_id n w0) as [o1 w1] eqn:Eo.
  simpl in Ho, Hf1, Hm1. subst o1.
  rewrite execute_workflow_with_feedback_eq. fold w0.
  pose proof (log_grows_run_steps env workflow n 1 0
                (automation_steps workflow) w1) as [l2 Hl2].
  destruct (run_steps env workflow n 1 0 (automation_steps workflow) w1)
    as [[s|e] w2] eqn:Er; simpl in Hl2.
  - pose proof (log_grows_closing env workflow_id n s w2) as [l3 Hl3].
    destruct (closing env workflow_id n s w2) as [[b|e] w3] eqn:Ec;
      simpl in Hl3.
    + (* the recorder stored the run *)
      destruct (Z.eq_dec n 0) as [Hn|Hn].
      { rewrite Hn, closing_empty in Ec. discriminate. }
      destruct (db_writable w2) eqn:Hw2.
      2: { destruct (closing_read_only env workflow_id n s w2 Hw2)
             as (e & He & _). rewrite Ec in He. discriminate. }
      rewrite (closing_recorded _ _ _ _ _ Hn Hw2) in Ec.
      injection Ec as <- <-.
      erewrite try_except_ok.
      2: { rewrite (try_block_content _ _ _ _ Hf). fold n.
           rewrite (bind_ok _ _ _ _ _ Eo), (bind_ok _ _ _ _ _ Er).
           apply (closing_recorded _ _ _ _ _ Hn Hw2). }
      exists l2, (verdict s n). cbn [fst snd]. split.
      * unfold messages at 1. cbn [execution_logs]. rewrite map_app.
        fold (messages w2). rewrite Hl2, Hm1. by rewrite <- !app_assoc.
      * left. split; [reflexivity|]. by exists s.
    + erewrite try_except_raise.
      2: { rewrite (try_block_content _ _ _ _ Hf). fold n.
           rewrite (bind_ok _ _ _ _ _ Eo), (bind_ok _ _ _ _ _ Er).
           exact Ec. }
      rewrite critical_handler_eq. exists (l2 ++ l3), (MsgCritical e).
      cbn [fst snd]. split.
      * unfold messages at 1. cbn [execution_logs]. rewrite map_app.
        fold (messages w3). rewrite Hl3, Hl2, Hm1. by rewrite <- !app_assoc.
      * right. split; [reflexivity|]. by exists e.
  - erewrite try_except_raise.
    2: { rewrite (try_block_content _ _ _ _ Hf). fold n.
         rewrite (bind_ok _ _ _ _ _ Eo). apply bind_raise. exact Er. }
    rewrite critical_handler_eq. exists l2, (MsgCritical e).
    cbn [fst snd]. split.
    + unfold messages at 1. cbn [execution_logs]. rewrite map_app.
      fold (messages w2). rewrite Hl2, Hm1. by rewrite <- !app_assoc.
    + right. split; [reflexivity|]. by exists e.
Qed.

Lemma run_log_shape_witness :
  ∃ l final,
    messages (snd (execute_workflow_with_feedback calm_three "wf-1"
                     fresh_world)) =
      [MsgStarting "wf-1";
       MsgTotalSteps (Z.of_nat (List.length (automation_steps three_steps)));
       MsgPrepare] ++ l ++ [final] ∧
    ((fst (execute_workflow_with_feedback calm_three "wf-1" fresh_world)
        = Ok true ∧
      ∃ s, final =
           verdict s (Z.of_nat (List.length (automation_steps three_steps)))) ∨
     (fst (execute_workflow_with_feedback calm_three "wf-1" fresh_world)
        = Ok false ∧
      ∃ e, final = MsgCritical e)).
Proof.
  apply (run_log_shape calm_three "wf-1" three_steps fresh_world).
  reflexivity.
Defined.

(** ** The runner *)

Lemma with_stdout_same w : with_stdout (stdout w) w = w.
Proof. by destruct w. Qed.

Lemma execute_step_dry env step w :
  AutomationRunner.execute_step env step true w =
    (Ok tt, with_stdout (stdout w ++ dry_lines step) w).
Proof.
  unfold AutomationRunner.execute_step, bind, print, with_stdout, dry_lines,
    header.
  cbn [fst snd automation_running execution_logs learning_db db_writable
       ticks effects stdout].
  by rewrite <- app_assoc.
Qed.

Lemma for_each_step_dry env steps w :
  AutomationRunner.for_each_step env steps true w =
    (Ok tt, with_stdout (stdout w ++ flat_map dry_lines steps) w).
Proof.
  revert w. induction steps as [|step rest IH]; intros w.
  - cbn [AutomationRunner.for_each_step flat_map]. unfold ret.
    by rewrite app_nil_r, with_stdout_same.
  - cbn [AutomationRunner.for_each_step flat_map].
    rewrite (bind_ok _ _ _ _ _ (execute_step_dry env step w)), IH.
    unfold with_stdout.
    cbn [automation_running execution_logs learning_db db_writable
         ticks effects stdout].
    by rewrite <- app_assoc.
Qed.

(** X14. A dry run of the runner returns, and changes nothing but the
    standard output: no call leaves the process, not even a pause; it
    prints the banner and two lines for each step, or the single line
    that no steps were found. *)
Theorem dry_run_only_prints env workflow_data w :
  AutomationRunner.execute_workflow env workflow_data true w =
    (Ok tt, with_stdout (stdout w ++ dry_output workflow_data) w).
Proof.
  unfold AutomationRunner.execute_workflow, dry_output.
  destruct (automation_steps workflow_data) as [|step rest] eqn:Hs.
  - reflexivity.
  - set (steps := step :: rest).
    erewrite bind_ok by reflexivity.
    erewrite bind_ok by reflexivity.
    rewrite for_each_step_dry. unfold with_stdout.
    cbn [fst snd print automation_running execution_logs learning_db
         db_writable ticks effects stdout].
    by rewrite <- app_assoc.
Qed.


Lemma print_eq m w :
  print m w = (Ok tt, with_stdout (stdout w ++ [m]) w).
Proof. reflexivity. Qed.

Lemma execute_step_returns env step dry_run w :
  fst (AutomationRunner.execute_step env step dry_run w) = Ok tt.
Proof.
  unfold AutomationRunner.execute_step.
  rewrite (bind_ok _ _ _ _ _ (print_eq _ w)).
  destruct dry_run; [reflexivity|].
  match goal with
  | |- fst (try_except ?c ?h ?w1) = _ =>
      destruct (c w1) as [[[]|e] w2] eqn:E;
      [rewrite (try_except_ok _ _ _ _ _ E)
      |rewrite (try_except_raise _ _ _ _ _ E)]
  end; reflexivity.
Qed.

Lemma for_each_step_returns env steps dry_run w :
  fst (AutomationRunner.for_each_step env steps dry_run w) = Ok tt.
Proof.
  revert w. induction steps as [|step rest IH]; intros w; [reflexivity|].
  cbn [AutomationRunner.for_each_step].
  pose proof (execute_step_returns env step dry_run w) as H.
  destruct (AutomationRunner.execute_step env step dry_run w) as [o w1] eqn:E.
  simpl in H. subst o. rewrite (bind_ok _ _ _ _ _ E). apply IH.
Qed.

(** X15. On steps whose [action] is absent or a string, as [Step] has
    them, the runner's [execute_workflow] never raises: whatever the
    injector does, dry or live, it returns; the exception of a step
    ends with that step. *)
Theorem runner_returns env workflow_data dry_run w :
  fst (AutomationRunner.execute_workflow env workflow_data dry_run w) = Ok tt.
Proof.
  unfold AutomationRunner.execute_workflow.
  destruct (automation_steps workflow_data) as [|step rest]; [reflexivity|].
  rewrite (bind_ok _ _ _ _ _ (print_eq _ w)).
  destruct dry_run.
  - erewrite bind_ok by reflexivity. apply for_each_step_returns.
  - erewrite bind_ok by reflexivity. apply for_each_step_returns.
Qed.

#[local] Instance prints_no_report_preorder : PreOrder (prints_reports 0).
Proof.
  split.
  - intros w. exists []. by rewrite app_nil_r.
  - intros w1 w2 w3 (l & Hl & Hk) (l' & Hl' & Hk'). exists (l ++ l'). split.
    + by rewrite Hl', Hl, app_assoc.
    + unfold reports in *. rewrite List.filter_app, length_app. lia.
Qed.

Lemma prints_reports_add j k w1 w2 w3 :
  prints_reports j w1 w2 → prints_reports k w2 w3 →
  prints_reports (j + k) w1 w3.
Proof.
  intros (l & Hl & Hj) (l' & Hl' & Hk). exists (l ++ l'). split.
  - by rewrite Hl', Hl, app_assoc.
  - unfold reports in *. rewrite List.filter_app, length_app. lia.
Qed.

Lemma silent_print m :
  is_report m = false → preserves (prints_reports 0) (print m).
Proof.
  intros Hm w. exists [m]. split; [reflexivity|].
  unfold reports. simpl. by rewrite Hm.
Qed.

Lemma silent_same_stdout {A} (c : M A) :
  (∀ w, stdout (snd (c w)) = stdout w) → preserves (prints_reports 0) c.
Proof. intros H w. exists []. by rewrite H, app_nil_r. Qed.

Lemma silent_inject env c : preserves (prints_reports 0) (inject env c).
Proof.
  apply silent_same_stdout. intros w. unfold inject.
  by destruct (injector env _ c).
Qed.

Lemma silent_sleep q : preserves (prints_reports 0) (sleep q).
Proof. by apply silent_same_stdout. Qed.

Lemma silent_time_sleep v : preserves (prints_reports 0) (time_sleep v).
Proof.
  destruct v as [|b|q|s]; cbn [time_sleep];
    try apply silent_sleep; try (apply preserves_raise, _).
  destruct (fits_time_t q); [|apply preserves_raise, _].
  destruct (Qle_bool 0 q); [apply silent_sleep|apply preserves_raise, _].
Qed.

Ltac silent_step :=
  first [ apply silent_inject | apply silent_sleep | apply silent_time_sleep
        | apply silent_print; reflexivity
        | apply preserves_ret, _ | apply preserves_raise, _
        | apply preserves_bind; [apply _| |intros ?] ].

Lemma silent_execute_click env step :
  preserves (prints_reports 0) (AutomationRunner._execute_click env step).
Proof.
  unfold AutomationRunner._execute_click.
  destruct (arg step "x"), (arg step "y"); repeat silent_step.
Qed.

Lemma silent_execute_type env step :
  preserves (prints_reports 0) (AutomationRunner._execute_type env step).
Proof.
  unfold AutomationRunner._execute_type.
  destruct (negb _); [silent_step|].
  destruct (arg step "x"), (arg step "y"); repeat silent_step.
Qed.

Lemma silent_execute_wait env step :
  preserves (prints_reports 0) (AutomationRunner._execute_wait env step).
Proof. unfold AutomationRunner._execute_wait. repeat silent_step. Qed.

Lemma silent_execute_hotkey env step :
  preserves (prints_reports 0) (AutomationRunner._execute_hotkey env step).
Proof.
  unfold AutomationRunner._execute_hotkey.
  destruct (negb _); [silent_step|].
  destruct (default _ _); repeat silent_step.
Qed.

Lemma silent_execute_command env step :
  preserves (prints_reports 0) (AutomationRunner._execute_command env step).
Proof.
  unfold AutomationRunner._execute_command.
  destruct (String.eqb _ _); repeat silent_step.
Qed.

Lemma live_step_reports_once env step w :
  prints_reports 1 w (snd (AutomationRunner.execute_step env step false w)).
Proof.
  unfold AutomationRunner.execute_step.
  rewrite (bind_ok _ _ _ _ _ (print_eq _ w)).
  set (w0 := with_stdout _ w).
  assert (prints_reports 0 w w0) as H0.
  { exists [header step]. split; reflexivity. }
  match goal with
  | |- context [try_except (bind ?b _) _] => set (body := b)
  end.
  assert (preserves (prints_reports 0) body) as Hb.
  { subst body.
    repeat (destruct (String.eqb _ _);
            [first [ apply silent_execute_click | apply silent_execute_type
                   | apply silent_execute_wait | apply silent_execute_hotkey
                   | apply silent_execute_command ]|]).
    silent_step. }
  specialize (Hb w0).
  destruct (body w0) as [[[]|e] w1] eqn:E; simpl in Hb.
  - erewrite try_except_ok.
    2: { rewrite (bind_ok _ _ _ _ _ E). apply print_eq. }
    apply (prints_reports_add 0 1 w w1); [by etransitivity|].
    exists [OutCompleted (step_num step)]. split; reflexivity.
  - erewrite try_except_raise by (apply bind_raise, E).
    apply (prints_reports_add 0 1 w w1); [by etransitivity|].
    exists [OutError (step_num step) e]. split; reflexivity.
Qed.

Lemma live_steps_report env steps w :
  prints_reports (List.length steps) w
    (snd (AutomationRunner.for_each_step env steps false w)).
Proof.
  revert w. induction steps as [|step rest IH]; intros w.
  - simpl. reflexivity.
  - cbn [AutomationRunner.for_each_step List.length].
    pose proof (execute_step_returns env step false w) as Hr.
    pose proof (live_step_reports_once env step w) as H1.
    destruct (AutomationRunner.execute_step env step false w) as [o w1] eqn:E.
    simpl in Hr, H1. subst o. rewrite (bind_ok _ _ _ _ _ E).
    apply (prints_reports_add 1 (List.length rest) w w1); [exact H1|apply IH].
Qed.

(** X16. A live run of the runner closes every step exactly once, with
    the completed line or with the error line: the lines it prints hold
    as many of these as the workflow has steps, whichever steps fail. *)
Theorem live_run_reports_each_step env workflow_data w :
  prints_reports (List.length (automation_steps workflow_data)) w
    (snd (AutomationRunner.execute_workflow env workflow_data false w)).
Proof.
  unfold AutomationRunner.execute_workflow.
  destruct (automation_steps workflow_data) as [|step rest].
  - exists [OutNoSteps]. split; reflexivity.
  - set (steps := step :: rest).
    rewrite (bind_ok _ _ _ _ _ (print_eq _ w)).
    erewrite bind_ok by reflexivity.
    match goal with
    | |- prints_reports _ _ (snd (_ _ _ _ ?w1)) =>
        apply (prints_reports_add 0 (List.length steps) w w1);
          [|apply live_steps_report]
    end.
    exists [OutBanner (wf_workflow_id workflow_data)
              (Z.of_nat (List.length steps)) false; OutLiveStart].
    split; [|reflexivity].
    cbn [fst snd print sleep bind with_stdout stdout].
    by rewrite <- app_assoc.
Qed.


(** X17. A live step of the runner whose action is none of click, type,
    wait and hotkey reaches nothing outside the process, a system
    command of an [execute] step included, and is still closed as
    completed. *)
Theorem runner_runs_no_command env step w :
  known_to_dashboard (default "unknown" (action step)) = false →
  fst (AutomationRunner.execute_step env step false w) = Ok tt ∧
  effects (snd (AutomationRunner.execute_step env step false w)) = effects w ∧
  last (stdout (snd (AutomationRunner.execute_step env step false w))) =
    Some (OutCompleted (step_num step)).
Proof.
  unfold known_to_dashboard. intros H.
  apply orb_false_iff in H as [H Hh]. apply orb_false_iff in H as [H Hw].
  apply orb_false_iff in H as [Hc Ht].
  unfold AutomationRunner.execute_step. rewrite Hc, Ht, Hw, Hh.
  destruct (String.eqb (default "unknown" (action step)) "execute").
  - unfold AutomationRunner._execute_command.
    destruct (String.eqb (default "" (command step)) "");
      (split; [reflexivity|split; [reflexivity|]]);
      unfold try_except, bind, print;
      cbn [fst snd stdout]; apply last_snoc.
  - (split; [reflexivity|split; [reflexivity|]]).
    unfold try_except, bind, print; cbn [fst snd stdout]; apply last_snoc.
Qed.

Lemma runner_runs_no_command_witness :
  fst (AutomationRunner.execute_step failing_injector_env run_command_step
         false fresh_world) = Ok tt ∧
  effects (snd (AutomationRunner.execute_step failing_injector_env
                  run_command_step false fresh_world)) = effects fresh_world ∧
  last (stdout (snd (AutomationRunner.execute_step failing_injector_env
                       run_command_step false fresh_world))) =
    Some (OutCompleted (step_num run_command_step)).
Proof.
  apply (runner_runs_no_command failing_injector_env run_command_step
           fresh_world).
  reflexivity.
Defined.


(** ** The analysis pipeline *)

Lemma split_on_nonempty sep s : split_on sep s ≠ [].
Proof.
  destruct s as [|c r]; simpl; [done|].
  destruct (Ascii.eqb c sep); [done|]. by destruct (split_on sep r).
Qed.

Lemma second_field_colon s :
  is_Some (after_colon s) → ∃ field, local_llm.second_field s = Done field.
Proof.
  unfold local_llm.second_field.
  induction s as [|c r IH]; simpl; intros H; [by destruct H|].
  destruct (Ascii.eqb c ":").
  - pose proof (split_on_nonempty ":" r) as Hn.
    destruct (split_on ":" r) as [|h t]; [done|]. by exists h.
  - destruct (IH H) as [field Hf].
    destruct (split_on ":" r) as [|h [|f t]]; try discriminate.
    by exists f.
Qed.

Lemma step_of_action_colon i action :
  is_Some (after_colon action) →
  ∃ step, local_llm.step_of_action i action = Done step ∧ args step = None.
Proof.
  intros H. destruct (second_field_colon _ H) as [field Hf].
  unfold local_llm.step_of_action. rewrite Hf.
  destruct (contains "Clicked button" action); [by eexists|].
  destruct (contains "Interacted with input" action); [by eexists|].
  destruct (contains "Voice command" action); by eexists.
Qed.

Lemma steps_from_ok i actions :
  Forall (λ a, is_Some (after_colon a) ∨ a ∈ local_llm.general_actions)
    actions →
  ∃ steps, local_llm.steps_from i actions = Done steps ∧
           List.length steps = List.length actions.
Proof.
  intros H. revert i. induction H as [|action rest Ha _ IH]; intros i.
  - by exists [].
  - cbn [local_llm.steps_from].
    assert (∃ step, local_llm.step_of_action i action = Done step)
      as [step Hs].
    { destruct Ha as [Ha|Ha].
      - destruct (step_of_action_colon i _ Ha) as (step & Hs & _).
        by exists step.
      - unfold local_llm.general_actions in Ha.
        repeat (apply elem_of_cons in Ha as [->|Ha]; [by eexists|]).
        by apply elem_of_nil in Ha. }
    destruct (IH (i + 1)) as (steps & Hst & Hl).
    exists (step :: steps). rewrite Hs, Hst. simpl. by rewrite Hl.
Qed.

Lemma actions_of_elements_colon ui acts :
  local_llm.actions_of_elements ui = Done acts →
  Forall (λ a, is_Some (after_colon a)) acts.
Proof.
  revert acts. induction ui as [|element rest IH]; intros acts; simpl.
  - intros [= <-]. constructor.
  - destruct (el_type element) as [ty|]; [|discriminate]. simpl.
    destruct (local_llm.actions_of_elements rest) as [more|e] eqn:Hm.
    2: { destruct (String.eqb ty "button");
           [destruct (el_text element); discriminate|].
         destruct (String.eqb ty "input");
           [destruct (el_text element); discriminate|discriminate]. }
    specialize (IH _ eq_refl).
    destruct (String.eqb ty "button").
    { destruct (el_text element) as [text|]; [|discriminate]. simpl.
      intros [= <-]. constructor; [by eexists|exact IH]. }
    destruct (String.eqb ty "input").
    { destruct (el_text element) as [text|]; [|discriminate]. simpl.
      intros [= <-]. constructor; [by eexists|exact IH]. }
    simpl. by intros [= <-].
Qed.

Lemma actions_of_ocr_colon ocr acts :
  local_llm.actions_of_ocr ocr = Done acts →
  Forall (λ a, is_Some (after_colon a)) acts.
Proof.
  revert acts. induction ocr as [|o rest IH]; intros acts; simpl.
  - intros [= <-]. constructor.
  - destruct (local_llm.actions_of_elements (ui_elements o))
      as [here|e] eqn:Hh; [|discriminate]. simpl.
    destruct (local_llm.actions_of_ocr rest) as [more|e] eqn:Hm;
      [|discriminate]. simpl.
    intros [= <-]. apply Forall_app. split.
    + by apply actions_of_elements_colon with (ui_elements o).
    + by apply IH.
Qed.

Lemma detect_actions_eq session_data :
  local_llm.detect_actions_from_session session_data =
    let? actions := local_llm.actions_of_ocr (ocr_results session_data) in
    Done (match actions with
          | [] => local_llm.general_actions
          | _ => actions
          end).
Proof.
  unfold local_llm.detect_actions_from_session.
  destruct (local_llm.actions_of_ocr _) as [actions|e]; [|reflexivity].
  simpl. destruct (truthy _); simpl; rewrite app_nil_r; by destruct actions.
Qed.

Lemma detected_actions_shape session_data actions :
  local_llm.detect_actions_from_session session_data = Done actions →
  Forall (λ a, is_Some (after_colon a) ∨ a ∈ local_llm.general_actions)
    actions.
Proof.
  rewrite detect_actions_eq.
  destruct (local_llm.actions_of_ocr _) as [acts|e] eqn:Ha; [|discriminate].
  simpl. intros [= <-]. apply actions_of_ocr_colon in Ha.
  destruct acts as [|a acts].
  - apply Forall_forall. intros a Hin. by right.
  - eapply Forall_impl; [exact Ha|]. intros ? ?. by left.
Qed.

(** X18. The transcription adds nothing to the detected actions:
    [extract_commands_from_transcription] is handed the transcription
    dict, not its text, and so returns the empty list. The actions of a
    session are those of its UI elements, or the three general ones. *)
Theorem transcription_adds_no_action session_data transcription :
  local_llm.detect_actions_from_session
    (with_transcription transcription session_data) =
  local_llm.detect_actions_from_session session_data.
Proof. by rewrite !detect_actions_eq. Qed.

(** X19. [generate_automation_steps] raises no [IndexError] on the
    actions that [detect_actions_from_session] returns, and builds one
    step for each of them. *)
Theorem generate_after_detect session_data actions :
  local_llm.detect_actions_from_session session_data = Done actions →
  ∃ steps,
    local_llm.generate_automation_steps session_data actions = Done steps ∧
    List.length steps = List.length actions.
Proof.
  intros H. apply steps_from_ok. by apply detected_actions_shape in H.
Qed.

Lemma generate_after_detect_witness :
  ∃ steps,
    local_llm.generate_automation_steps office_session
      ["Clicked button: Save"; "Interacted with input: File name:";
       "Clicked button: OK"] = Done steps ∧
    List.length steps =
      List.length ["Clicked button: Save"; "Interacted with input: File name:";
                   "Clicked button: OK"].
Proof.
  apply (generate_after_detect office_session). vm_compute. reflexivity.
Defined.

(** On other input it does: a matching action without a colon. *)
Example generate_without_colon session_data :
  local_llm.generate_automation_steps session_data ["Clicked button Save"] =
    Failed IndexError.
Proof. reflexivity. Qed.

(** X20. The automation potential lies between 2 and 10, and is 10 only
    with three actions, two patterns, five UI elements and speech: the
    bonuses add up to 10 at most, so the final [min] cuts nothing. *)
Theorem automation_potential_range session_data actions patterns :
  2 ≤ local_llm.calculate_automation_potential session_data actions patterns
    ≤ 10 ∧
  (local_llm.calculate_automation_potential session_data actions patterns = 10
   ↔ (3 ≤ List.length actions)%nat ∧ (2 ≤ List.length patterns)%nat ∧
     5 ≤ local_llm.total_ui_elements session_data ∧
     truthy (tr_success (audio_transcription session_data))
     && truthy (tr_text (audio_transcription session_data)) = true).
Proof.
  unfold local_llm.calculate_automation_potential.
  set (u := local_llm.total_ui_elements session_data).
  set (speech := truthy _ && truthy _).
  destruct (Z.leb_spec 5 u), (Z.leb_spec 2 u), speech;
    (split; [lia|]);
    (split; [intros ?; repeat split; (lia || discriminate)
            |intros (? & ? & ? & ?); (lia || discriminate)]).
Qed.


(** ** The calls of a run *)

Section Calls.
Context (P : Call → bool).
Hypothesis pauses : ∀ q, P (CSleep q) = true.

#[local] Instance calls_only_preorder : PreOrder (calls_only P).
Proof.
  split.
  - intros w. exists []. by rewrite app_nil_r.
  - intros w1 w2 w3 (l & Hl & Hp) (l' & Hl' & Hp'). exists (l ++ l'). split.
    + by rewrite Hl', Hl, app_assoc.
    + by rewrite forallb_app, Hp, Hp'.
Qed.

Lemma calls_same_effects {A} (c : M A) :
  (∀ w, effects (snd (c w)) = effects w) → preserves (calls_only P) c.
Proof. intros H w. exists []. by rewrite H, app_nil_r. Qed.

Lemma calls_log_feedback env m step_info :
  preserves (calls_only P) (log_feedback env m step_info).
Proof. by apply calls_same_effects. Qed.

Lemma calls_sleep q : preserves (calls_only P) (sleep q).
Proof. intros w. exists [CSleep q]. simpl. by rewrite pauses. Qed.

Lemma calls_time_sleep v : preserves (calls_only P) (time_sleep v).
Proof.
  destruct v as [|b|q|s]; cbn [time_sleep];
    try apply calls_sleep; try (apply preserves_raise, _).
  destruct (fits_time_t q); [|apply preserves_raise, _].
  destruct (Qle_bool 0 q); [apply calls_sleep|apply preserves_raise, _].
Qed.

Lemma calls_inject env c :
  P c = true → preserves (calls_only P) (inject env c).
Proof.
  intros Hc w. exists [c]. unfold inject.
  destruct (injector env _ c); simpl; by rewrite Hc.
Qed.

Lemma calls_update env workflow_id success s n :
  preserves (calls_only P) (update_learning_data env workflow_id success s n).
Proof.
  apply calls_same_effects. intros w.
  destruct (db_writable w) eqn:Hw.
  - by rewrite (update_learning_data_writable _ _ _ _ _ _ Hw).
  - by rewrite (update_learning_data_raises _ _ _ _ _ _ Hw).
Qed.

Lemma calls_attempt env a step s :
  preserves (calls_only P) (dispatch env a step) →
  preserves (calls_only P) (attempt env a step s).
Proof.
  intros Hd. unfold attempt.
  apply preserves_try_except; [apply _| |intros e].
  - apply preserves_bind; [apply _|exact Hd|intros _].
    apply preserves_bind; [apply _|apply calls_sleep|intros _].
    apply preserves_ret, _.
  - apply preserves_bind; [apply _|apply calls_log_feedback|intros _].
    apply preserves_ret, _.
Qed.

Lemma calls_loop_body env workflow n i s step :
  step_calls P env step →
  preserves (calls_only P) (loop_body env workflow n i s step).
Proof.
  intros Hs w. destruct (action step) as [a|] eqn:Ha.
  - rewrite (loop_body_action _ _ _ _ _ _ _ _ Ha).
    etransitivity; [|apply (calls_attempt _ _ _ _ (Hs a Ha))].
    etransitivity; [|apply calls_log_feedback].
    apply calls_log_feedback.
  - unfold loop_body. rewrite Ha. reflexivity.
Qed.

Lemma calls_run_steps env workflow n i s steps :
  Forall (step_calls P env) steps →
  preserves (calls_only P) (run_steps env workflow n i s steps).
Proof.
  intros H. revert i s. induction H as [|step rest Hs _ IH]; intros i s; simpl.
  - apply preserves_ret, _.
  - apply preserves_bind; [apply _| |intros _].
    { apply calls_same_effects. intros w. unfold serve_requests.
      by destruct (stop_requested env i), (started_again env i). }
    apply preserves_bind; [apply _| |intros running].
    { by apply calls_same_effects. }
    destruct (negb running).
    + apply preserves_bind;
        [apply _|apply calls_log_feedback|intros _; apply preserves_ret, _].
    + apply preserves_bind;
        [apply _|by apply calls_loop_body|intros s'; apply IH].
Qed.

Lemma calls_closing env workflow_id n s :
  preserves (calls_only P) (closing env workflow_id n s).
Proof.
  unfold closing.
  apply preserves_bind; [apply _|apply preserves_lift, _|intros r].
  apply preserves_bind; [apply _| |intros _].
  { destruct (is_100 r); apply calls_log_feedback. }
  apply preserves_bind; [apply _|apply calls_update|intros _].
  apply preserves_bind; [apply _| |intros _; apply preserves_ret, _].
  by apply calls_same_effects.
Qed.

Lemma calls_opening env workflow_id n :
  preserves (calls_only P) (opening env workflow_id n).
Proof.
  unfold opening.
  repeat (apply preserves_bind;
            [apply _|apply calls_log_feedback|intros _]).
  apply calls_sleep.
Qed.

Lemma calls_run env workflow_id workflow w :
  workflow_file env workflow_id = Content workflow →
  Forall (step_calls P env) (automation_steps workflow) →
  calls_only P w (snd (execute_workflow_with_feedback env workflow_id w)).
Proof.
  intros Hf Hs. rewrite execute_workflow_with_feedback_eq.
  transitivity (snd (enter_run w)); [by apply (calls_same_effects enter_run)|].
  generalize (snd (enter_run w)). clear w.
  apply preserves_try_except; [apply _| |intros e].
  - intros w. rewrite (try_block_content _ _ _ _ Hf). revert w.
    apply preserves_bind; [apply _|apply calls_opening|intros _].
    apply preserves_bind;
      [apply _|by apply calls_run_steps|intros s; apply calls_closing].
  - apply calls_same_effects. intros w. by rewrite critical_handler_eq.
Qed.

End Calls.

#[local] Existing Instance calls_only_preorder.


Lemma arg_no_args step key : args step = None → arg step key = None.
Proof. intros H. unfold arg. by rewrite H. Qed.

Lemma pauses_empty_write q : pause_or_empty_write (CSleep q) = true.
Proof. reflexivity. Qed.

Lemma pauses_no_click q : no_click (CSleep q) = true.
Proof. reflexivity. Qed.

(** What [generate_automation_steps] builds. *)
Lemma step_of_action_shape i act step :
  local_llm.step_of_action i act = Done step →
  args step = None ∧
  (action step = Some "click" ∨ action step = Some "type" ∨
   action step = Some "execute" ∨ action step = Some "generic").
Proof.
  unfold local_llm.step_of_action.
  destruct (local_llm.second_field act) as [field|e]; simpl.
  - destruct (contains "Clicked button" act); [intros [= <-]; auto|].
    destruct (contains "Interacted with input" act);
      [intros [= <-]; auto|].
    destruct (contains "Voice command" act); intros [= <-]; auto 6.
  - destruct (contains "Clicked button" act); [discriminate|].
    destruct (contains "Interacted with input" act); [discriminate|].
    destruct (contains "Voice command" act); [discriminate|].
    intros [= <-]; auto 6.
Qed.

Lemma generated_step_calls env step :
  args step = None →
  action step = Some "click" ∨ action step = Some "type" ∨
  action step = Some "execute" ∨ action step = Some "generic" →
  step_calls pause_or_empty_write env step.
Proof.
  intros Hargs Ha a Hact. rewrite Hact in Ha.
  assert (a = "click" ∨ a = "type" ∨ a = "execute" ∨ a = "generic") as Hs
    by (destruct Ha as [|[|[|]]]; simplify_eq; auto).
  unfold dispatch.
  rewrite !(arg_no_args _ _ Hargs).
  destruct Hs as [ -> | [ -> | [ -> | -> ]]]; cbn [String.eqb Ascii.eqb Bool.eqb].
  - apply preserves_bind;
      [apply _|apply calls_log_feedback|intros _; apply calls_log_feedback].
  - apply preserves_bind; [apply _|apply calls_log_feedback|intros _].
    apply preserves_bind; [apply _| |intros _; apply calls_log_feedback].
    by apply calls_inject.
  - apply calls_log_feedback.
  - apply calls_log_feedback.
Qed.

Lemma steps_from_shape env i actions steps :
  local_llm.steps_from i actions = Done steps →
  Forall (step_calls pause_or_empty_write env) steps.
Proof.
  revert i steps. induction actions as [|action rest IH]; intros i steps.
  - intros [= <-]. constructor.
  - cbn [local_llm.steps_from].
    destruct (local_llm.step_of_action i action) as [step|e] eqn:Hs;
      [|discriminate]. simpl.
    destruct (local_llm.steps_from (i + 1) rest) as [more|e] eqn:Hm;
      [|discriminate]. simpl.
    intros [= <-]. constructor; [|by eapply IH].
    destruct (step_of_action_shape _ _ _ Hs). by apply generated_step_calls.
Qed.

(** X21. A workflow whose steps were built by [generate_automation_steps]
    does nothing on the dashboard but pause and type the empty string:
    its steps carry no [args], so a click has no coordinates and a type
    step no text; no click and no hotkey ever leaves the process. *)
Theorem generated_workflow_is_inert env session_data actions workflow_id
    workflow w :
  local_llm.generate_automation_steps session_data actions =
    Done (automation_steps workflow) →
  workflow_file env workflow_id = Content workflow →
  calls_only pause_or_empty_write w
    (snd (execute_workflow_with_feedback env workflow_id w)).
Proof.
  intros Hg Hf.
  apply (calls_run _ pauses_empty_write _ _ _ _ Hf).
  by apply steps_from_shape with 0 actions.
Qed.

Lemma generated_workflow_is_inert_witness :
  calls_only pause_or_empty_write fresh_world
    (snd (execute_workflow_with_feedback
            (calm_env (Content save_button_workflow) never)
            "wf-1" fresh_world)).
Proof.
  apply (generated_workflow_is_inert
           (calm_env (Content save_button_workflow) never) office_session
           ["Clicked button: Save"] "wf-1" save_button_workflow fresh_world);
    reflexivity.
Defined.

Lemma parsed_step_no_coordinates action step_number :
  has_coordinates (workflow_parser.parse_action_to_step action step_number)
    = false.
Proof.
  unfold workflow_parser.parse_action_to_step, has_coordinates, arg.
  repeat (destruct (_ || _) || destruct (contains _ _));
    cbn [args default]; rewrite ?lookup_empty;
    rewrite ?lookup_singleton_ne by done; reflexivity.
Qed.

Lemma no_coordinates_step_calls env step :
  has_coordinates step = false → step_calls no_click env step.
Proof.
  intros Hc a _. unfold dispatch.
  destruct (String.eqb a "click").
  { apply preserves_bind;
      [apply _|apply calls_log_feedback|intros _].
    unfold has_coordinates in Hc.
    destruct (arg step "x"), (arg step "y"); try discriminate;
      apply calls_log_feedback. }
  destruct (String.eqb a "type").
  { apply preserves_bind; [apply _|apply calls_log_feedback|intros _].
    apply preserves_bind; [apply _| |intros _; apply calls_log_feedback].
    by apply calls_inject. }
  destruct (String.eqb a "wait").
  { apply preserves_bind; [apply _|apply calls_log_feedback|intros _].
    apply preserves_bind; [apply _| |intros _; apply calls_log_feedback].
    apply calls_time_sleep, pauses_no_click. }
  destruct (String.eqb a "hotkey"); [|apply calls_log_feedback].
  apply preserves_bind; [apply _|apply calls_log_feedback|intros _].
  destruct (default _ _); try (apply preserves_raise, _).
  apply preserves_bind; [apply _| |intros _; apply calls_log_feedback].
  by apply calls_inject.
Qed.

(** X22. A workflow whose steps come from [parse_action_to_step] never
    clicks on the dashboard: the parser gives a click step the key
    [button], never coordinates. *)
Theorem parsed_workflow_never_clicks env detected_actions workflow_id
    workflow w :
  automation_steps workflow =
    workflow_parser.steps_of_actions 0 detected_actions →
  workflow_file env workflow_id = Content workflow →
  calls_only no_click w
    (snd (execute_workflow_with_feedback env workflow_id w)).
Proof.
  intros Hs Hf.
  apply (calls_run _ pauses_no_click _ _ _ _ Hf).
  rewrite Hs. clear Hs. generalize 0.
  induction detected_actions as [|description rest IH]; intros i.
  - constructor.
  - cbn [workflow_parser.steps_of_actions]. constructor; [|apply IH].
    apply no_coordinates_step_calls, parsed_step_no_coordinates.
Qed.

Lemma parsed_workflow_never_clicks_witness :
  calls_only no_click fresh_world
    (snd (execute_workflow_with_feedback
            (calm_env (Content parsed_workflow) never) "wf-1" fresh_world)).
Proof.
  apply (parsed_workflow_never_clicks
           (calm_env (Content parsed_workflow) never)
           ["Clicked button: Save"; "Pressed hotkey: ctrl+s"]
           "wf-1" parsed_workflow fresh_world);
    reflexivity.
Defined.


(** ** The parser beside the other modules *)

(** X23. [auto_runner.execute_workflow] cannot run a click step built by
    [parse_action_to_step]: it subscripts [args] with [x], which the
    parser never sets; the [KeyError] leaves the function before any
    call is made, and the steps after it are not reached. *)
Theorem parsed_click_breaks_auto_runner env description step_number rest t :
  contains "click" (lower description) = true →
  auto_runner.execute_workflow env
    (workflow_parser.parse_action_to_step description step_number :: rest) t =
  (Failed (KeyError "x"), t).
Proof.
  intros H. unfold workflow_parser.parse_action_to_step. rewrite H.
  cbn [orb auto_runner.execute_workflow].
  unfold auto_runner.execute_step, auto_runner.args_subscript, arg.
  cbn [action args default subscript String.eqb Ascii.eqb Bool.eqb].
  unfold id. by rewrite lookup_singleton_ne.
Qed.

Lemma parsed_click_breaks_auto_runner_witness :
  auto_runner.execute_workflow (calm_env Missing never)
    (workflow_parser.parse_action_to_step "Clicked button: Save" 1
     :: [click_at_10_20])
    {| auto_runner.calls := []; auto_runner.executed := [] |} =
  (Failed (KeyError "x"),
   {| auto_runner.calls := []; auto_runner.executed := [] |}).
Proof.
  apply (parsed_click_breaks_auto_runner (calm_env Missing never)
           "Clicked button: Save" 1 [click_at_10_20]).
  reflexivity.
Defined.

Lemma strip_leading_space s : strip (String " " s) = strip s.
Proof.
  unfold strip. cbn [rstrip].
  destruct (rstrip s) as [|c r]; reflexivity.
Qed.

Lemma split_on_no_colon s : after_colon s = None → split_on ":" s = [s].
Proof.
  induction s as [|c r IH]; simpl; [done|].
  destruct (Ascii.eqb c ":"); [done|]. intros H. by rewrite (IH H).
Qed.

Lemma target_of_button text otherwise :
  workflow_parser.target_of ("Clicked button: " +:+ text) otherwise =
    strip text.
Proof.
  unfold workflow_parser.target_of.
  change (after_colon ("Clicked button: " +:+ text))
    with (Some (String " " text)).
  apply strip_leading_space.
Qed.

(** X24. The text of a button survives the way through the action
    string: from ["Clicked button: " + text] both step builders,
    [generate_automation_steps] and [parse_action_to_step], make a click
    step whose target is the stripped text, if the text has no colon. *)
Theorem button_text_round_trip text i step_number :
  after_colon text = None →
  ∃ step,
    local_llm.step_of_action i ("Clicked button: " +:+ text) = Done step ∧
    action step = Some "click" ∧ target step = Some (strip text) ∧
    action (workflow_parser.parse_action_to_step
              ("Clicked button: " +:+ text) step_number) = Some "click" ∧
    target (workflow_parser.parse_action_to_step
              ("Clicked button: " +:+ text) step_number) = Some (strip text).
Proof.
  intros H.
  assert (local_llm.second_field ("Clicked button: " +:+ text)
          = Done (String " " text)) as Hf.
  { unfold local_llm.second_field.
    change (split_on ":" ("Clicked button: " +:+ text))
      with ("Clicked button" :: split_on ":" (String " " text)).
    rewrite split_on_no_colon; [reflexivity|exact H]. }
  eexists. split; [|split; [|split; [|split]]].
  - unfold local_llm.step_of_action.
    change (contains "Clicked button" ("Clicked button: " +:+ text))
      with true.
    cbn iota. rewrite Hf. reflexivity.
  - reflexivity.
  - cbn [target]. by rewrite strip_leading_space.
  - reflexivity.
  - unfold workflow_parser.parse_action_to_step.
    change (contains "click" (lower ("Clicked button: " +:+ text)))
      with true.
    cbn [orb target]. by rewrite target_of_button.
Qed.

Lemma button_text_round_trip_witness :
  ∃ step,
    local_llm.step_of_action 0 ("Clicked button: " +:+ "Save ") = Done step ∧
    action step = Some "click" ∧ target step = Some (strip "Save ") ∧
    action (workflow_parser.parse_action_to_step
              ("Clicked button: " +:+ "Save ") 1) = Some "click" ∧
    target (workflow_parser.parse_action_to_step
              ("Clicked button: " +:+ "Save ") 1) = Some (strip "Save ").
Proof. apply (button_text_round_trip "Save " 0 1). reflexivity. Defined.

(** With a colon in the text the two differ. *)
Example button_text_with_colon :
  local_llm.step_of_action 0 "Clicked button: Save: all" =
    Done {| step_num := Some 1; action := Some "click";
            target := Some "Save"; args := None;
            description := Some "Click button 'Save'"; command := None |} ∧
  target (workflow_parser.parse_action_to_step "Clicked button: Save: all" 1)
    = Some "Save: all".
Proof. split; reflexivity. Qed.

Lemma total_length_split_plus s :
  (total_length (split_plus s) + List.length (split_plus s)
   = S (String.length s))%nat.
Proof.
  induction s as [|c r IH]; [reflexivity|]. cbn [split_plus].
  destruct (Ascii.eqb c "+").
  - cbn [total_length fold_right List.length String.length] in *.
    unfold total_length in IH. lia.
  - pose proof (split_plus_nonempty r) as Hn.
    destruct (split_plus r) as [|h t]; [done|].
    cbn [total_length fold_right List.length String.length] in *. lia.
Qed.

Lemma characters_length s :
  total_length (characters s) = String.length s ∧
  List.length (characters s) = String.length s.
Proof.
  induction s as [|c r [IH1 IH2]]; [done|].
  cbn [characters total_length fold_right List.length String.length].
  unfold total_length in IH1. rewrite IH1, IH2. done.
Qed.

Lemma lower_length s : String.length (lower s) = String.length s.
Proof. induction s as [|c r IH]; simpl; [done|]. by rewrite IH. Qed.

Lemma remove_spaces_length s :
  (String.length (remove_spaces s) ≤ String.length s)%nat.
Proof.
  induction s as [|c r IH]; simpl; [done|].
  destruct (Ascii.eqb c " "); simpl; lia.
Qed.

(** X25. [auto_runner] unpacks the key string into the arguments of
    [hotkey] and so presses its characters one by one, where the
    dashboard and the runner press the names between its [+] signs: for
    an ASCII key string, the same keys only for a string of one
    character that is itself a normalised key name. *)
Theorem hotkey_by_character keys :
  all_chars is_ascii keys = true →
  (characters keys = parse_hotkey keys ↔
   ∃ c, keys = String c EmptyString ∧ key_char c = true).
Proof.
  intros _. split.
  - intros H.
    pose proof (total_length_split_plus (remove_spaces (lower keys))) as Ht.
    fold (parse_hotkey keys) in Ht. rewrite <- H in Ht.
    destruct (characters_length keys) as [H1 H2]. rewrite H1, H2 in Ht.
    pose proof (remove_spaces_length (lower keys)) as Hr.
    rewrite lower_length in Hr.
    destruct keys as [|c [|c' r]]; [discriminate| |simpl in *; lia].
    exists c. split; [reflexivity|].
    unfold parse_hotkey in H. cbn [lower remove_spaces characters] in H.
    unfold key_char.
    destruct (Ascii.eqb (lower_ascii c) " ") eqn:Hs; [discriminate|].
    cbn [split_plus] in H.
    destruct (Ascii.eqb (lower_ascii c) "+") eqn:Hp; [discriminate|].
    injection H as H. rewrite <- H in Hs, Hp. rewrite Hs, Hp. simpl.
    by apply Ascii.eqb_eq.
  - intros (c & -> & H). unfold key_char in H.
    apply andb_true_iff in H as [H Hl]. apply andb_true_iff in H as [Hp Hs].
    apply Ascii.eqb_eq in Hl. apply negb_true_iff in Hp, Hs.
    unfold parse_hotkey. cbn [lower remove_spaces characters].
    rewrite Hl, Hs. cbn [remove_spaces split_plus]. by rewrite Hp.
Qed.

Lemma hotkey_by_character_witness :
  characters "s" = parse_hotkey "s" ↔
  ∃ c, "s" = String c EmptyString ∧ key_char c = true.
Proof. apply (hotkey_by_character "s"). reflexivity. Defined.

(** On a key string of several characters the two differ. *)
Example hotkey_by_character_ctrl_s :
  characters "ctrl+s" = ["c"; "t"; "r"; "l"; "+"; "s"] ∧
  parse_hotkey "ctrl+s" = ["ctrl"; "s"].
Proof. split; reflexivity. Qed.

